(** * Type hierarchy sessions: model, session registry and API commands

    A shallow embedding of
    [src/vs/workbench/contrib/typeHierarchy/common/typeHierarchy.ts].

    The TypeScript classes mutate shared objects (the reference counter of a
    [RefCountedDisposable], the module-level [_models] map) and call into
    provider code that may throw.  Both are made explicit here: every
    operation is a function in a state-and-exception monad [M] over a
    [World] that holds the heap of reference-counted handles, the registry
    and a trace: the calls that leave the module (session disposal,
    provider calls, the unexpected-error handler) and the [dispose()] calls
    on models, in the order they happen.

    The [async] functions are modelled one call at a time: an [await]
    either continues with the resolved value or raises the rejection, and a
    command runs to completion before the next one starts.  The registry
    update of the prepare command contains no [await], so it is one step in
    the source as well. *)

From stdpp Require Import base tactics option numbers strings list.

Open Scope string_scope.
Open Scope list_scope.

(** ** Run-time values

    Command arguments are typed [any] and provider answers are checked at
    run time, so they are modelled as untyped JavaScript values. *)

#[warnings="-register-all"]
Inductive JsValue : Type :=
| JsUndefined
| JsNull
| JsBoolean (b : bool)
| JsNumber (n : Z)
| JsString (s : string)
| JsObject (props : list (string * JsValue))
| JsArray (elems : list JsValue).

(** The [typeof] operator; [null] and arrays are objects. *)
Definition typeof (v : JsValue) : string :=
  match v with
  | JsUndefined => "undefined"
  | JsNull => "object"
  | JsBoolean _ => "boolean"
  | JsNumber _ => "number"
  | JsString _ => "string"
  | JsObject _ => "object"
  | JsArray _ => "object"
  end.

Inductive Error : Type :=
| UnexpectedType            (* thrown by [assertType] *)
| NullPropertyAccess        (* TypeError: property read on null or undefined *)
| ExternalError (code : nat) (* anything raised by a provider or a service *).

(** Normal or abrupt completion of a synchronous computation, or the
    settled state of an awaited promise. *)
Inductive Completion (A : Type) : Type :=
| Return (a : A)
| Throw (e : Error).
Arguments Return {A} a.
Arguments Throw {A} e.

#[global] Instance Completion_ret : MRet Completion := fun A a => Return a.
#[global] Instance Completion_bind : MBind Completion := fun A B f c =>
  match c with
  | Return a => f a
  | Throw e => Throw e
  end.

Fixpoint assoc {A : Type} (key : string) (l : list (string * A)) : option A :=
  match l with
  | [] => None
  | (k, v) :: rest => if String.eqb k key then Some v else assoc key rest
  end.

(** Property read [obj.key].  Own data properties only: the objects that
    reach this module are deserialised command arguments. *)
Definition get_prop (obj : JsValue) (key : string) : Completion JsValue :=
  match obj with
  | JsUndefined | JsNull => Throw NullPropertyAccess
  | JsObject props => Return (default JsUndefined (assoc key props))
  | _ => Return JsUndefined
  end.

(** Array destructuring [const [a, b] = args]. *)
Definition arg (i : nat) (args : list JsValue) : JsValue :=
  default JsUndefined (args !! i).

(** ** Interfaces *)

Record URI : Type := mkURI {
  scheme : string; authority : string; path : string;
  query : string; fragment : string }.

Record IRange : Type := mkRange {
  startLineNumber : Z; startColumn : Z; endLineNumber : Z; endColumn : Z }.

Module TypeHierarchyItem.
Record t : Type := mk {
  _sessionId : string;
  _itemId : string;
  name : string;
  kind : Z;
  detail : option string;
  uri : URI;
  range : IRange;
  selectionRange : IRange;
  tags : option (list Z) }.
End TypeHierarchyItem.

Module TypeHierarchySession.
(** [dispose()] is provider code, like the methods of a provider: the call
    returns or throws, and the trace records that it ran.  [oid] is the
    identity of the session object. *)
Record t : Type := mk {
  oid : nat;
  roots : list TypeHierarchyItem.t;
  dispose : Completion unit }.
End TypeHierarchySession.

Record ITextModel : Type := mkTextModel { textModelId : nat }.

Module CancellationToken.
Record t : Type := mk { isCancellationRequested : bool }.
(** The token that is never cancelled. *)
Definition None : t := mk false.
End CancellationToken.

(** What a call into foreign code does: the call throws synchronously, or
    returns a promise (or plain value) that resolves or rejects. *)
Inductive Outcome (A : Type) : Type :=
| Resolves (a : A)
| Rejects (e : Error)
| Throws (e : Error).
Arguments Resolves {A} a.
Arguments Rejects {A} e.
Arguments Throws {A} e.

Module TypeHierarchyProvider.
(** [ProviderResult<T>] is [T | undefined | null] or a promise of it;
    [None] stands for the two absent values, which [!session] does not
    tell apart. *)
Record t : Type := mk {
  prepareTypeHierarchy :
    ITextModel -> JsValue -> CancellationToken.t -> Outcome (option TypeHierarchySession.t);
  provideSupertypes : JsValue -> CancellationToken.t -> Outcome JsValue;
  provideSubtypes : JsValue -> CancellationToken.t -> Outcome JsValue }.
End TypeHierarchyProvider.

(** Address of a [RefCountedDisposable] on the heap. *)
Definition Ref : Type := nat.

(** Modelled from the spec: a [RefCountedDisposable] of
    [vs/base/common/lifecycle] wraps exactly one disposable, here a
    provider session, and an integer reference count. *)
Record RefCountedDisposable : Type := mkRefCounted {
  _counter : Z;
  _disposable : TypeHierarchySession.t }.

Record TypeHierarchyModel : Type := mkModel {
  id : string;
  provider : TypeHierarchyProvider.t;
  roots : list TypeHierarchyItem.t;
  ref : Ref;
  root : option TypeHierarchyItem.t }.

Record IReference : Type := mkReference {
  referenceId : nat;
  textEditorModel : ITextModel }.

Record ServicesAccessor : Type := mkAccessor {
  getModel : JsValue -> option ITextModel;
  createModelReference : JsValue -> Outcome IReference }.

(** Functions and tables this file imports from the rest of the workbench.
    Their code is not part of the module; the commands are verified for
    every choice of them. *)
Class Platform : Type := {
  (** [URI.isUri] *)
  isUri : JsValue -> bool;
  (** [Range.isIRange] *)
  isIRange : JsValue -> bool;
  (** [Position.isIPosition] *)
  isIPosition : JsValue -> bool;
  (** [TypeHierarchyProviderRegistry.ordered] *)
  ordered : ITextModel -> list TypeHierarchyProvider.t }.

(** ** The world *)

Inductive Event : Type :=
| SessionDispose (s : TypeHierarchySession.t)
| ModelDispose (m : TypeHierarchyModel)
| UnexpectedExternalError (e : Error)
| PrepareTypeHierarchyCall (p : TypeHierarchyProvider.t) (doc : ITextModel)
    (position : JsValue) (token : CancellationToken.t)
| ProvideSupertypesCall (p : TypeHierarchyProvider.t) (item : JsValue)
    (token : CancellationToken.t)
| ProvideSubtypesCall (p : TypeHierarchyProvider.t) (item : JsValue)
    (token : CancellationToken.t)
| ReferenceDispose (r : IReference).

Record World : Type := mkWorld {
  heap : list RefCountedDisposable;
  (** [const _models = new Map<string, TypeHierarchyModel>()], in insertion
      order. *)
  _models : list (string * TypeHierarchyModel);
  trace : list Event }.

Definition M (A : Type) : Type := World -> Completion A * World.

#[global] Instance M_ret : MRet M := fun A a w => (Return a, w).
#[global] Instance M_bind : MBind M := fun A B f m w =>
  match m w with
  | (Return a, w') => f a w'
  | (Throw e, w') => (Throw e, w')
  end.

Definition throw {A : Type} (e : Error) : M A := fun w => (Throw e, w).

Definition emit (ev : Event) : M unit :=
  fun w => (Return tt, mkWorld (heap w) (_models w) (trace w ++ [ev])).

Definition liftC {A : Type} (c : Completion A) : M A := fun w => (c, w).

(** [await call()] inside an [async] function: a synchronous throw and a
    rejection both surface as an exception at the [await]. *)
Definition await {A : Type} (o : Outcome A) : M A :=
  match o with
  | Resolves a => mret a
  | Rejects e => throw e
  | Throws e => throw e
  end.

Definition try_catch {A : Type} (body : M A) (handler : Error -> M A) : M A :=
  fun w =>
    match body w with
    | (Return a, w') => (Return a, w')
    | (Throw e, w') => handler e w'
    end.

Definition try_finally {A : Type} (body : M A) (finalizer : M unit) : M A :=
  fun w =>
    match body w with
    | (c, w') =>
        match finalizer w' with
        | (Return _, w'') => (c, w'')
        | (Throw e, w'') => (Throw e, w'')
        end
    end.

Definition exec {A : Type} (m : M A) (w : World) : World := snd (m w).
Definition result {A : Type} (m : M A) (w : World) : Completion A := fst (m w).

Fixpoint for_each {A : Type} (f : A -> M unit) (l : list A) : M unit :=
  match l with
  | [] => mret tt
  | x :: rest => f x ≫= fun _ => for_each f rest
  end.

Fixpoint map_M {A B : Type} (f : A -> M B) (l : list A) : M (list B) :=
  match l with
  | [] => mret []
  | x :: rest => y ← f x; ys ← map_M f rest; mret (y :: ys)
  end.

(** ** Imported helpers *)

(** Modelled from the spec: [assertType] of [vs/base/common/types] is not in
    the module.  Malformed input fails fast with a type-validation error. *)
Definition assertType (condition : bool) : M unit :=
  if condition then mret tt else throw UnexpectedType.

(** Modelled from the spec: [isNonEmptyArray] of [vs/base/common/arrays].
    An empty or non-array result is not a non-empty array. *)
Definition isNonEmptyArray (obj : JsValue) : bool :=
  match obj with
  | JsArray (_ :: _) => true
  | _ => false
  end.

(** Modelled from the spec: [onUnexpectedExternalError] of
    [vs/base/common/errors] hands the error to the unexpected-error sink;
    the trace is that sink. *)
Definition onUnexpectedExternalError (e : Error) : M unit :=
  emit (UnexpectedExternalError e).

(** ** RefCountedDisposable *)

(** Modelled from the spec: the class [RefCountedDisposable] of
    [vs/base/common/lifecycle].  A handle wraps one session and a count
    that starts at 1. *)
Definition new_RefCountedDisposable (d : TypeHierarchySession.t) : M Ref :=
  fun w => (Return (length (heap w)),
            mkWorld (heap w ++ [mkRefCounted 1%Z d]) (_models w) (trace w)).

(** Modelled from the spec: [acquire()] increments the count and returns a
    handle value that refers to the same session.  The count is shared by
    all handles of a session, so a handle value is the address of the one
    counted cell.  A dangling address does not occur and is left alone. *)
Definition acquire (r : Ref) : M Ref :=
  fun w =>
    match heap w !! r with
    | Some c =>
        (Return r,
         mkWorld (<[r := mkRefCounted (_counter c + 1)%Z (_disposable c)]> (heap w))
                 (_models w) (trace w))
    | None => (Return r, w)
    end.

(** Modelled from the spec: [release()] decrements the count and, when it
    reaches zero, calls the session's [dispose()].  The count is written
    before the call, so it stays decremented when the call throws. *)
Definition release (r : Ref) : M Ref :=
  fun w =>
    match heap w !! r with
    | Some c =>
        let n := (_counter c - 1)%Z in
        let w' := mkWorld (<[r := mkRefCounted n (_disposable c)]> (heap w))
                          (_models w) (trace w) in
        if (n =? 0)%Z
        then (emit (SessionDispose (_disposable c)) ≫= fun _ =>
              liftC (TypeHierarchySession.dispose (_disposable c)) ≫= fun _ =>
              mret r) w'
        else (Return r, w')
    | None => (Return r, w)
    end.

(** ** TypeHierarchyModel *)

Section Model.
Context `{Platform}.

(** The private constructor: [this.root = roots[0]]. *)
Definition new_TypeHierarchyModel (id : string) (provider : TypeHierarchyProvider.t)
    (roots : list TypeHierarchyItem.t) (ref : Ref) : TypeHierarchyModel :=
  mkModel id provider roots ref (roots !! 0).

Definition create (model : ITextModel) (position : JsValue)
    (token : CancellationToken.t) : M (option TypeHierarchyModel) :=
  match ordered model with
  | [] => mret None
  | provider :: _ =>
      emit (PrepareTypeHierarchyCall provider model position token) ≫= fun _ =>
      session ← await (TypeHierarchyProvider.prepareTypeHierarchy provider model position token);
      match session with
      | None => mret None
      | Some session =>
          ref ← new_RefCountedDisposable session;
          mret (Some (new_TypeHierarchyModel
                        (foldl (fun p c => p +:+ TypeHierarchyItem._sessionId c) ""
                               (TypeHierarchySession.roots session))
                        provider (TypeHierarchySession.roots session) ref))
      end
  end.

Definition dispose (this : TypeHierarchyModel) : M unit :=
  emit (ModelDispose this) ≫= fun _ =>
  release (ref this) ≫= fun _ => mret tt.

Definition fork (that : TypeHierarchyModel) (item : TypeHierarchyItem.t)
    : M TypeHierarchyModel :=
  ref ← acquire (ref that);
  mret (new_TypeHierarchyModel (id that) (provider that) [item] ref).

(** The item is the command argument after validation and the answer is
    whatever the provider produced; both are run-time values. *)
Definition provideSupertypes (this : TypeHierarchyModel) (item : JsValue)
    (token : CancellationToken.t) : M JsValue :=
  try_catch
    (emit (ProvideSupertypesCall (provider this) item token) ≫= fun _ =>
     result ← await (TypeHierarchyProvider.provideSupertypes (provider this) item token);
     if isNonEmptyArray result then mret result else mret (JsArray []))
    (fun e => onUnexpectedExternalError e ≫= fun _ => mret (JsArray [])).

Definition provideSubtypes (this : TypeHierarchyModel) (item : JsValue)
    (token : CancellationToken.t) : M JsValue :=
  try_catch
    (emit (ProvideSubtypesCall (provider this) item token) ≫= fun _ =>
     result ← await (TypeHierarchyProvider.provideSubtypes (provider this) item token);
     if isNonEmptyArray result then mret result else mret (JsArray []))
    (fun e => onUnexpectedExternalError e ≫= fun _ => mret (JsArray [])).

End Model.

(** ** The session registry [_models]

    A JavaScript [Map] keeps its entries in insertion order; [set] on a key
    that is present replaces the value where it stands. *)

Definition Entries : Type := list (string * TypeHierarchyModel).

Fixpoint Map_set (key : string) (value : TypeHierarchyModel) (m : Entries) : Entries :=
  match m with
  | [] => [(key, value)]
  | (k, v) :: rest =>
      if String.eqb k key then (k, value) :: rest
      else (k, v) :: Map_set key value rest
  end.

Definition Map_get (key : string) (m : Entries) : option TypeHierarchyModel :=
  assoc key m.

Fixpoint Map_delete (key : string) (m : Entries) : Entries :=
  match m with
  | [] => []
  | (k, v) :: rest =>
      if String.eqb k key then rest else (k, v) :: Map_delete key rest
  end.

Definition Map_size (m : Entries) : Z := Z.of_nat (length m).

(** [_models.get(k)] for a key of any type: the keys of [_models] are all
    strings, and [Map] compares keys without conversion, so only a string
    can hit. *)
Definition Map_get_any (key : JsValue) (m : Entries) : option TypeHierarchyModel :=
  match key with
  | JsString s => Map_get s m
  | _ => None
  end.

Definition models_get (key : JsValue) : M (option TypeHierarchyModel) :=
  fun w => (Return (Map_get_any key (_models w)), w).

Definition models_size : M Z :=
  fun w => (Return (Map_size (_models w)), w).

Definition models_set (key : string) (value : TypeHierarchyModel) : M unit :=
  fun w => (Return tt, mkWorld (heap w) (Map_set key value (_models w)) (trace w)).

Definition models_delete (key : string) : M unit :=
  fun w => (Return tt, mkWorld (heap w) (Map_delete key (_models w)) (trace w)).

(** [Map.prototype.forEach]: the entries are visited in insertion order and
    an entry deleted before its turn is skipped.  [pending] is the part of
    the entry list not yet visited; the callbacks of this module only
    delete, so no entry appears behind the ones listed when the scan
    starts. *)
Fixpoint forEach_from (pending : Entries)
    (callback : TypeHierarchyModel -> string -> M unit) : M unit :=
  match pending with
  | [] => mret tt
  | (key, _) :: rest =>
      current ← models_get (JsString key);
      match current with
      | Some value => callback value key ≫= fun _ => forEach_from rest callback
      | None => forEach_from rest callback
      end
  end.

Definition models_forEach (callback : TypeHierarchyModel -> string -> M unit) : M unit :=
  fun w => forEach_from (_models w) callback w.

Section Commands.
Context `{Platform}.

(** The callback of the scan at lines 139-144; [map] is [_models]. *)
Definition evict_callback (value : TypeHierarchyModel) (key : string) : M unit :=
  size ← models_size;
  if (10 <? size)%Z
  then dispose value ≫= fun _ => models_delete key
  else mret tt.

(** Lines 138-144 of the prepare command: insert, then scan. *)
Definition models_put (model : TypeHierarchyModel) : M unit :=
  models_set (id model) model ≫= fun _ =>
  models_forEach evict_callback.

(** The [try] block of the prepare command, lines 133-145.  The array
    returned holds [model.root], which is undefined when the provider
    gave no roots. *)
Definition prepare_try_block (textModel : ITextModel) (position : JsValue)
    : M (list (option TypeHierarchyItem.t)) :=
  model ← create textModel position CancellationToken.None;
  match model with
  | None => mret []
  | Some model =>
      models_put model ≫= fun _ =>
      mret [root model]
  end.

Definition _executePrepareTypeHierarchy (accessor : ServicesAccessor)
    (args : list JsValue) : M (list (option TypeHierarchyItem.t)) :=
  let resource := arg 0 args in
  let position := arg 1 args in
  assertType (isUri resource) ≫= fun _ =>
  assertType (isIPosition position) ≫= fun _ =>
  '(textModel, textModelReference) ←
    match getModel accessor resource with
    | Some textModel => mret (textModel, None)
    | None =>
        result ← await (createModelReference accessor resource);
        mret (textEditorModel result, Some result)
    end;
  try_finally
    (prepare_try_block textModel position)
    (match textModelReference with
     | Some r => emit (ReferenceDispose r)
     | None => mret tt
     end).

Definition isTypeHierarchyItemDto (obj : JsValue) : Completion bool :=
  if negb (String.eqb (typeof obj) "object") then Return false else
  name ← get_prop obj "name";
  if negb (String.eqb (typeof name) "string") then Return false else
  kind ← get_prop obj "kind";
  if negb (String.eqb (typeof kind) "number") then Return false else
  uri ← get_prop obj "uri";
  if negb (isUri uri) then Return false else
  range ← get_prop obj "range";
  if negb (isIRange range) then Return false else
  selectionRange ← get_prop obj "selectionRange";
  Return (isIRange selectionRange).

Definition _executeProvideSupertypes (_accessor : ServicesAccessor)
    (args : list JsValue) : M JsValue :=
  let item := arg 0 args in
  ok ← liftC (isTypeHierarchyItemDto item);
  assertType ok ≫= fun _ =>
  sessionId ← liftC (get_prop item "_sessionId");
  model ← models_get sessionId;
  match model with
  | None => mret JsUndefined
  | Some model => provideSupertypes model item CancellationToken.None
  end.

Definition _executeProvideSubtypes (_accessor : ServicesAccessor)
    (args : list JsValue) : M JsValue :=
  let item := arg 0 args in
  ok ← liftC (isTypeHierarchyItemDto item);
  assertType ok ≫= fun _ =>
  sessionId ← liftC (get_prop item "_sessionId");
  model ← models_get sessionId;
  match model with
  | None => mret JsUndefined
  | Some model => provideSubtypes model item CancellationToken.None
  end.

End Commands.

(** ** Reading the trace *)

Definition session_disposals (t : list Event) : list TypeHierarchySession.t :=
  omap (fun ev => match ev with SessionDispose s => Some s | _ => None end) t.

Definition model_disposals (t : list Event) : list TypeHierarchyModel :=
  omap (fun ev => match ev with ModelDispose m => Some m | _ => None end) t.

Definition unexpected_errors (t : list Event) : list Error :=
  omap (fun ev => match ev with UnexpectedExternalError e => Some e | _ => None end) t.

Definition is_expansion_call (ev : Event) : bool :=
  match ev with
  | ProvideSupertypesCall _ _ _ | ProvideSubtypesCall _ _ _ => true
  | _ => false
  end.

Definition expansion_calls (t : list Event) : list Event :=
  List.filter is_expansion_call t.

Definition with_trace (w : World) (t : list Event) : World :=
  mkWorld (heap w) (_models w) t.

(** What holds of the registry after a run of insertions of the models
    [inserted]: the bound, unique keys, and no model (told apart by its
    handle) both registered and disposed, or disposed twice. *)
Definition registry_inv (inserted : list TypeHierarchyModel) (w : World) : Prop :=
  (Map_size (_models w) <= 10)%Z /\
  NoDup (_models w).*1 /\
  NoDup (ref <$> ((_models w).*2 ++ model_disposals (trace w))) /\
  (forall m, m ∈ (_models w).*2 ++ model_disposals (trace w) -> m ∈ inserted).

(** The strings of a list joined in order. *)
Definition concatenation (parts : list string) : string :=
  foldr String.append "" parts.

(** A request to one of the three commands. *)
Inductive Command : Type :=
| Prepare (accessor : ServicesAccessor) (args : list JsValue)
| ExpandUp (accessor : ServicesAccessor) (args : list JsValue)
| ExpandDown (accessor : ServicesAccessor) (args : list JsValue).

(** The world after a request.  The result, or the error, goes to the
    caller; the next request finds the world the command left. *)
Definition after_command `{Platform} (c : Command) (w : World) : World :=
  match c with
  | Prepare accessor args => exec (_executePrepareTypeHierarchy accessor args) w
  | ExpandUp accessor args => exec (_executeProvideSupertypes accessor args) w
  | ExpandDown accessor args => exec (_executeProvideSubtypes accessor args) w
  end.

Definition after_commands `{Platform} (cs : list Command) (w : World) : World :=
  foldl (fun w c => after_command c w) w cs.

(** What the commands maintain: the registry invariant, and that the
    handle of every registered or disposed model exists. *)
Definition system_inv (w : World) : Prop :=
  registry_inv ((_models w).*2 ++ model_disposals (trace w)) w /\
  (forall m, m ∈ (_models w).*2 ++ model_disposals (trace w) ->
             (ref m < length (heap w))%nat).

(** More readers of the trace. *)
Definition reference_disposals (t : list Event) : list IReference :=
  omap (fun ev => match ev with ReferenceDispose r => Some r | _ => None end) t.

Definition is_disposal (ev : Event) : bool :=
  match ev with
  | SessionDispose _ | ModelDispose _ => true
  | _ => false
  end.

(** The cancellation token a call into a provider was given. *)
Definition call_token (ev : Event) : option CancellationToken.t :=
  match ev with
  | PrepareTypeHierarchyCall _ _ _ token
  | ProvideSupertypesCall _ _ token
  | ProvideSubtypesCall _ _ token => Some token
  | _ => None
  end.

(** What the expansion methods make of a provider's answer. *)
Definition expansion_result (answer : Outcome JsValue) : JsValue :=
  match answer with
  | Resolves v => if isNonEmptyArray v then v else JsArray []
  | Rejects _ | Throws _ => JsArray []
  end.

(** Every model the registry disposed has a handle with count zero, and
    the sessions disposed are the sessions of these handles, in the same
    order. *)
Definition evictions_released (w : World) : Prop :=
  Forall2 (fun m s => heap w !! ref m = Some (mkRefCounted 0 s))
    (model_disposals (trace w)) (session_disposals (trace w)).

(** Every registered model holds the only reference to its session. *)
Definition registered_hold_one (w : World) : Prop :=
  forall m, m ∈ (_models w).*2 ->
    exists s, heap w !! ref m = Some (mkRefCounted 1 s).

(** What a [dispose()] of a model whose handle is the cell [c] comes to:
    the session's [dispose()] when this release is the last, nothing
    otherwise. *)
Definition dispose_outcome (c : RefCountedDisposable) : Completion unit :=
  if (_counter c - 1 =? 0)%Z
  then TypeHierarchySession.dispose (_disposable c) ≫= fun _ => Return tt
  else Return tt.

(** No session held by a handle throws from its [dispose()]. *)
Definition sessions_dispose_quietly (w : World) : Prop :=
  Forall (fun c => TypeHierarchySession.dispose (_disposable c) = Return tt) (heap w).

(** No session that a provider hands out throws from its [dispose()]. *)
Definition providers_dispose_quietly `{Platform} : Prop :=
  forall doc position token p ps session,
    ordered doc = p :: ps ->
    TypeHierarchyProvider.prepareTypeHierarchy p doc position token
      = Resolves (Some session) ->
    TypeHierarchySession.dispose session = Return tt.

(** The world after a sequence of insertions, each one the insertion of a
    prepare request of its own: an insertion that fails does not keep the
    later ones from running. *)
Definition after_insertions (models : list TypeHierarchyModel) (w : World) : World :=
  foldl (fun w m => exec (models_put m) w) w models.

(** ** Sample inputs *)

Module Samples.

Definition item (sessionId itemId : string) : TypeHierarchyItem.t :=
  TypeHierarchyItem.mk sessionId itemId "Shape" 4%Z None
    (mkURI "file" "" "/shape.ts" "" "") (mkRange 1 1 9 2)%Z (mkRange 1 7 1 12)%Z None.

Definition A : TypeHierarchyItem.t := item "S1" "A".
Definition B : TypeHierarchyItem.t := item "S2" "B".

Definition one_root : TypeHierarchySession.t :=
  TypeHierarchySession.mk 0 [A] (Return tt).
Definition two_roots : TypeHierarchySession.t :=
  TypeHierarchySession.mk 1 [A; B] (Return tt).

(** Answers every prepare with the given session, whatever the token
    says; expands upwards to one node and fails downwards. *)
Definition provider_of (s : option TypeHierarchySession.t) : TypeHierarchyProvider.t :=
  TypeHierarchyProvider.mk
    (fun _ _ _ => Resolves s)
    (fun _ _ => Resolves (JsArray [JsString "B"]))
    (fun _ _ => Rejects (ExternalError 7)).

(** Honours the token: no session once cancellation is requested. *)
Definition polite_provider : TypeHierarchyProvider.t :=
  TypeHierarchyProvider.mk
    (fun _ _ token =>
       if CancellationToken.isCancellationRequested token
       then Resolves None else Resolves (Some one_root))
    (fun _ _ => Resolves JsUndefined)
    (fun _ _ => Resolves JsUndefined).

Definition has_prop (key : string) (v : JsValue) : bool :=
  match v with
  | JsObject props => bool_decide (is_Some (assoc key props))
  | _ => false
  end.

Definition platform_of (providers : list TypeHierarchyProvider.t) : Platform :=
  {| isUri := has_prop "scheme";
     isIRange := has_prop "startLineNumber";
     isIPosition := has_prop "lineNumber";
     ordered := fun _ => providers |}.

Definition document : ITextModel := mkTextModel 0.
Definition resource : JsValue := JsObject [("scheme", JsString "file")].
Definition position : JsValue :=
  JsObject [("lineNumber", JsNumber 1); ("column", JsNumber 7)].
Definition some_range : JsValue := JsObject [("startLineNumber", JsNumber 1)].

Definition accessor : ServicesAccessor :=
  mkAccessor (fun _ => Some document) (fun _ => Rejects (ExternalError 0)).

Definition cancelled : CancellationToken.t := CancellationToken.mk true.

Definition empty_world : World := mkWorld [] [] [].

(** A node that passes validation but carries no [_sessionId]. *)
Definition dto_without_session : JsValue :=
  JsObject [("name", JsString "Shape"); ("kind", JsNumber 4); ("uri", resource);
            ("range", some_range); ("selectionRange", some_range)].

Definition dto (sessionId : string) : JsValue :=
  JsObject [("_sessionId", JsString sessionId); ("_itemId", JsString "A");
            ("name", JsString "Shape"); ("kind", JsNumber 4); ("uri", resource);
            ("range", some_range); ("selectionRange", some_range)].

Definition platform : Platform := platform_of [provider_of (Some one_root)].

Definition created_model : TypeHierarchyModel :=
  new_TypeHierarchyModel "S1" (provider_of (Some one_root)) [A] 0.

Definition created_world : World :=
  mkWorld [mkRefCounted 1 one_root] []
    [PrepareTypeHierarchyCall (provider_of (Some one_root)) document position
       CancellationToken.None].

(** A platform whose only provider ignores cancellation and answers with
    two roots. *)
Definition platform2 : Platform := platform_of [provider_of (Some two_roots)].

Definition ten_keys : list string :=
  ["k0"; "k1"; "k2"; "k3"; "k4"; "k5"; "k6"; "k7"; "k8"; "k9"].

Definition model_at (r : Ref) (key : string) : TypeHierarchyModel :=
  new_TypeHierarchyModel key (provider_of (Some one_root)) [item key "A"] r.

(** No open buffer: the command has to open a model reference. *)
Definition opening_accessor : ServicesAccessor :=
  mkAccessor (fun _ => None) (fun _ => Resolves (mkReference 1 document)).

(** A provider whose prepare call rejects. *)
Definition failing_provider : TypeHierarchyProvider.t :=
  TypeHierarchyProvider.mk
    (fun _ _ _ => Rejects (ExternalError 3))
    (fun _ _ => Resolves JsUndefined)
    (fun _ _ => Resolves JsUndefined).

(** Ten models under ten keys, with the handles 0 to 9. *)
Definition ten_models : list TypeHierarchyModel := imap model_at ten_keys.

Definition eleventh : TypeHierarchyModel := model_at 10 "k10".


(** A session whose [dispose()] throws. *)
Definition throwing_session : TypeHierarchySession.t :=
  TypeHierarchySession.mk 2 [A] (Throw (ExternalError 9)).

(** Twelve handles with count one, as twelve calls of [create] leave
    them; the first holds the given session. *)
Definition twelve_handles (first : TypeHierarchySession.t) : World :=
  mkWorld (mkRefCounted 1 first :: replicate 11 (mkRefCounted 1 one_root)) [] [].

(** The ten models registered over these handles. *)
Definition ten_registered (first : TypeHierarchySession.t) : World :=
  after_insertions ten_models (twelve_handles first).

(** A provider whose session has one root, with the [_sessionId] k0. *)
Definition k0_session : TypeHierarchySession.t :=
  TypeHierarchySession.mk 3 [item "k0" "A"] (Return tt).
Definition platform_k0 : Platform := platform_of [provider_of (Some k0_session)].

Definition position_at (line : Z) : JsValue :=
  JsObject [("lineNumber", JsNumber line); ("column", JsNumber 1)].

(** The session for a line: one root, whose [_sessionId] is the key with
    the number of the line. *)
Definition line_session (line : nat) : TypeHierarchySession.t :=
  TypeHierarchySession.mk line
    [item (default "k" ((ten_keys ++ ["k10"; "k11"]) !! line)) "A"] (Return tt).

(** A provider that answers every line with a session of its own. *)
Definition line_provider : TypeHierarchyProvider.t :=
  TypeHierarchyProvider.mk
    (fun _ position _ =>
       match position with
       | JsObject props =>
           match assoc "lineNumber" props with
           | Some (JsNumber n) => Resolves (Some (line_session (Z.to_nat n)))
           | _ => Resolves None
           end
       | _ => Resolves None
       end)
    (fun _ _ => Resolves (JsArray [JsString "B"]))
    (fun _ _ => Rejects (ExternalError 7)).

Definition line_platform : Platform := platform_of [line_provider].

(** Prepare requests at the lines 0 to 10, in this order. *)
Definition eleven_prepares : list Command :=
  (fun line : nat => Prepare accessor [resource; position_at (Z.of_nat line)])
    <$> seq 0 11.

End Samples.

(** * Properties *)

(** ** Unfolding the monad *)

Lemma bind_Return {A B : Type} (m : M A) (f : A -> M B) (w w' : World) (a : A) :
  m w = (Return a, w') -> (m ≫= f) w = f a w'.
Proof. intros E. unfold mbind, M_bind. by rewrite E. Qed.

Lemma bind_Throw {A B : Type} (m : M A) (f : A -> M B) (w w' : World) (e : Error) :
  m w = (Throw e, w') -> (m ≫= f) w = (Throw e, w').
Proof. intros E. unfold mbind, M_bind. by rewrite E. Qed.

Ltac unfold_M :=
  unfold mbind, mret, M_bind, M_ret, Completion_bind, Completion_ret,
    throw, emit, liftC, await, try_catch, try_finally, assertType,
    onUnexpectedExternalError, models_get, models_size, models_set,
    models_delete, exec, result in *.

(** ** Expansion never fails the caller (C3) *)

Lemma provideSupertypes_run (this : TypeHierarchyModel) (item : JsValue)
    (token : CancellationToken.t) (w : World) :
  provideSupertypes this item token w =
  let call := ProvideSupertypesCall (provider this) item token in
  match TypeHierarchyProvider.provideSupertypes (provider this) item token with
  | Resolves v =>
      (Return (if isNonEmptyArray v then v else JsArray []),
       with_trace w (trace w ++ [call]))
  | Rejects e | Throws e =>
      (Return (JsArray []),
       with_trace w ((trace w ++ [call]) ++ [UnexpectedExternalError e]))
  end.
Proof.
  unfold provideSupertypes. unfold_M.
  destruct (TypeHierarchyProvider.provideSupertypes _ _ _) as [v|e|e]; simpl;
    try destruct (isNonEmptyArray v); reflexivity.
Qed.

Lemma provideSubtypes_run (this : TypeHierarchyModel) (item : JsValue)
    (token : CancellationToken.t) (w : World) :
  provideSubtypes this item token w =
  let call := ProvideSubtypesCall (provider this) item token in
  match TypeHierarchyProvider.provideSubtypes (provider this) item token with
  | Resolves v =>
      (Return (if isNonEmptyArray v then v else JsArray []),
       with_trace w (trace w ++ [call]))
  | Rejects e | Throws e =>
      (Return (JsArray []),
       with_trace w ((trace w ++ [call]) ++ [UnexpectedExternalError e]))
  end.
Proof.
  unfold provideSubtypes. unfold_M.
  destruct (TypeHierarchyProvider.provideSubtypes _ _ _) as [v|e|e]; simpl;
    try destruct (isNonEmptyArray v); reflexivity.
Qed.

Lemma unexpected_errors_app (t1 t2 : list Event) :
  unexpected_errors (t1 ++ t2) = unexpected_errors t1 ++ unexpected_errors t2.
Proof. apply omap_app. Qed.

(** C3.  [provideSupertypes] and [provideSubtypes] always return: when the
    provider throws or rejects, the error goes to the unexpected-error sink
    and the result is the empty array; an answer that is not a non-empty
    array (empty, undefined, null, not an array) gives the empty array and
    reports nothing; a non-empty array is returned as it is. *)
Theorem expansion_never_fails (this : TypeHierarchyModel) (item : JsValue)
    (token : CancellationToken.t) (w : World) :
  (let o := TypeHierarchyProvider.provideSupertypes (provider this) item token in
   let r := result (provideSupertypes this item token) w in
   let w' := exec (provideSupertypes this item token) w in
   (exists v, r = Return v) /\
   (forall e, o = Throws e \/ o = Rejects e ->
      r = Return (JsArray []) /\
      unexpected_errors (trace w') = unexpected_errors (trace w) ++ [e]) /\
   (forall v, o = Resolves v ->
      unexpected_errors (trace w') = unexpected_errors (trace w) /\
      ((forall x l, v <> JsArray (x :: l)) -> r = Return (JsArray [])) /\
      (forall x l, v = JsArray (x :: l) -> r = Return v))) /\
  (let o := TypeHierarchyProvider.provideSubtypes (provider this) item token in
   let r := result (provideSubtypes this item token) w in
   let w' := exec (provideSubtypes this item token) w in
   (exists v, r = Return v) /\
   (forall e, o = Throws e \/ o = Rejects e ->
      r = Return (JsArray []) /\
      unexpected_errors (trace w') = unexpected_errors (trace w) ++ [e]) /\
   (forall v, o = Resolves v ->
      unexpected_errors (trace w') = unexpected_errors (trace w) /\
      ((forall x l, v <> JsArray (x :: l)) -> r = Return (JsArray [])) /\
      (forall x l, v = JsArray (x :: l) -> r = Return v))).
Proof.
  split; cbv zeta; unfold result, exec;
    [rewrite provideSupertypes_run | rewrite provideSubtypes_run]; cbv zeta.
  all: match goal with
       | |- context [match ?o with Resolves _ => _ | Rejects _ => _ | Throws _ => _ end] =>
           destruct o as [v|e|e] eqn:Ho
       end; simpl.
  all: split; [eauto|split].
  all: try (intros e' [[=]|[=]]; subst;
            rewrite !unexpected_errors_app; simpl; by rewrite app_nil_r).
  all: try (intros v' [=]; subst; rewrite unexpected_errors_app; simpl;
            rewrite app_nil_r; split; [done|];
            split; [intros Hna; destruct v' as [| | | | | |[|x l]]; simpl; try done;
                    by destruct (Hna x l)
                   |by intros x l ->]).
  all: by intros v' [=].
Qed.

Lemma expansion_never_fails_witness :
  result (provideSupertypes (Samples.model_at 0 "S1") (Samples.dto "S1")
            CancellationToken.None) Samples.empty_world
    = Return (JsArray [JsString "B"]) /\
  result (provideSubtypes (Samples.model_at 0 "S1") (Samples.dto "S1")
            CancellationToken.None) Samples.empty_world
    = Return (JsArray []).
Proof.
  destruct (expansion_never_fails (Samples.model_at 0 "S1") (Samples.dto "S1")
              CancellationToken.None Samples.empty_world)
    as [(_ & _ & Hup) (_ & Hdown & _)].
  split.
  - exact (proj2 (proj2 (Hup (JsArray [JsString "B"]) eq_refl))
             (JsString "B") [] eq_refl).
  - exact (proj1 (Hdown (ExternalError 7) (or_intror eq_refl))).
Defined.

(** ** Forks share one reference count (C1) *)

Lemma session_disposals_app (t1 t2 : list Event) :
  session_disposals (t1 ++ t2) = session_disposals t1 ++ session_disposals t2.
Proof. apply omap_app. Qed.

Lemma model_disposals_app (t1 t2 : list Event) :
  model_disposals (t1 ++ t2) = model_disposals t1 ++ model_disposals t2.
Proof. apply omap_app. Qed.

Lemma dispose_run (this : TypeHierarchyModel) (w : World) (c : RefCountedDisposable) :
  heap w !! ref this = Some c ->
  dispose this w =
  (dispose_outcome c,
   mkWorld (<[ref this := mkRefCounted (_counter c - 1) (_disposable c)]> (heap w))
     (_models w)
     ((trace w ++ [ModelDispose this]) ++
      (if (_counter c - 1 =? 0)%Z then [SessionDispose (_disposable c)] else []))).
Proof.
  intros Hc. unfold dispose, release, dispose_outcome. unfold_M. simpl.
  rewrite Hc. simpl.
  destruct (_counter c - 1 =? 0)%Z; simpl; [|by rewrite app_nil_r].
  by destruct (TypeHierarchySession.dispose (_disposable c)).
Qed.

Lemma dispose_outcome_live (c : RefCountedDisposable) :
  (_counter c - 1)%Z <> 0%Z -> dispose_outcome c = Return tt.
Proof.
  intros Hlive. unfold dispose_outcome.
  by destruct (Z.eqb_spec (_counter c - 1) 0).
Qed.

Lemma dispose_outcome_last (c : RefCountedDisposable) :
  (_counter c - 1)%Z = 0%Z ->
  dispose_outcome c = TypeHierarchySession.dispose (_disposable c).
Proof.
  intros Hlast. unfold dispose_outcome. rewrite Hlast. simpl.
  by destruct (TypeHierarchySession.dispose (_disposable c)) as [[]|e].
Qed.

Lemma fork_run (that : TypeHierarchyModel) (item : TypeHierarchyItem.t) (w : World)
    (c : RefCountedDisposable) :
  heap w !! ref that = Some c ->
  fork that item w =
  (Return (new_TypeHierarchyModel (id that) (provider that) [item] (ref that)),
   mkWorld (<[ref that := mkRefCounted (_counter c + 1) (_disposable c)]> (heap w))
     (_models w) (trace w)).
Proof. intros Hc. unfold fork, acquire. unfold_M. by rewrite Hc. Qed.

(** Any number of forks: every fork holds the handle of the original and
    the count grows by one per fork. *)
Lemma forks_run (that : TypeHierarchyModel) (items : list TypeHierarchyItem.t) :
  forall (w : World) (n : Z) (s : TypeHierarchySession.t),
    heap w !! ref that = Some (mkRefCounted n s) ->
    exists forks w',
      map_M (fork that) items w = (Return forks, w') /\
      length forks = length items /\
      Forall (fun f => ref f = ref that) forks /\
      heap w' !! ref that = Some (mkRefCounted (n + Z.of_nat (length items)) s) /\
      trace w' = trace w /\ _models w' = _models w.
Proof.
  induction items as [|item items IH]; intros w n s Hc.
  - exists [], w. simpl. rewrite Z.add_0_r. done.
  - pose proof (lookup_lt_Some _ _ _ Hc) as Hlt.
    simpl map_M. erewrite bind_Return by (by apply fork_run).
    edestruct (IH (mkWorld (<[ref that := mkRefCounted (n + 1) s]> (heap w))
                     (_models w) (trace w)) (n + 1)%Z s)
      as (forks & w' & Hrun & Hlen & Hall & Hheap & Htr & Hmod).
    { simpl. by apply list_lookup_insert_eq. }
    eexists (_ :: forks), w'. simpl in *.
    erewrite bind_Return by exact Hrun. simpl.
    split_and!; auto.
    + rewrite Hheap. do 2 f_equal. lia.
Qed.

(** Releasing a shared handle once per holder: nothing is disposed while a
    holder is left, and the last release disposes the session; the outcome
    of the last disposal is the outcome of the session's [dispose()]. *)
Lemma dispose_all_run (r : Ref) (s : TypeHierarchySession.t)
    (holders : list TypeHierarchyModel) :
  forall (w : World) (n : Z),
    Forall (fun m => ref m = r) holders ->
    heap w !! r = Some (mkRefCounted n s) ->
    (Z.of_nat (length holders) <= n)%Z ->
    exists c w',
      for_each dispose holders w = (c, w') /\
      heap w' !! r = Some (mkRefCounted (n - Z.of_nat (length holders)) s) /\
      _models w' = _models w /\
      ((Z.of_nat (length holders) < n)%Z ->
         c = Return tt /\
         session_disposals (trace w') = session_disposals (trace w)) /\
      (Z.of_nat (length holders) = n -> holders <> [] ->
         c = TypeHierarchySession.dispose s /\
         session_disposals (trace w') = session_disposals (trace w) ++ [s]).
Proof.
  induction holders as [|m holders IH]; intros w n Hall Hc Hle.
  - exists (Return tt), w. simpl. rewrite Z.sub_0_r. done.
  - apply Forall_cons_1 in Hall as [Hm Hall]. subst r.
    pose proof (lookup_lt_Some _ _ _ Hc) as Hlt.
    pose proof (dispose_run m w _ Hc) as Hdisp.
    simpl _counter in Hdisp. simpl _disposable in Hdisp.
    remember (mkWorld _ _ _) as w1 eqn:Hw1.
    assert (Htr1 : session_disposals (trace w1) =
                   session_disposals (trace w) ++
                   (if (n - 1 =? 0)%Z then [s] else [])).
    { subst w1. simpl. rewrite !session_disposals_app. simpl.
      rewrite app_nil_r. by destruct (n - 1 =? 0)%Z. }
    assert (Hmod1 : _models w1 = _models w) by by subst w1.
    assert (Hcell1 : heap w1 !! ref m = Some (mkRefCounted (n - 1) s)).
    { subst w1. simpl. by apply list_lookup_insert_eq. }
    clear Hw1. simpl length in *.
    destruct (Z.eqb_spec (n - 1) 0) as [Hlast|Hlive].
    + (* the last holder: the session is disposed *)
      assert (holders = []) as -> by (destruct holders; [done|simpl in Hle; lia]).
      rewrite dispose_outcome_last in Hdisp by done. simpl in Hdisp.
      exists (TypeHierarchySession.dispose s), w1. split_and!.
      * cbn [for_each]. unfold mbind, M_bind. rewrite Hdisp.
        by destruct (TypeHierarchySession.dispose s) as [[]|e].
      * rewrite Hcell1. by do 2 f_equal.
      * done.
      * simpl. lia.
      * done.
    + rewrite dispose_outcome_live in Hdisp by done.
      destruct (IH w1 (n - 1)%Z Hall Hcell1) as (c & w' & Hrun & Hheap & Hmod & Hfew & Hall');
        [lia|].
      exists c, w'. split_and!.
      * cbn [for_each]. by erewrite bind_Return by exact Hdisp.
      * rewrite Hheap. do 2 f_equal. lia.
      * by rewrite Hmod.
      * intros Hlt'. destruct Hfew as [-> Htr]; [lia|]. split; [done|].
        by rewrite Htr, Htr1, app_nil_r.
      * intros Heq _. destruct holders as [|m' holders]; [simpl in Heq; lia|].
        destruct Hall' as [-> Htr]; [simpl length in *; lia|done|].
        split; [done|]. by rewrite Htr, Htr1, app_nil_r.
Qed.

(** [create], run on a world. *)
Lemma create_run `{Platform} (doc : ITextModel) (position : JsValue)
    (token : CancellationToken.t) (w : World) :
  create doc position token w =
  match ordered doc with
  | [] => (Return None, w)
  | p :: _ =>
      let w1 := with_trace w
                  (trace w ++ [PrepareTypeHierarchyCall p doc position token]) in
      match TypeHierarchyProvider.prepareTypeHierarchy p doc position token with
      | Resolves None => (Return None, w1)
      | Resolves (Some session) =>
          (Return (Some (new_TypeHierarchyModel
                           (foldl (fun acc c => acc +:+ TypeHierarchyItem._sessionId c) ""
                                  (TypeHierarchySession.roots session))
                           p (TypeHierarchySession.roots session) (length (heap w)))),
           mkWorld (heap w ++ [mkRefCounted 1 session]) (_models w) (trace w1))
      | Rejects e | Throws e => (Throw e, w1)
      end
  end.
Proof.
  unfold create. destruct (ordered doc) as [|p ps]; [done|].
  unfold new_RefCountedDisposable. unfold_M. simpl.
  destruct (TypeHierarchyProvider.prepareTypeHierarchy p doc position token)
    as [[session|]|e|e]; reflexivity.
Qed.

(** A model made by [create] holds a handle of its own, with count 1. *)
Lemma create_Some_inv `{Platform} (doc : ITextModel) (position : JsValue)
    (token : CancellationToken.t) (w w' : World) (m : TypeHierarchyModel) :
  create doc position token w = (Return (Some m), w') ->
  exists p ps session,
    ordered doc = p :: ps /\
    TypeHierarchyProvider.prepareTypeHierarchy p doc position token
      = Resolves (Some session) /\
    m = new_TypeHierarchyModel
          (foldl (fun acc c => acc +:+ TypeHierarchyItem._sessionId c) ""
                 (TypeHierarchySession.roots session))
          p (TypeHierarchySession.roots session) (length (heap w)) /\
    heap w' = heap w ++ [mkRefCounted 1 session] /\
    _models w' = _models w /\
    trace w' = trace w ++ [PrepareTypeHierarchyCall p doc position token].
Proof.
  rewrite create_run. destruct (ordered doc) as [|p ps]; [done|]. cbv zeta.
  destruct (TypeHierarchyProvider.prepareTypeHierarchy p doc position token)
    as [[session|]|e|e] eqn:Hp; intros [= <- <-]; try done.
  by exists p, ps, session.
Qed.

(** C1.  Let [m] come from [create] and let [s] be the provider session it
    wraps.  Then [m.fork(n).dispose()] followed by [m.dispose()] calls
    [s.dispose()] exactly once.  For any number of forks, disposed together
    with [m] in any order, the session is not disposed while a holder is
    left, and the last disposal disposes it, once.  The disposals before
    the last return; the last one ends as [s.dispose()] does, and count and
    trace are the same whether that call returns or throws. *)
Theorem forks_dispose_session_once `{Platform} (doc : ITextModel) (position : JsValue)
    (token : CancellationToken.t) (w0 w1 : World) (m : TypeHierarchyModel) :
  create doc position token w0 = (Return (Some m), w1) ->
  exists s,
    heap w1 !! ref m = Some (mkRefCounted 1 s) /\
    (forall n, exists w3,
        (f ← fork m n; dispose f ≫= fun _ => dispose m) w1
          = (TypeHierarchySession.dispose s, w3) /\
        heap w3 !! ref m = Some (mkRefCounted 0 s) /\
        session_disposals (trace w3) = session_disposals (trace w1) ++ [s]) /\
    (forall items, exists forks w2,
        map_M (fork m) items w1 = (Return forks, w2) /\
        length forks = length items /\
        heap w2 !! ref m = Some (mkRefCounted (1 + Z.of_nat (length items)) s) /\
        forall order, order ≡ₚ m :: forks ->
          (forall pre post, order = pre ++ post -> post <> [] ->
             result (for_each dispose pre) w2 = Return tt /\
             session_disposals (trace (exec (for_each dispose pre) w2))
               = session_disposals (trace w1)) /\
          result (for_each dispose order) w2 = TypeHierarchySession.dispose s /\
          heap (exec (for_each dispose order) w2) !! ref m = Some (mkRefCounted 0 s) /\
          session_disposals (trace (exec (for_each dispose order) w2))
            = session_disposals (trace w1) ++ [s]).
Proof.
  intros Hcreate.
  destruct (create_Some_inv _ _ _ _ _ _ Hcreate)
    as (p & ps & s & _ & _ & Hm & Hheap & _ & _).
  assert (Href : ref m = length (heap w0)) by by subst m.
  assert (Hcell : heap w1 !! ref m = Some (mkRefCounted 1 s)).
  { rewrite Hheap, Href. rewrite lookup_app_r by lia.
    by rewrite Nat.sub_diag. }
  exists s. split; [done|]. split.
  - intros n.
    destruct (forks_run m [n] w1 1%Z s Hcell)
      as (forks & w2 & Hforks & Hlen & Hall & Hcell2 & Htr & _).
    destruct forks as [|f [|? ?]]; try done.
    simpl in Hforks. unfold mbind at 1, M_bind in Hforks.
    destruct (fork m n w1) as [[f'|e] w2'] eqn:Hfork; [|done].
    unfold mret, M_ret in Hforks. injection Hforks as -> ->.
    destruct (dispose_all_run (ref m) s [f; m] w2 2%Z)
      as (c & w3 & Hrun & Hcell3 & _ & _ & Hlast); [|done|simpl; lia|].
    { apply Forall_cons_1 in Hall as [Hf _]. by repeat constructor. }
    destruct Hlast as [-> Hsessions]; [done..|].
    exists w3. split_and!.
    + erewrite bind_Return by exact Hfork. simpl in Hrun.
      unfold mbind, M_bind in *.
      destruct (dispose f w2) as [[[]|e] wa]; [|done].
      destruct (dispose m wa) as [[[]|e] wb]; [done|done].
    + done.
    + by rewrite Hsessions, Htr.
  - intros items.
    destruct (forks_run m items w1 1%Z s Hcell)
      as (forks & w2 & Hforks & Hlen & Hall & Hcell2 & Htr & _).
    exists forks, w2. split_and!; [done..|].
    intros order Hperm.
    assert (Hholders : Forall (fun x => ref x = ref m) order).
    { rewrite Hperm. by constructor. }
    assert (Hcount : length order = S (length items)).
    { rewrite Hperm. simpl. by rewrite Hlen. }
    destruct (dispose_all_run (ref m) s order w2 _ Hholders Hcell2)
      as (c & w3 & Hrun & Hcell3 & _ & _ & Hlast); [lia|].
    destruct Hlast as [-> Hsessions]; [lia|by destruct order|].
    unfold result, exec. rewrite Hrun. cbn [fst snd].
    split_and!.
    + intros pre post -> Hpost.
      apply Forall_app in Hholders as [Hpre _].
      rewrite length_app in Hcount.
      assert (length post <> 0%nat) by by destruct post.
      destruct (dispose_all_run (ref m) s pre w2 _ Hpre Hcell2)
        as (c' & w3' & Hrun' & _ & _ & Hlive & _); [lia|].
      destruct Hlive as [-> Hquiet]; [lia|].
      rewrite Hrun'. simpl. split; [done|]. by rewrite Hquiet, Htr.
    + done.
    + rewrite Hcell3. do 2 f_equal. lia.
    + by rewrite Hsessions, Htr.
Qed.

Lemma forks_dispose_session_once_witness :
  session_disposals
    (trace (exec (f ← fork Samples.created_model Samples.B;
                  dispose f ≫= fun _ => dispose Samples.created_model)
              Samples.created_world))
  = [Samples.one_root].
Proof.
  destruct (forks_dispose_session_once (H:=Samples.platform) Samples.document
              Samples.position CancellationToken.None Samples.empty_world
              Samples.created_world Samples.created_model eq_refl)
    as (s & Hcell & Hone & _).
  destruct (Hone Samples.B) as (w3 & Hrun & _ & Hd).
  unfold exec. rewrite Hrun. simpl. rewrite Hd.
  vm_compute in Hcell. injection Hcell as <-. reflexivity.
Defined.

(** ** The registry: map operations *)

Lemma assoc_None {A : Type} (key : string) (l : list (string * A)) :
  assoc key l = None <-> key ∉ l.*1.
Proof.
  induction l as [|[k v] l IH]; simpl.
  - split; [intros _; apply not_elem_of_nil|done].
  - rewrite not_elem_of_cons. destruct (String.eqb_spec k key) as [->|Hne].
    + split; [done|by intros [? _]].
    + rewrite IH. split; [intros ?; split; [by intros ->|done]|by intros [_ ?]].
Qed.

Lemma assoc_app_r {A : Type} (key : string) (l1 l2 : list (string * A)) :
  key ∉ l1.*1 -> assoc key (l1 ++ l2) = assoc key l2.
Proof.
  induction l1 as [|[k v] l1 IH]; simpl; [done|].
  rewrite not_elem_of_cons. intros [Hne Hnin].
  destruct (String.eqb_spec k key); [congruence|auto].
Qed.

Lemma Map_get_set (key : string) (value : TypeHierarchyModel) (m : Entries) :
  Map_get key (Map_set key value m) = Some value.
Proof.
  unfold Map_get. induction m as [|[k v] m IH]; simpl.
  - by rewrite String.eqb_refl.
  - destruct (String.eqb_spec k key) as [->|Hne]; simpl.
    + by rewrite String.eqb_refl.
    + by destruct (String.eqb_spec k key).
Qed.

(** [set] on a new key appends; on a present key it replaces in place. *)
Lemma Map_set_cases (key : string) (value : TypeHierarchyModel) (m : Entries) :
  (Map_get key m = None /\ Map_set key value m = m ++ [(key, value)]) \/
  (exists old, Map_get key m = Some old /\
     length (Map_set key value m) = length m /\
     (Map_set key value m).*1 = m.*1).
Proof.
  unfold Map_get. induction m as [|[k v] m IH]; [by left|].
  cbn [Map_set assoc]. destruct (String.eqb_spec k key) as [->|Hne].
  - right. by exists v.
  - destruct IH as [[Hnone ->]|(old & Hold & Hlen & Hkeys)].
    + by left.
    + right. exists old. rewrite !fmap_cons, Hkeys. cbn [length]. by rewrite Hlen.
Qed.

Lemma Map_set_keys_NoDup (key : string) (value : TypeHierarchyModel) (m : Entries) :
  NoDup m.*1 -> NoDup (Map_set key value m).*1.
Proof.
  intros Hnd. destruct (Map_set_cases key value m)
    as [[Hnone ->]|(old & _ & _ & ->)]; [|done].
  rewrite fmap_app. apply NoDup_app. split_and!; [done| |apply NoDup_singleton].
  intros k Hk. simpl. rewrite list_elem_of_singleton. intros ->.
  by apply assoc_None in Hnone.
Qed.

Lemma Map_set_values (key : string) (value : TypeHierarchyModel) (m : Entries) :
  (Map_set key value m).*2 ⊆+ value :: m.*2.
Proof.
  induction m as [|[k v] m IH]; simpl; [done|].
  destruct (String.eqb_spec k key) as [->|Hne]; simpl.
  - apply submseteq_skip, submseteq_cons. done.
  - etrans; [apply submseteq_skip, IH|]. by rewrite Permutation_swap.
Qed.

Lemma submseteq_NoDup {A : Type} (l k : list A) : l ⊆+ k -> NoDup k -> NoDup l.
Proof.
  intros Hsub Hk. apply submseteq_Permutation in Hsub as [rest Hperm].
  rewrite Hperm in Hk. by apply NoDup_app in Hk as [? _].
Qed.

(** ** The registry: eviction scan (C2) *)

(** A [dispose()] of a model, whatever its handle and however the
    session's [dispose()] ends: the call is logged, the registry is not
    touched, and no other handle changes.  It returns when the sessions
    held do not throw. *)
Lemma dispose_effect (this : TypeHierarchyModel) (w : World) :
  exists c w',
    dispose this w = (c, w') /\
    _models w' = _models w /\
    model_disposals (trace w') = model_disposals (trace w) ++ [this] /\
    (forall r, r <> ref this -> heap w' !! r = heap w !! r) /\
    (sessions_dispose_quietly w -> c = Return tt /\ sessions_dispose_quietly w').
Proof.
  destruct (heap w !! ref this) as [cell|] eqn:Hc.
  - eexists _, _. split; [by apply dispose_run|]. simpl. split_and!; [done| | |].
    + rewrite !model_disposals_app. simpl.
      destruct (_counter cell - 1 =? 0)%Z; simpl; by rewrite app_nil_r.
    + intros r Hr. by rewrite list_lookup_insert_ne.
    + unfold sessions_dispose_quietly. intros Hquiet. simpl.
      pose proof (proj1 (Forall_lookup _ _) Hquiet _ _ Hc) as Hcell.
      split.
      * unfold dispose_outcome. rewrite Hcell. by destruct (_ =? _)%Z.
      * apply Forall_insert; [done|]. exact Hcell.
  - exists (Return tt), (with_trace w (trace w ++ [ModelDispose this])).
    split_and!; [|done| |done|done].
    + unfold dispose, release. unfold_M. simpl. by rewrite Hc.
    + simpl. by rewrite model_disposals_app.
Qed.

Lemma forEach_from_hit (key : string) (stale value : TypeHierarchyModel)
    (rest : Entries) (callback : TypeHierarchyModel -> string -> M unit)
    (w w1 : World) :
  Map_get key (_models w) = Some value ->
  callback value key w = (Return tt, w1) ->
  forEach_from ((key, stale) :: rest) callback w = forEach_from rest callback w1.
Proof.
  intros Hget Hcb. cbn [forEach_from].
  erewrite bind_Return by reflexivity. cbn [Map_get_any]. rewrite Hget.
  by erewrite bind_Return by exact Hcb.
Qed.

Lemma forEach_from_miss (key : string) (stale : TypeHierarchyModel)
    (rest : Entries) (callback : TypeHierarchyModel -> string -> M unit) (w : World) :
  Map_get key (_models w) = None ->
  forEach_from ((key, stale) :: rest) callback w = forEach_from rest callback w.
Proof.
  intros Hget. cbn [forEach_from].
  erewrite bind_Return by reflexivity. cbn [Map_get_any]. by rewrite Hget.
Qed.

Lemma evict_callback_within_bound (value : TypeHierarchyModel) (key : string)
    (w : World) :
  (Map_size (_models w) <= 10)%Z ->
  evict_callback value key w = (Return tt, w).
Proof.
  intros Hsize. unfold evict_callback.
  erewrite bind_Return by reflexivity.
  by destruct (Z.ltb_spec 10 (Map_size (_models w))); [lia|].
Qed.

Lemma evict_callback_over_bound (value : TypeHierarchyModel) (key : string)
    (w w1 : World) :
  (10 < Map_size (_models w))%Z ->
  dispose value w = (Return tt, w1) ->
  evict_callback value key w =
  (Return tt, mkWorld (heap w1) (Map_delete key (_models w1)) (trace w1)).
Proof.
  intros Hsize Hdisp. unfold evict_callback.
  erewrite bind_Return by reflexivity.
  destruct (Z.ltb_spec 10 (Map_size (_models w))); [|lia].
  by erewrite bind_Return by exact Hdisp.
Qed.

Lemma forEach_from_throws (key : string) (stale value : TypeHierarchyModel)
    (rest : Entries) (callback : TypeHierarchyModel -> string -> M unit)
    (w w1 : World) (e : Error) :
  Map_get key (_models w) = Some value ->
  callback value key w = (Throw e, w1) ->
  forEach_from ((key, stale) :: rest) callback w = (Throw e, w1).
Proof.
  intros Hget Hcb. cbn [forEach_from].
  erewrite bind_Return by reflexivity. cbn [Map_get_any]. rewrite Hget.
  by erewrite bind_Throw by exact Hcb.
Qed.

(** A [dispose()] that throws skips the delete. *)
Lemma evict_callback_throws (value : TypeHierarchyModel) (key : string)
    (w w1 : World) (e : Error) :
  (10 < Map_size (_models w))%Z ->
  dispose value w = (Throw e, w1) ->
  evict_callback value key w = (Throw e, w1).
Proof.
  intros Hsize Hdisp. unfold evict_callback.
  erewrite bind_Return by reflexivity.
  destruct (Z.ltb_spec 10 (Map_size (_models w))); [|lia].
  by erewrite bind_Throw by exact Hdisp.
Qed.

(** At or below the bound the scan changes nothing. *)
Lemma forEach_from_within_bound (pending : Entries) (w : World) :
  (Map_size (_models w) <= 10)%Z ->
  forEach_from pending evict_callback w = (Return tt, w).
Proof.
  intros Hsize. induction pending as [|[k v] pending IH]; [done|].
  destruct (Map_get k (_models w)) as [value|] eqn:Hget.
  - erewrite forEach_from_hit; [exact IH|exact Hget|].
    by apply evict_callback_within_bound.
  - by rewrite forEach_from_miss.
Qed.

(** Above the bound the scan disposes and deletes entries from the front,
    oldest first.  It stops evicting as soon as ten are left, and it is cut
    short when a [dispose()] throws: the entry of that model stays, and so
    do all behind it.  [touched] are the models whose [dispose()] ran. *)
Lemma forEach_from_evicts (pending : Entries) :
  forall w : World,
    _models w = pending ->
    exists c w' evicted touched,
      forEach_from pending evict_callback w = (c, w') /\
      pending = evicted ++ _models w' /\
      model_disposals (trace w') = model_disposals (trace w) ++ touched /\
      (forall m, m ∈ touched -> m ∈ pending.*2) /\
      (forall r, r ∉ ref <$> touched -> heap w' !! r = heap w !! r) /\
      ((c = Return tt /\ touched = evicted.*2 /\
        length evicted = (length pending - 10)%nat) \/
       (exists e key value rest,
          c = Throw e /\ _models w' = (key, value) :: rest /\
          touched = evicted.*2 ++ [value] /\
          (10 < Map_size (_models w'))%Z)) /\
      (sessions_dispose_quietly w -> c = Return tt /\ sessions_dispose_quietly w').
Proof.
  induction pending as [|[k v] pending IH]; intros w Hw.
  - exists (Return tt), w, [], []. simpl. rewrite !app_nil_r.
    split_and!; [done..| |done]. by left.
  - destruct (Z.ltb_spec 10 (Map_size (_models w))) as [Hover|Hwithin].
    + destruct (dispose_effect v w)
        as (c1 & w1 & Hdisp & Hmod1 & Htr1 & Hheap1 & Hquiet1).
      assert (Hget : Map_get k (_models w) = Some v).
      { rewrite Hw. unfold Map_get. cbn [assoc]. by rewrite String.eqb_refl. }
      destruct c1 as [[]|e].
      * set (w2 := mkWorld (heap w1) pending (trace w1)).
        destruct (IH w2 eq_refl)
          as (c & w' & evicted & touched & Hrun & Hsplit & Htr & Hin & Hheap
              & Hcases & Hquiet).
        exists c, w', ((k, v) :: evicted), (v :: touched).
        split_and!.
        -- erewrite forEach_from_hit;
             [|exact Hget|by apply evict_callback_over_bound].
           rewrite Hmod1, Hw. cbn [Map_delete]. rewrite String.eqb_refl. exact Hrun.
        -- simpl. by rewrite <- Hsplit.
        -- rewrite Htr. subst w2. simpl. rewrite Htr1. by rewrite <- app_assoc.
        -- intros m [->|Hm]%elem_of_cons; rewrite fmap_cons; [by left|].
           right. by apply Hin.
        -- intros r Hr. rewrite fmap_cons in Hr.
           apply not_elem_of_cons in Hr as [Hne Hr].
           rewrite Hheap by done. subst w2. simpl. by apply Hheap1.
        -- destruct Hcases as [(-> & -> & Hlen)
                              |(e & key & value & rest & -> & Hw' & -> & Hsize)].
           ++ left. split_and!; [done..|].
              unfold Map_size in Hover. rewrite Hw in Hover. simpl in *. lia.
           ++ right. by exists e, key, value, rest.
        -- intros Hq. destruct (Hquiet1 Hq) as [_ Hq1]. by apply Hquiet.
      * exists (Throw e), w1, [], [v]. split_and!.
        -- eapply forEach_from_throws; [exact Hget|].
           by apply evict_callback_throws.
        -- simpl. by rewrite Hmod1.
        -- done.
        -- intros m ->%list_elem_of_singleton. rewrite fmap_cons. by left.
        -- intros r Hr. apply Hheap1. intros ->. apply Hr.
           rewrite !fmap_cons. by left.
        -- right. exists e, k, v, pending. split_and!; [done| |done|].
           ++ by rewrite Hmod1.
           ++ by rewrite Hmod1.
        -- intros Hq. by destruct (Hquiet1 Hq) as [? _].
    + exists (Return tt), w, [], []. rewrite forEach_from_within_bound by done.
      unfold Map_size in Hwithin. rewrite Hw in *. simpl in *.
      rewrite !app_nil_r.
      split_and!; [done|done|done|by intros m ?%elem_of_nil|done| |by intros Hq].
      left. split_and!; [done..|lia].
Qed.

(** One insertion (lines 138-144), however it ends. *)
Lemma models_put_outcome (model : TypeHierarchyModel) (w : World) :
  exists c w' evicted touched,
    models_put model w = (c, w') /\
    Map_set (id model) model (_models w) = evicted ++ _models w' /\
    model_disposals (trace w') = model_disposals (trace w) ++ touched /\
    (forall m, m ∈ touched -> m ∈ (Map_set (id model) model (_models w)).*2) /\
    (forall r, r ∉ ref <$> touched -> heap w' !! r = heap w !! r) /\
    ((c = Return tt /\ touched = evicted.*2 /\
      length evicted = (length (Map_set (id model) model (_models w)) - 10)%nat /\
      (Map_size (_models w') <= 10)%Z) \/
     (exists e key value rest,
        c = Throw e /\ _models w' = (key, value) :: rest /\
        touched = evicted.*2 ++ [value] /\
        (10 < Map_size (_models w'))%Z)) /\
    (sessions_dispose_quietly w -> c = Return tt /\ sessions_dispose_quietly w').
Proof.
  set (w1 := mkWorld (heap w) (Map_set (id model) model (_models w)) (trace w)).
  destruct (forEach_from_evicts (_models w1) w1 eq_refl)
    as (c & w' & evicted & touched & Hrun & Hsplit & Htr & Hin & Hheap
        & Hcases & Hquiet).
  exists c, w', evicted, touched. split_and!; try done.
  destruct Hcases as [(-> & -> & Hlen)|Hthrow]; [left|by right].
  split_and!; [done..|].
  unfold Map_size. apply (f_equal length) in Hsplit.
  rewrite length_app in Hsplit. simpl in *. lia.
Qed.

(** An insertion that returns. *)
Lemma models_put_returns (model : TypeHierarchyModel) (w w' : World) :
  models_put model w = (Return tt, w') ->
  exists evicted,
    Map_set (id model) model (_models w) = evicted ++ _models w' /\
    length evicted = (length (Map_set (id model) model (_models w)) - 10)%nat /\
    (Map_size (_models w') <= 10)%Z /\
    model_disposals (trace w') = model_disposals (trace w) ++ evicted.*2 /\
    (forall r, r ∉ ref <$> evicted.*2 -> heap w' !! r = heap w !! r).
Proof.
  intros Hput.
  destruct (models_put_outcome model w)
    as (c & w_ & evicted & touched & Hput_ & Hsplit & Htr & _ & Hheap & Hcases & _).
  rewrite Hput in Hput_. injection Hput_ as <- <-.
  destruct Hcases as [(_ & -> & Hlen & Hsize)|(e & ? & ? & ? & ? & _)]; [|done].
  by exists evicted.
Qed.

(** An insertion when no session held throws from its [dispose()]: it
    returns. *)
Lemma models_put_effect (model : TypeHierarchyModel) (w : World) :
  sessions_dispose_quietly w ->
  exists w' evicted,
    models_put model w = (Return tt, w') /\
    Map_set (id model) model (_models w) = evicted ++ _models w' /\
    length evicted = (length (Map_set (id model) model (_models w)) - 10)%nat /\
    (Map_size (_models w') <= 10)%Z /\
    model_disposals (trace w') = model_disposals (trace w) ++ evicted.*2 /\
    (forall r, r ∉ ref <$> evicted.*2 -> heap w' !! r = heap w !! r) /\
    sessions_dispose_quietly w'.
Proof.
  intros Hquiet.
  destruct (models_put_outcome model w)
    as (c & w' & evicted & touched & Hput & _ & _ & _ & _ & _ & Hq).
  destruct (Hq Hquiet) as [-> Hquiet'].
  destruct (models_put_returns model w w' Hput)
    as (evicted' & Hsplit & Hlen & Hsize & Htr & Hheap).
  by exists w', evicted'.
Qed.

(** The registered and the disposed models after an insertion are among
    the ones before it and the model inserted. *)
Lemma models_put_accounts (model : TypeHierarchyModel) (w w' : World)
    (evicted : Entries) :
  Map_set (id model) model (_models w) = evicted ++ _models w' ->
  model_disposals (trace w') = model_disposals (trace w) ++ evicted.*2 ->
  (_models w').*2 ++ model_disposals (trace w')
    ⊆+ model :: ((_models w).*2 ++ model_disposals (trace w)).
Proof.
  intros Hsplit Htr. rewrite Htr.
  trans ((Map_set (id model) model (_models w)).*2 ++ model_disposals (trace w)).
  - rewrite Hsplit, fmap_app. apply Permutation_submseteq.
    rewrite (Permutation_app_comm (model_disposals (trace w))).
    rewrite (assoc_L (++)). by rewrite (Permutation_app_comm (_models w').*2).
  - apply (submseteq_app _ (model :: _)); [apply Map_set_values|done].
Qed.

Lemma registry_inv_put (inserted : list TypeHierarchyModel)
    (model : TypeHierarchyModel) (w w' : World) (evicted : Entries) :
  registry_inv inserted w ->
  ref model ∉ ref <$> inserted ->
  Map_set (id model) model (_models w) = evicted ++ _models w' ->
  (Map_size (_models w') <= 10)%Z ->
  model_disposals (trace w') = model_disposals (trace w) ++ evicted.*2 ->
  registry_inv (inserted ++ [model]) w'.
Proof.
  intros (Hsize & Hkeys & Hrefs & Hin) Hfresh Hsplit Hsize' Htr.
  pose proof (models_put_accounts _ _ _ _ Hsplit Htr) as Hsub.
  split_and!.
  - done.
  - apply (Map_set_keys_NoDup (id model) model) in Hkeys.
    rewrite Hsplit, fmap_app in Hkeys. by apply NoDup_app in Hkeys as (_ & _ & ?).
  - eapply submseteq_NoDup; [by apply fmap_submseteq|].
    rewrite fmap_cons. apply NoDup_cons. split; [|done].
    intros (m & Hm & Hmin)%list_elem_of_fmap. apply Hfresh.
    rewrite Hm. by apply list_elem_of_fmap_2, Hin.
  - intros m Hm. eapply elem_of_submseteq in Hm; [|exact Hsub].
    apply elem_of_app. apply elem_of_cons in Hm as [->|Hm].
    + right. by apply list_elem_of_singleton.
    + left. by apply Hin.
Qed.

Lemma registry_inv_run_returns (models : list TypeHierarchyModel) :
  forall (inserted : list TypeHierarchyModel) (w w' : World),
    registry_inv inserted w ->
    NoDup (ref <$> (inserted ++ models)) ->
    for_each models_put models w = (Return tt, w') ->
    registry_inv (inserted ++ models) w'.
Proof.
  induction models as [|model models IH]; intros inserted w w' Hinv Hnd Hrun.
  - injection Hrun as <-. by rewrite app_nil_r.
  - cbn [for_each] in Hrun.
    destruct (models_put model w) as [[[]|e] w1] eqn:Hput.
    + erewrite bind_Return in Hrun by exact Hput.
      destruct (models_put_returns model w w1 Hput)
        as (evicted & Hsplit & _ & Hsize & Htr & _).
      assert (Hfresh : ref model ∉ ref <$> inserted).
      { rewrite fmap_app, fmap_cons in Hnd.
        apply NoDup_app in Hnd as (_ & Hdisj & _).
        intros Hin. apply (Hdisj _ Hin). apply elem_of_cons. by left. }
      assert (Hinv' : registry_inv ((inserted ++ [model]) ++ models) w').
      { apply (IH _ w1); [by eapply registry_inv_put| |done].
        by rewrite <- app_assoc. }
      by rewrite <- app_assoc in Hinv'.
    + erewrite bind_Throw in Hrun by exact Hput. done.
Qed.

Lemma after_insertions_cons (model : TypeHierarchyModel)
    (models : list TypeHierarchyModel) (w : World) :
  after_insertions (model :: models) w
  = after_insertions models (exec (models_put model) w).
Proof. reflexivity. Qed.

(** When no session held throws, a run of insertions returns, and none
    fails on the way. *)
Lemma for_each_models_put_quiet (models : list TypeHierarchyModel) :
  forall w : World,
    sessions_dispose_quietly w ->
    for_each models_put models w = (Return tt, after_insertions models w) /\
    sessions_dispose_quietly (after_insertions models w).
Proof.
  induction models as [|model models IH]; intros w Hquiet; [done|].
  destruct (models_put_effect model w Hquiet)
    as (w1 & evicted & Hput & _ & _ & _ & _ & _ & Hquiet1).
  rewrite after_insertions_cons. unfold exec. rewrite Hput. cbn [snd].
  destruct (IH w1 Hquiet1) as [Hrun Hquiet'].
  split; [|done]. cbn [for_each]. by erewrite bind_Return by exact Hput.
Qed.

Lemma registry_inv_empty (w : World) :
  _models w = [] -> model_disposals (trace w) = [] -> registry_inv [] w.
Proof.
  intros Hm Ht. unfold registry_inv, Map_size. rewrite Hm, Ht. simpl.
  split_and!; [lia|constructor|constructor|].
  by intros m ?%elem_of_nil.
Qed.

(** C2.  No session held throws from its [dispose()].  Then, after any
    sequence of insertions, one more insertion leaves at most ten entries
    in the registry.  The entries it removes are the oldest in the map's
    insertion order, as many as exceed the bound, and the registry calls
    [dispose()] on the model of each of them once.  When the run starts
    from an empty registry and every model inserted has a handle of its own
    (as [create] makes them), no model is disposed twice over the whole
    run, and no disposed model is still registered. *)
Theorem registry_put_bounded (w0 : World) (models : list TypeHierarchyModel)
    (model : TypeHierarchyModel) :
  sessions_dispose_quietly w0 ->
  exists w w' evicted,
    for_each models_put models w0 = (Return tt, w) /\
    models_put model w = (Return tt, w') /\
    (Map_size (_models w') <= 10)%Z /\
    Map_set (id model) model (_models w) = evicted ++ _models w' /\
    length evicted = (length (Map_set (id model) model (_models w)) - 10)%nat /\
    model_disposals (trace w') = model_disposals (trace w) ++ evicted.*2 /\
    (_models w0 = [] ->
     model_disposals (trace w0) = [] ->
     NoDup (ref <$> (models ++ [model])) ->
     (Map_size (_models w) <= 10)%Z /\
     (length evicted <= 1)%nat /\
     NoDup (model_disposals (trace w')) /\
     (forall m, m ∈ model_disposals (trace w') -> m ∉ (_models w').*2)).
Proof.
  intros Hquiet0.
  destruct (for_each_models_put_quiet models w0 Hquiet0) as [Hrun Hquiet].
  destruct (models_put_effect model _ Hquiet)
    as (w' & evicted & Hput & Hsplit & Hlen & Hsize & Htr & _).
  eexists _, w', evicted. split_and!; try done.
  intros Hempty Hclean Hnd.
  assert (Hinv : registry_inv models (after_insertions models w0)).
  { apply (registry_inv_run_returns models [] w0); [|simpl|done].
    - by apply registry_inv_empty.
    - rewrite fmap_app in Hnd. by apply NoDup_app in Hnd as (? & _ & _). }
  assert (Hinv' : registry_inv (models ++ [model]) w').
  { eapply registry_inv_put; try done.
    rewrite fmap_app in Hnd. apply NoDup_app in Hnd as (_ & Hdisj & _).
    intros Hin. apply (Hdisj _ Hin). by apply list_elem_of_singleton. }
  destruct Hinv as (Hbound & _).
  destruct Hinv' as (_ & _ & Hrefs & _).
  apply NoDup_fmap_1 in Hrefs. apply NoDup_app in Hrefs as (_ & Hdisj & Hnodup).
  split_and!; [done| |done|].
  - rewrite Hlen. unfold Map_size in Hbound.
    destruct (Map_set_cases (id model) model
                (_models (after_insertions models w0)))
      as [[_ ->]|(_ & _ & -> & _)]; [rewrite length_app; simpl|]; lia.
  - intros m Hm Hreg. by apply (Hdisj m).
Qed.

Lemma registry_put_bounded_witness :
  exists w w',
    for_each models_put Samples.ten_models
      (Samples.twelve_handles Samples.one_root) = (Return tt, w) /\
    models_put Samples.eleventh w = (Return tt, w') /\
    (Map_size (_models w') <= 10)%Z /\
    model_disposals (trace w') = [Samples.model_at 0 "k0"] /\
    session_disposals (trace w') = [Samples.one_root] /\
    NoDup (model_disposals (trace w')).
Proof.
  destruct (registry_put_bounded (Samples.twelve_handles Samples.one_root)
              Samples.ten_models Samples.eleventh)
    as (w & w' & evicted & Hrun & Hput & Hsize & _ & _ & Htr & Hrun_facts).
  { unfold sessions_dispose_quietly. simpl. repeat constructor. }
  destruct (Hrun_facts eq_refl eq_refl) as (_ & _ & Hnodup & _).
  { eapply (bool_decide_unpack _). vm_compute. exact I. }
  exists w, w'. split_and!; [done..| | |done].
  - vm_compute in Hrun. injection Hrun as <-.
    vm_compute in Hput. injection Hput as <-. reflexivity.
  - vm_compute in Hrun. injection Hrun as <-.
    vm_compute in Hput. injection Hput as <-. reflexivity.
Defined.

(** C2, as the specification states it, fails.  Ten models are registered,
    and the session of the oldest throws from its [dispose()].  The
    eleventh insertion calls that [dispose()], which throws before the
    entry is deleted: the insertion fails and the registry is left with
    eleven entries.  The twelfth insertion finds the same entry still first
    and calls [dispose()] on its model a second time. *)
Lemma registry_put_exceeds_bound_on_throw :
  result (for_each models_put Samples.ten_models)
    (Samples.twelve_handles Samples.throwing_session) = Return tt /\
  result (models_put Samples.eleventh)
    (after_insertions Samples.ten_models
       (Samples.twelve_handles Samples.throwing_session))
  = Throw (ExternalError 9) /\
  Map_size (_models
    (after_insertions (Samples.ten_models ++ [Samples.eleventh])
       (Samples.twelve_handles Samples.throwing_session))) = 11%Z /\
  model_disposals (trace
    (after_insertions
       (Samples.ten_models ++ [Samples.eleventh; Samples.model_at 11 "k11"])
       (Samples.twelve_handles Samples.throwing_session)))
  = [Samples.model_at 0 "k0"; Samples.model_at 0 "k0"; Samples.model_at 1 "k1"].
Proof. vm_compute. by split_and!. Qed.

(** ** A replaced model is never disposed (C10) *)







(** ** [create] (C4, C5, C6) *)

Lemma append_assoc (s1 s2 s3 : string) : (s1 +:+ s2) +:+ s3 = s1 +:+ (s2 +:+ s3).
Proof.
  induction s1 as [|a s1 IH]; [done|].
  change (String a ((s1 +:+ s2) +:+ s3) = String a (s1 +:+ s2 +:+ s3)).
  by rewrite IH.
Qed.

Lemma append_empty_r (s : string) : s +:+ "" = s.
Proof.
  induction s as [|a s IH]; [done|].
  change (String a (s +:+ "") = String a s). by rewrite IH.
Qed.

(** The [reduce] of [create] is the concatenation of the field. *)
Lemma reduce_concatenation {A : Type} (field : A -> string) (items : list A)
    (acc : string) :
  foldl (fun p c => p +:+ field c) acc items
  = acc +:+ concatenation (field <$> items).
Proof.
  revert acc. induction items as [|c items IH]; intros acc.
  - apply eq_sym, append_empty_r.
  - rewrite fmap_cons. cbn [foldl concatenation foldr].
    by rewrite IH, append_assoc.
Qed.

(** C5, as the code has it.  The id of a model that [create] returns is the
    concatenation, in root order, of the [_sessionId] fields of the roots
    (not of their [_itemId] fields). *)
Theorem create_id_concatenates_sessionIds `{Platform} (doc : ITextModel)
    (position : JsValue) (token : CancellationToken.t) (w w' : World)
    (m : TypeHierarchyModel) :
  create doc position token w = (Return (Some m), w') ->
  id m = concatenation (TypeHierarchyItem._sessionId <$> roots m).
Proof.
  intros (p & ps & session & _ & _ & -> & _)%create_Some_inv. simpl.
  by rewrite reduce_concatenation.
Qed.

Lemma create_id_concatenates_sessionIds_witness :
  id Samples.created_model
  = concatenation (TypeHierarchyItem._sessionId <$> roots Samples.created_model).
Proof.
  exact (create_id_concatenates_sessionIds (H:=Samples.platform) Samples.document
           Samples.position CancellationToken.None Samples.empty_world
           Samples.created_world Samples.created_model eq_refl).
Defined.

(** C5 as stated fails: one root with [_sessionId] "S1" and [_itemId] "A"
    gives the id "S1", and the concatenation of the item ids is "A". *)
Lemma create_id_is_not_itemId_concatenation :
  create (H:=Samples.platform) Samples.document Samples.position
    CancellationToken.None Samples.empty_world
    = (Return (Some Samples.created_model), Samples.created_world) /\
  id Samples.created_model = "S1" /\
  concatenation (TypeHierarchyItem._itemId <$> roots Samples.created_model) = "A" /\
  id Samples.created_model
    <> concatenation (TypeHierarchyItem._itemId <$> roots Samples.created_model).
Proof. split_and!; [reflexivity..|discriminate]. Qed.

(** A failing prepare call is not turned into a result: [create] fails with
    the same error. *)
Lemma create_propagates_prepare_error `{Platform} (doc : ITextModel)
    (position : JsValue) (token : CancellationToken.t) (w : World)
    (p : TypeHierarchyProvider.t) (ps : list TypeHierarchyProvider.t) (e : Error) :
  ordered doc = p :: ps ->
  TypeHierarchyProvider.prepareTypeHierarchy p doc position token = Rejects e \/
  TypeHierarchyProvider.prepareTypeHierarchy p doc position token = Throws e ->
  result (create doc position token) w = Throw e.
Proof.
  intros Hp Hfail. unfold result. rewrite create_run, Hp. cbv zeta.
  by destruct Hfail as [-> | ->].
Qed.

(** C6.  [create] returns absent exactly when no provider matches the
    document or the first provider's prepare call yields no session.  When
    the call yields a session, [create] returns a model of that provider
    that holds all the roots of the session and a handle that did not exist
    before, wraps the session and has count 1; the handles that existed and
    the registry are as before. *)
Theorem create_absent_or_model `{Platform} (doc : ITextModel) (position : JsValue)
    (token : CancellationToken.t) (w : World) :
  (result (create doc position token) w = Return None <->
     ordered doc = [] \/
     exists p ps, ordered doc = p :: ps /\
       TypeHierarchyProvider.prepareTypeHierarchy p doc position token
         = Resolves None) /\
  (forall p ps session,
     ordered doc = p :: ps ->
     TypeHierarchyProvider.prepareTypeHierarchy p doc position token
       = Resolves (Some session) ->
     exists m w',
       create doc position token w = (Return (Some m), w') /\
       provider m = p /\
       roots m = TypeHierarchySession.roots session /\
       heap w !! ref m = None /\
       heap w' !! ref m = Some (mkRefCounted 1 session) /\
       heap w' = heap w ++ [mkRefCounted 1 session] /\
       _models w' = _models w).
Proof.
  split.
  - unfold result. rewrite create_run.
    destruct (ordered doc) as [|p ps] eqn:Hp; [by split; [left|]|]. cbv zeta.
    destruct (TypeHierarchyProvider.prepareTypeHierarchy p doc position token)
      as [[session|]|e|e] eqn:Hprep; simpl.
    + split; [done|]. intros [?|(p' & ps' & [= <- <-] & Hnone)]; [done|].
      congruence.
    + split; [|done]. intros _. right. by exists p, ps.
    + split; [done|]. intros [?|(p' & ps' & [= <- <-] & Hnone)]; [done|].
      congruence.
    + split; [done|]. intros [?|(p' & ps' & [= <- <-] & Hnone)]; [done|].
      congruence.
  - intros p ps session Hp Hprep. rewrite create_run, Hp. cbv zeta.
    rewrite Hprep. eexists _, _. split; [reflexivity|]. simpl.
    split_and!; try done.
    + by apply lookup_ge_None.
    + rewrite lookup_app_r by done. by rewrite Nat.sub_diag.
Qed.

Lemma create_absent_or_model_witness :
  exists m w',
    create (H:=Samples.platform) Samples.document Samples.position
      CancellationToken.None Samples.empty_world = (Return (Some m), w') /\
    roots m = [Samples.A] /\
    heap w' !! ref m = Some (mkRefCounted 1 Samples.one_root).
Proof.
  destruct (proj2 (create_absent_or_model (H:=Samples.platform) Samples.document
                     Samples.position CancellationToken.None Samples.empty_world)
              _ _ Samples.one_root eq_refl eq_refl)
    as (m & w' & Hrun & _ & Hroots & _ & Hcell & _).
  by exists m, w'.
Defined.

(** C4, as the code has it.  [create] hands the token to the provider and
    does not read it: the call it makes carries the token, and two tokens
    the provider answers alike give the same result.  When the provider
    answers with no session, as one that honours a cancelled token does,
    [create] returns absent, allocates no handle and leaves the registry as
    it was.  When the provider answers with a session, cancelled or not,
    [create] returns a model that holds it. *)
Theorem create_leaves_cancellation_to_provider `{Platform} (doc : ITextModel)
    (position : JsValue) (token : CancellationToken.t) (w : World)
    (p : TypeHierarchyProvider.t) (ps : list TypeHierarchyProvider.t) :
  ordered doc = p :: ps ->
  trace (exec (create doc position token) w)
    = trace w ++ [PrepareTypeHierarchyCall p doc position token] /\
  (forall token',
     TypeHierarchyProvider.prepareTypeHierarchy p doc position token'
       = TypeHierarchyProvider.prepareTypeHierarchy p doc position token ->
     result (create doc position token') w = result (create doc position token) w) /\
  (TypeHierarchyProvider.prepareTypeHierarchy p doc position token = Resolves None ->
     result (create doc position token) w = Return None /\
     heap (exec (create doc position token) w) = heap w /\
     _models (exec (create doc position token) w) = _models w) /\
  (forall session,
     TypeHierarchyProvider.prepareTypeHierarchy p doc position token
       = Resolves (Some session) ->
     exists m,
       result (create doc position token) w = Return (Some m) /\
       heap (exec (create doc position token) w) !! ref m
         = Some (mkRefCounted 1 session)).
Proof.
  intros Hp. unfold result, exec. rewrite create_run, Hp. cbv zeta.
  split_and!.
  - by destruct (TypeHierarchyProvider.prepareTypeHierarchy p doc position token)
      as [[session|]|e|e].
  - intros token' Hsame. rewrite create_run, Hp. cbv zeta. rewrite Hsame.
    by destruct (TypeHierarchyProvider.prepareTypeHierarchy p doc position token)
      as [[session|]|e|e].
  - by intros ->.
  - intros session ->. eexists. split; [reflexivity|]. simpl.
    rewrite lookup_app_r by done. by rewrite Nat.sub_diag.
Qed.

Lemma create_leaves_cancellation_to_provider_witness :
  result (create (H:=Samples.platform_of [Samples.polite_provider])
            Samples.document Samples.position Samples.cancelled) Samples.empty_world
    = Return None /\
  heap (exec (create (H:=Samples.platform_of [Samples.polite_provider])
                Samples.document Samples.position Samples.cancelled)
          Samples.empty_world) = [].
Proof.
  destruct (create_leaves_cancellation_to_provider
              (H:=Samples.platform_of [Samples.polite_provider])
              Samples.document Samples.position Samples.cancelled
              Samples.empty_world Samples.polite_provider [] eq_refl)
    as (_ & _ & Habsent & _).
  destruct (Habsent eq_refl) as (Hres & Hheap & _). by split.
Defined.

(** C4 as stated fails: a provider that answers with a session although
    cancellation was requested makes [create] return a model, with the
    session held by a handle of count 1. *)
Lemma create_after_cancellation_returns_model :
  CancellationToken.isCancellationRequested Samples.cancelled = true /\
  result (create (H:=Samples.platform) Samples.document Samples.position
            Samples.cancelled) Samples.empty_world
    = Return (Some Samples.created_model) /\
  result (create (H:=Samples.platform) Samples.document Samples.position
            Samples.cancelled) Samples.empty_world
    <> Return None /\
  heap (exec (create (H:=Samples.platform) Samples.document Samples.position
                Samples.cancelled) Samples.empty_world)
    = [mkRefCounted 1 Samples.one_root].
Proof. split_and!; [reflexivity..|discriminate|reflexivity]. Qed.

(** ** The prepare command (C7) *)

(** An insertion that leaves the registry at or below the bound: the scan
    finds nothing to evict, so no [dispose()] runs at all. *)
Lemma models_put_within_bound (model : TypeHierarchyModel) (w : World) :
  (Map_size (Map_set (id model) model (_models w)) <= 10)%Z ->
  models_put model w =
  (Return tt, mkWorld (heap w) (Map_set (id model) model (_models w)) (trace w)).
Proof.
  intros Hsize. unfold models_put.
  erewrite bind_Return by reflexivity.
  unfold models_forEach. by apply forEach_from_within_bound.
Qed.

(** However an insertion ends, the inserted model is registered after it
    when its id was no key before, or when the registry was at or below
    the bound: if the scan evicts, it evicts older entries. *)
Lemma models_put_registers (model : TypeHierarchyModel) (w w' : World)
    (c : Completion unit) :
  (Map_size (_models w) <= 10)%Z \/ Map_get (id model) (_models w) = None ->
  models_put model w = (c, w') ->
  Map_get (id model) (_models w') = Some model.
Proof.
  intros Hpre Hput.
  destruct (models_put_outcome model w)
    as (c_ & w_ & evicted & touched & Hput_ & Hsplit & _ & _ & _ & Hcases & _).
  rewrite Hput in Hput_. injection Hput_ as <- <-.
  assert (Hlen : (length evicted
                  <= length (Map_set (id model) model (_models w)) - 10)%nat).
  { pose proof (f_equal length Hsplit) as Hl. rewrite length_app in Hl.
    destruct Hcases as [(_ & _ & Hlen & _)|(e & ? & ? & ? & _ & _ & _ & Hover)];
      [lia|]. unfold Map_size in Hover. lia. }
  destruct (Map_set_cases (id model) model (_models w))
    as [[Hnone Hset]|(old & Hsome & Hsame & _)].
  - rewrite Hset in Hsplit, Hlen. rewrite length_app in Hlen. simpl in Hlen.
    assert (Hdrop : _models w' = drop (length evicted) (_models w) ++ [(id model, model)]).
    { rewrite <- (drop_app_length evicted (_models w')), <- Hsplit.
      apply drop_app_le. lia. }
    rewrite Hdrop. unfold Map_get. rewrite assoc_app_r.
    + simpl. by rewrite String.eqb_refl.
    + apply assoc_None in Hnone. intros Hin. apply Hnone.
      rewrite fmap_drop in Hin. by eapply subseteq_drop.
  - destruct Hpre as [Hsize|Hnone]; [|congruence].
    unfold Map_size in Hsize. rewrite Hsame in Hlen.
    assert (Hnil : length evicted = 0%nat) by lia.
    apply nil_length_inv in Hnil. subst evicted. simpl in Hsplit.
    rewrite <- Hsplit. apply Map_get_set.
Qed.

Lemma with_trace_nil (w : World) : with_trace w (trace w ++ []) = w.
Proof. destruct w. unfold with_trace. simpl. by rewrite app_nil_r. Qed.

(** The command once its arguments are accepted and the document is
    resolved: [released] is the event of the [finally] clause, present when
    a model reference had to be opened. *)
Lemma _executePrepareTypeHierarchy_run `{Platform} (accessor : ServicesAccessor)
    (args : list JsValue) (w : World) (textModel : ITextModel)
    (released : list Event) :
  isUri (arg 0 args) = true ->
  isIPosition (arg 1 args) = true ->
  (getModel accessor (arg 0 args) = Some textModel /\ released = []) \/
  (exists r, getModel accessor (arg 0 args) = None /\
     createModelReference accessor (arg 0 args) = Resolves r /\
     textEditorModel r = textModel /\ released = [ReferenceDispose r]) ->
  _executePrepareTypeHierarchy accessor args w =
  let '(c, w') := prepare_try_block textModel (arg 1 args) w in
  (c, with_trace w' (trace w' ++ released)).
Proof.
  intros Huri Hpos Hdoc. unfold _executePrepareTypeHierarchy. cbv zeta.
  rewrite Huri, Hpos. unfold_M.
  destruct Hdoc as [[-> ->]|(r & -> & -> & <- & ->)]; simpl;
    destruct (prepare_try_block _ _ w) as [c w']; [|done].
  by rewrite with_trace_nil.
Qed.

(** C7, as the code has it.  The command's arguments are accepted and the
    document is resolved.  If [create] yields a model, the command inserts
    it and runs the eviction scan.  When the scan completes, the command
    returns the array that holds the model's first root alone; when a
    session's [dispose()] throws in the scan, the command fails with that
    error.  The scan completes when no session held throws, and when the
    insertion leaves at most ten entries.  Either way the model is
    registered under its id afterwards, provided that the registry held at
    most ten entries or that the id was no key of it.  If [create] yields
    absent, the command returns the empty array and the registry is as
    before. *)
Theorem prepare_command_returns_first_root `{Platform} (accessor : ServicesAccessor)
    (args : list JsValue) (w : World) (textModel : ITextModel)
    (released : list Event) :
  isUri (arg 0 args) = true ->
  isIPosition (arg 1 args) = true ->
  (getModel accessor (arg 0 args) = Some textModel /\ released = []) \/
  (exists r, getModel accessor (arg 0 args) = None /\
     createModelReference accessor (arg 0 args) = Resolves r /\
     textEditorModel r = textModel /\ released = [ReferenceDispose r]) ->
  (forall m w1,
     create textModel (arg 1 args) CancellationToken.None w = (Return (Some m), w1) ->
     exists c w2,
       models_put m w1 = (c, w2) /\
       _executePrepareTypeHierarchy accessor args w
         = (match c with
            | Return _ => Return [root m]
            | Throw e => Throw e
            end, with_trace w2 (trace w2 ++ released)) /\
       root m = roots m !! 0%nat /\
       (sessions_dispose_quietly w1 -> c = Return tt) /\
       ((Map_size (Map_set (id m) m (_models w)) <= 10)%Z -> c = Return tt) /\
       ((Map_size (_models w) <= 10)%Z \/ Map_get (id m) (_models w) = None ->
        Map_get (id m) (_models w2) = Some m)) /\
  (forall w1,
     create textModel (arg 1 args) CancellationToken.None w = (Return None, w1) ->
     _executePrepareTypeHierarchy accessor args w
       = (Return [], with_trace w1 (trace w1 ++ released)) /\
     _models w1 = _models w).
Proof.
  intros Huri Hpos Hdoc.
  rewrite (_executePrepareTypeHierarchy_run accessor args w textModel released)
    by done.
  unfold prepare_try_block. split.
  - intros m w1 Hcreate.
    destruct (create_Some_inv _ _ _ _ _ _ Hcreate)
      as (p & ps & session & _ & _ & Hm & _ & Hmodels & _).
    destruct (models_put m w1) as [c w2] eqn:Hput.
    exists c, w2. split_and!.
    + done.
    + erewrite bind_Return by exact Hcreate. cbv beta iota.
      destruct c as [[]|e].
      * by erewrite bind_Return by exact Hput.
      * by erewrite bind_Throw by exact Hput.
    + by subst m.
    + intros Hquiet.
      destruct (models_put_effect m w1 Hquiet) as (w2_ & evicted & Hput_ & _).
      rewrite Hput in Hput_. by injection Hput_ as -> _.
    + intros Hsize. rewrite <- Hmodels in Hsize.
      rewrite (models_put_within_bound m w1 Hsize) in Hput.
      by injection Hput as <- _.
    + intros Hpre. eapply models_put_registers; [|exact Hput]. by rewrite Hmodels.
  - intros w1 Hcreate. erewrite bind_Return by exact Hcreate.
    split; [done|].
    rewrite create_run in Hcreate.
    destruct (ordered textModel) as [|p ps]; [by injection Hcreate as <-|].
    cbv zeta in Hcreate.
    destruct (TypeHierarchyProvider.prepareTypeHierarchy _ _ _ _)
      as [[session|]|e|e]; try done.
    by injection Hcreate as <-.
Qed.

Lemma prepare_command_returns_first_root_witness :
  exists w',
    _executePrepareTypeHierarchy (H:=Samples.platform2) Samples.accessor
      [Samples.resource; Samples.position] Samples.empty_world
    = (Return [Some Samples.A], w') /\
    Map_get "S1S2" (_models w') <> None.
Proof.
  destruct (prepare_command_returns_first_root (H:=Samples.platform2)
              Samples.accessor [Samples.resource; Samples.position]
              Samples.empty_world Samples.document [] eq_refl eq_refl
              (or_introl (conj eq_refl eq_refl)))
    as [Hmodel _].
  destruct (Hmodel _ _ eq_refl) as (c & w2 & Hput & Hcmd & _ & _ & Hc & Hget).
  rewrite Hc in Hcmd by (by vm_compute).
  assert (Hsize : (Map_size (_models Samples.empty_world) <= 10)%Z)
    by (by vm_compute).
  specialize (Hget (or_introl Hsize)).
  eexists. split; [exact Hcmd|].
  intros Hnone. unfold with_trace in Hnone. cbn [_models] in Hnone.
  pose proof (eq_trans (eq_sym Hget) Hnone) as Habsurd. discriminate Habsurd.
Defined.

(** C7 as stated fails, in three ways.  With a provider that returns the two
    roots A and B, the command returns the array that holds A alone.  With
    ten models registered, the oldest around a session that throws from its
    [dispose()], the command creates and inserts a model, and then fails
    with the session's error in place of returning a root.  The registry is
    left with eleven entries; a request whose model comes under the id of
    the first of them replaces that entry, the scan evicts it at once, and
    the command returns the root of a model that is not registered. *)
Lemma prepare_command_drops_second_root :
  roots (new_TypeHierarchyModel "S1S2" (Samples.provider_of (Some Samples.two_roots))
           (TypeHierarchySession.roots Samples.two_roots) 0)
    = [Samples.A; Samples.B] /\
  result (_executePrepareTypeHierarchy (H:=Samples.platform2) Samples.accessor
            [Samples.resource; Samples.position]) Samples.empty_world
    = Return [Some Samples.A] /\
  result (_executePrepareTypeHierarchy (H:=Samples.platform2) Samples.accessor
            [Samples.resource; Samples.position]) Samples.empty_world
    <> Return [Some Samples.A; Some Samples.B] /\
  result (_executePrepareTypeHierarchy (H:=Samples.platform) Samples.accessor
            [Samples.resource; Samples.position])
    (Samples.ten_registered Samples.throwing_session)
    = Throw (ExternalError 9) /\
  Map_size (_models
    (exec (_executePrepareTypeHierarchy (H:=Samples.platform) Samples.accessor
             [Samples.resource; Samples.position])
       (Samples.ten_registered Samples.throwing_session))) = 11%Z /\
  result (_executePrepareTypeHierarchy (H:=Samples.platform_k0) Samples.accessor
            [Samples.resource; Samples.position])
    (exec (_executePrepareTypeHierarchy (H:=Samples.platform) Samples.accessor
             [Samples.resource; Samples.position])
       (Samples.ten_registered Samples.throwing_session))
    = Return [Some (Samples.item "k0" "A")] /\
  Map_get "k0" (_models
    (exec (_executePrepareTypeHierarchy (H:=Samples.platform_k0) Samples.accessor
             [Samples.resource; Samples.position])
       (exec (_executePrepareTypeHierarchy (H:=Samples.platform) Samples.accessor
                [Samples.resource; Samples.position])
          (Samples.ten_registered Samples.throwing_session)))) = None.
Proof. split_and!; [reflexivity..|discriminate|reflexivity|reflexivity|reflexivity|reflexivity]. Qed.

(** ** The expand commands (C8, C9) *)

(** The validator on a plain object, in terms of its properties. *)
Lemma isTypeHierarchyItemDto_object `{Platform} (props : list (string * JsValue)) :
  let prop key := default JsUndefined (assoc key props) in
  isTypeHierarchyItemDto (JsObject props) =
  Return (String.eqb (typeof (prop "name")) "string"
          && String.eqb (typeof (prop "kind")) "number"
          && isUri (prop "uri")
          && isIRange (prop "range")
          && isIRange (prop "selectionRange")).
Proof.
  cbv zeta. unfold isTypeHierarchyItemDto. unfold_M. simpl.
  destruct (String.eqb (typeof (default JsUndefined (assoc "name" props))) "string");
    [|done].
  destruct (String.eqb (typeof (default JsUndefined (assoc "kind" props))) "number");
    [|done].
  destruct (isUri (default JsUndefined (assoc "uri" props))); [|done].
  by destruct (isIRange (default JsUndefined (assoc "range" props))).
Qed.

(** What passes validation is an object: reading a property of it does
    not throw. *)
Lemma isTypeHierarchyItemDto_true_readable `{Platform} (obj : JsValue) (key : string) :
  isTypeHierarchyItemDto obj = Return true ->
  exists v, get_prop obj key = Return v.
Proof.
  destruct obj; try done; simpl; eauto.
Qed.

Lemma _executeProvideSupertypes_run `{Platform} (accessor : ServicesAccessor)
    (args : list JsValue) (w : World) (sessionId : JsValue) :
  isTypeHierarchyItemDto (arg 0 args) = Return true ->
  get_prop (arg 0 args) "_sessionId" = Return sessionId ->
  _executeProvideSupertypes accessor args w =
  match Map_get_any sessionId (_models w) with
  | None => (Return JsUndefined, w)
  | Some model => provideSupertypes model (arg 0 args) CancellationToken.None w
  end.
Proof.
  intros Hok Hsid. unfold _executeProvideSupertypes. cbv zeta.
  rewrite Hok, Hsid. unfold_M. simpl.
  by destruct (Map_get_any sessionId (_models w)).
Qed.

Lemma _executeProvideSubtypes_run `{Platform} (accessor : ServicesAccessor)
    (args : list JsValue) (w : World) (sessionId : JsValue) :
  isTypeHierarchyItemDto (arg 0 args) = Return true ->
  get_prop (arg 0 args) "_sessionId" = Return sessionId ->
  _executeProvideSubtypes accessor args w =
  match Map_get_any sessionId (_models w) with
  | None => (Return JsUndefined, w)
  | Some model => provideSubtypes model (arg 0 args) CancellationToken.None w
  end.
Proof.
  intros Hok Hsid. unfold _executeProvideSubtypes. cbv zeta.
  rewrite Hok, Hsid. unfold_M. simpl.
  by destruct (Map_get_any sessionId (_models w)).
Qed.

(** A malformed node is rejected before the registry is consulted. *)
Lemma expand_commands_reject_malformed `{Platform} (accessor : ServicesAccessor)
    (args : list JsValue) (w : World) :
  isTypeHierarchyItemDto (arg 0 args) = Return false ->
  _executeProvideSupertypes accessor args w = (Throw UnexpectedType, w) /\
  _executeProvideSubtypes accessor args w = (Throw UnexpectedType, w).
Proof.
  intros Hbad. unfold _executeProvideSupertypes, _executeProvideSubtypes.
  cbv zeta. rewrite Hbad. by unfold_M.
Qed.

(** C8.  For a node that passes validation and whose [_sessionId] is not a
    key of the registry, both expand commands return undefined, without an
    error; the world is as before, so no provider was called. *)
Theorem expand_unknown_session_returns_undefined `{Platform}
    (accessor : ServicesAccessor) (args : list JsValue) (w : World) :
  isTypeHierarchyItemDto (arg 0 args) = Return true ->
  (forall s, get_prop (arg 0 args) "_sessionId" = Return (JsString s) ->
             s ∉ (_models w).*1) ->
  _executeProvideSupertypes accessor args w = (Return JsUndefined, w) /\
  _executeProvideSubtypes accessor args w = (Return JsUndefined, w) /\
  expansion_calls (trace (exec (_executeProvideSupertypes accessor args) w))
    = expansion_calls (trace w) /\
  expansion_calls (trace (exec (_executeProvideSubtypes accessor args) w))
    = expansion_calls (trace w).
Proof.
  intros Hok Hunknown.
  destruct (isTypeHierarchyItemDto_true_readable _ "_sessionId" Hok) as [sid Hsid].
  assert (Hmiss : Map_get_any sid (_models w) = None).
  { destruct sid; try done. simpl. apply assoc_None. by apply Hunknown. }
  unfold exec.
  rewrite (_executeProvideSupertypes_run accessor args w sid Hok Hsid).
  rewrite (_executeProvideSubtypes_run accessor args w sid Hok Hsid).
  by rewrite Hmiss.
Qed.

Lemma expand_unknown_session_returns_undefined_witness :
  _executeProvideSupertypes (H:=Samples.platform) Samples.accessor
    [Samples.dto "S9"] Samples.created_world
  = (Return JsUndefined, Samples.created_world).
Proof.
  refine (proj1 (expand_unknown_session_returns_undefined (H:=Samples.platform)
                   Samples.accessor [Samples.dto "S9"] Samples.created_world
                   eq_refl _)).
  intros s _. apply not_elem_of_nil.
Defined.

(** C9.  The validator does not read [_sessionId] or [_itemId]: two
    objects that agree on every other property are judged alike.  An object
    with a string [name], a numeric [kind], a valid [uri] and well-formed
    [range] and [selectionRange] passes validation without a [_sessionId];
    the expand commands then look up the key undefined, which no entry of
    the registry has, and return undefined with the world unchanged. *)
Theorem validator_ignores_session_fields `{Platform} (props : list (string * JsValue)) :
  let prop key := default JsUndefined (assoc key props) in
  (forall props',
     (forall key, key <> "_sessionId" -> key <> "_itemId" ->
                  assoc key props' = assoc key props) ->
     isTypeHierarchyItemDto (JsObject props') = isTypeHierarchyItemDto (JsObject props)) /\
  (typeof (prop "name") = "string" ->
   typeof (prop "kind") = "number" ->
   isUri (prop "uri") = true ->
   isIRange (prop "range") = true ->
   isIRange (prop "selectionRange") = true ->
   assoc "_sessionId" props = None ->
   isTypeHierarchyItemDto (JsObject props) = Return true /\
   forall (accessor : ServicesAccessor) (rest : list JsValue) (w : World),
     _executeProvideSupertypes accessor (JsObject props :: rest) w
       = (Return JsUndefined, w) /\
     _executeProvideSubtypes accessor (JsObject props :: rest) w
       = (Return JsUndefined, w)).
Proof.
  cbv zeta. split.
  - intros props' Hagree. rewrite !isTypeHierarchyItemDto_object. cbv zeta.
    by rewrite !Hagree.
  - intros Hname Hkind Huri Hrange Hsel Hnone.
    assert (Hok : isTypeHierarchyItemDto (JsObject props) = Return true).
    { rewrite isTypeHierarchyItemDto_object. cbv zeta.
      by rewrite Hname, Hkind, Huri, Hrange, Hsel. }
    split; [done|]. intros accessor rest w.
    rewrite (_executeProvideSupertypes_run accessor _ w JsUndefined),
            (_executeProvideSubtypes_run accessor _ w JsUndefined); try done.
    all: unfold arg; simpl; by rewrite Hnone.
Qed.

Lemma validator_ignores_session_fields_witness :
  isTypeHierarchyItemDto (H:=Samples.platform) Samples.dto_without_session
    = Return true /\
  _executeProvideSubtypes (H:=Samples.platform) Samples.accessor
    [Samples.dto_without_session] Samples.created_world
  = (Return JsUndefined, Samples.created_world).
Proof.
  destruct (proj2 (validator_ignores_session_fields (H:=Samples.platform)
                     [("name", JsString "Shape"); ("kind", JsNumber 4);
                      ("uri", Samples.resource); ("range", Samples.some_range);
                      ("selectionRange", Samples.some_range)])
              eq_refl eq_refl eq_refl eq_refl eq_refl eq_refl)
    as [Hok Hcmds].
  split; [exact Hok|].
  exact (proj2 (Hcmds Samples.accessor [] Samples.created_world)).
Defined.

(** ** The scenarios of the specification, run *)

(** Prepare with a provider that returns the one root A of session S1, then
    expand A upwards: the provider's answer comes back as it is. *)
Example scenario_prepare_then_expand :
  let prepared := _executePrepareTypeHierarchy (H:=Samples.platform) Samples.accessor
                    [Samples.resource; Samples.position] Samples.empty_world in
  fst prepared = Return [Some Samples.A] /\
  result (_executeProvideSupertypes (H:=Samples.platform) Samples.accessor
            [Samples.dto "S1"]) (snd prepared)
    = Return (JsArray [JsString "B"]) /\
  result (_executeProvideSubtypes (H:=Samples.platform) Samples.accessor
            [Samples.dto "S1"]) (snd prepared)
    = Return (JsArray []) /\
  result (_executeProvideSupertypes (H:=Samples.platform) Samples.accessor
            [Samples.dto "unknown"]) (snd prepared)
    = Return JsUndefined.
Proof. by vm_compute. Qed.

(** A node whose [kind] is a string is rejected, and the world is left as
    it was. *)
Example scenario_malformed_node :
  _executeProvideSubtypes (H:=Samples.platform) Samples.accessor
    [JsObject [("_sessionId", JsString "S1"); ("name", JsString "Shape");
               ("kind", JsString "class"); ("uri", Samples.resource);
               ("range", Samples.some_range);
               ("selectionRange", Samples.some_range)]]
    Samples.created_world
  = (Throw UnexpectedType, Samples.created_world).
Proof. reflexivity. Qed.

(** [null] has type object, so validation reads a property of it and
    fails with the error of that read. *)
Example scenario_null_node :
  _executeProvideSupertypes (H:=Samples.platform) Samples.accessor [JsNull]
    Samples.created_world
  = (Throw NullPropertyAccess, Samples.created_world).
Proof. reflexivity. Qed.

(** Eleven sessions, one after the other: ten entries are left, and the
    model inserted first is the one disposed; its session is released. *)
Example scenario_eleven_sessions :
  let w := exec (for_each models_put (Samples.ten_models ++ [Samples.eleventh]))
             (mkWorld (imap (fun (_ : nat) _ => mkRefCounted 1 Samples.one_root)
                         (Samples.ten_keys ++ ["k10"])) [] []) in
  (_models w).*1 = ["k1"; "k2"; "k3"; "k4"; "k5"; "k6"; "k7"; "k8"; "k9"; "k10"] /\
  model_disposals (trace w) = [Samples.model_at 0 "k0"] /\
  session_disposals (trace w) = [Samples.one_root] /\
  _counter <$> heap w = [0; 1; 1; 1; 1; 1; 1; 1; 1; 1; 1]%Z.
Proof. by vm_compute. Qed.

(** ** The commands keep the registry sound

    The theorems on the registry above take the models inserted as given,
    each with a handle of its own.  Here the insertions are the ones the
    prepare command makes, with the models [create] returns: from the world
    at start-up, whatever requests arrive, the registry stays within its
    bound and no model is disposed twice, as long as no session throws
    from its [dispose()]. *)

Lemma dispose_heap_length (this : TypeHierarchyModel) (w w' : World)
    (c : Completion unit) :
  dispose this w = (c, w') -> length (heap w') = length (heap w).
Proof.
  destruct (heap w !! ref this) as [cell|] eqn:Hc.
  - rewrite (dispose_run this w cell Hc). intros [= _ <-]. simpl. apply length_insert.
  - unfold dispose, release. unfold_M. simpl. rewrite Hc. by intros [= _ <-].
Qed.

Lemma forEach_from_heap_length (pending : Entries) :
  forall (w w' : World) (c : Completion unit),
    forEach_from pending evict_callback w = (c, w') ->
    length (heap w') = length (heap w).
Proof.
  induction pending as [|[k v] pending IH]; intros w w' c; [by intros [= _ <-]|].
  destruct (Map_get k (_models w)) as [value|] eqn:Hget.
  - destruct (Z.ltb_spec 10 (Map_size (_models w))) as [Hover|Hwithin].
    + destruct (dispose value w) as [[[]|e] w1] eqn:Hdisp.
      * erewrite forEach_from_hit; [|exact Hget|by apply evict_callback_over_bound].
        intros Hrun%IH. simpl in Hrun. rewrite Hrun. by eapply dispose_heap_length.
      * erewrite forEach_from_throws; [|exact Hget|by apply evict_callback_throws].
        intros [= _ <-]. by eapply dispose_heap_length.
    + erewrite forEach_from_hit; [|exact Hget|by apply evict_callback_within_bound].
      apply IH.
  - rewrite forEach_from_miss by done. apply IH.
Qed.

Lemma models_put_heap_length (model : TypeHierarchyModel) (w w' : World)
    (c : Completion unit) :
  models_put model w = (c, w') -> length (heap w') = length (heap w).
Proof.
  unfold models_put. erewrite bind_Return by reflexivity.
  unfold models_forEach. by intros ->%forEach_from_heap_length.
Qed.

(** The invariants read the world through the registry and the models
    disposed so far; a step that leaves both alone keeps them. *)
Lemma system_inv_frame (w w' : World) :
  _models w' = _models w ->
  model_disposals (trace w') = model_disposals (trace w) ->
  (length (heap w) <= length (heap w'))%nat ->
  system_inv w -> system_inv w'.
Proof.
  unfold system_inv, registry_inv. intros -> -> Hheap [Hinv Hbound].
  split; [done|]. intros m Hm. specialize (Hbound m Hm). lia.
Qed.

(** Inserting a model whose handle is the newest cell of the heap. *)
Lemma system_inv_put (model : TypeHierarchyModel) (w w' : World) :
  system_inv w ->
  (forall m, m ∈ (_models w).*2 ++ model_disposals (trace w) ->
             (ref m < ref model)%nat) ->
  (ref model < length (heap w))%nat ->
  models_put model w = (Return tt, w') ->
  system_inv w'.
Proof.
  intros [Hinv Hbound] Hnewest Hcell Hput.
  destruct (models_put_returns model w w' Hput)
    as (evicted & Hsplit & _ & Hsize & Htr & _).
  assert (Hinv' : registry_inv
                    (((_models w).*2 ++ model_disposals (trace w)) ++ [model]) w').
  { eapply registry_inv_put; try done.
    intros (m & Href & Hm)%list_elem_of_fmap. specialize (Hnewest m Hm). lia. }
  destruct Hinv' as (Hs & Hk & Hr & Hin). split.
  - by split_and!.
  - intros m Hm. rewrite (models_put_heap_length _ _ _ _ Hput).
    apply Hin, elem_of_app in Hm as [Hm|Hm%list_elem_of_singleton].
    + specialize (Hnewest m Hm). lia.
    + by subst m.
Qed.

Lemma expand_commands_frame `{Platform} (accessor : ServicesAccessor)
    (args : list JsValue) (w : World) :
  (heap (exec (_executeProvideSupertypes accessor args) w) = heap w /\
   _models (exec (_executeProvideSupertypes accessor args) w) = _models w /\
   model_disposals (trace (exec (_executeProvideSupertypes accessor args) w))
     = model_disposals (trace w)) /\
  (heap (exec (_executeProvideSubtypes accessor args) w) = heap w /\
   _models (exec (_executeProvideSubtypes accessor args) w) = _models w /\
   model_disposals (trace (exec (_executeProvideSubtypes accessor args) w))
     = model_disposals (trace w)).
Proof.
  destruct (isTypeHierarchyItemDto (arg 0 args)) as [[|]|e] eqn:Hok.
  - destruct (isTypeHierarchyItemDto_true_readable _ "_sessionId" Hok) as [sid Hsid].
    unfold exec.
    rewrite (_executeProvideSupertypes_run accessor args w sid Hok Hsid).
    rewrite (_executeProvideSubtypes_run accessor args w sid Hok Hsid).
    destruct (Map_get_any sid (_models w)) as [model|]; [|done].
    rewrite provideSupertypes_run, provideSubtypes_run. cbv zeta.
    split.
    + destruct (TypeHierarchyProvider.provideSupertypes _ _ _); simpl;
        rewrite ?model_disposals_app; simpl; by rewrite ?app_nil_r.
    + destruct (TypeHierarchyProvider.provideSubtypes _ _ _); simpl;
        rewrite ?model_disposals_app; simpl; by rewrite ?app_nil_r.
  - unfold exec.
    destruct (expand_commands_reject_malformed accessor args w Hok) as [-> ->].
    done.
  - unfold exec, _executeProvideSupertypes, _executeProvideSubtypes. cbv zeta.
    rewrite Hok. by unfold_M.
Qed.

(** The prepare command either leaves heap, registry and the models
    disposed as they were, or allocates one handle, the newest cell, for a
    model around a session of the first provider, and inserts the model. *)
Lemma prepare_command_effect `{Platform} (accessor : ServicesAccessor)
    (args : list JsValue) (w : World) :
  let w' := exec (_executePrepareTypeHierarchy accessor args) w in
  (heap w' = heap w /\ _models w' = _models w /\
   model_disposals (trace w') = model_disposals (trace w)) \/
  (exists m w1 c w2,
     length (heap w1) = S (length (heap w)) /\
     _models w1 = _models w /\
     model_disposals (trace w1) = model_disposals (trace w) /\
     ref m = length (heap w) /\
     (providers_dispose_quietly -> sessions_dispose_quietly w ->
      sessions_dispose_quietly w1) /\
     models_put m w1 = (c, w2) /\
     heap w' = heap w2 /\ _models w' = _models w2 /\
     model_disposals (trace w') = model_disposals (trace w2)).
Proof.
  cbv zeta.
  destruct (isUri (arg 0 args)) eqn:Huri;
    [|left; unfold exec, _executePrepareTypeHierarchy; cbv zeta;
      rewrite Huri; by unfold_M].
  destruct (isIPosition (arg 1 args)) eqn:Hpos;
    [|left; unfold exec, _executePrepareTypeHierarchy; cbv zeta;
      rewrite Huri, Hpos; by unfold_M].
  assert (Hresolved : forall textModel released,
    model_disposals released = [] ->
    _executePrepareTypeHierarchy accessor args w =
      (let '(c, w') := prepare_try_block textModel (arg 1 args) w in
       (c, with_trace w' (trace w' ++ released))) ->
    (heap (exec (_executePrepareTypeHierarchy accessor args) w) = heap w /\
     _models (exec (_executePrepareTypeHierarchy accessor args) w) = _models w /\
     model_disposals (trace (exec (_executePrepareTypeHierarchy accessor args) w))
       = model_disposals (trace w)) \/
    (exists m w1 c w2,
       length (heap w1) = S (length (heap w)) /\
       _models w1 = _models w /\
       model_disposals (trace w1) = model_disposals (trace w) /\
       ref m = length (heap w) /\
       (providers_dispose_quietly -> sessions_dispose_quietly w ->
        sessions_dispose_quietly w1) /\
       models_put m w1 = (c, w2) /\
       heap (exec (_executePrepareTypeHierarchy accessor args) w) = heap w2 /\
       _models (exec (_executePrepareTypeHierarchy accessor args) w) = _models w2 /\
       model_disposals (trace (exec (_executePrepareTypeHierarchy accessor args) w))
         = model_disposals (trace w2))).
  { intros textModel released Hreleased Hrun. unfold exec. rewrite Hrun.
    unfold prepare_try_block.
    destruct (create textModel (arg 1 args) CancellationToken.None w)
      as [[[m|]|e] w1] eqn:Hcreate.
    - right.
      destruct (create_Some_inv _ _ _ _ _ _ Hcreate)
        as (p & ps & session & Hordered & Hprepare & Hm & Hheap & Hmodels & Htrace).
      destruct (models_put m w1) as [c w2] eqn:Hput.
      exists m, w1, c, w2. erewrite bind_Return by exact Hcreate. cbv beta iota.
      assert (Hout : (models_put m ≫= λ _ : (), mret [root m]) w1
                     = (match c with
                        | Return _ => Return [root m]
                        | Throw e => Throw e
                        end, w2)).
      { destruct c as [[]|e].
        - by erewrite bind_Return by exact Hput.
        - by erewrite bind_Throw by exact Hput. }
      rewrite Hout. simpl.
      split_and!; try done.
      + rewrite Hheap, length_app. simpl. lia.
      + rewrite Htrace, model_disposals_app. simpl. by rewrite app_nil_r.
      + by subst m.
      + intros Hproviders Hquiet. unfold sessions_dispose_quietly.
        rewrite Hheap. apply Forall_app. split; [done|].
        apply Forall_singleton. simpl. by eapply Hproviders.
      + rewrite model_disposals_app, Hreleased. by rewrite app_nil_r.
    - left. erewrite bind_Return by exact Hcreate. simpl.
      rewrite model_disposals_app, Hreleased, app_nil_r.
      rewrite create_run in Hcreate.
      destruct (ordered textModel) as [|p ps]; [by injection Hcreate as <-|].
      cbv zeta in Hcreate.
      destruct (TypeHierarchyProvider.prepareTypeHierarchy _ _ _ _)
        as [[session|]|e|e]; try done.
      injection Hcreate as <-. simpl.
      rewrite model_disposals_app. simpl. by rewrite app_nil_r.
    - left. erewrite bind_Throw by exact Hcreate. simpl.
      rewrite model_disposals_app, Hreleased, app_nil_r.
      rewrite create_run in Hcreate.
      destruct (ordered textModel) as [|p ps]; [done|].
      cbv zeta in Hcreate.
      destruct (TypeHierarchyProvider.prepareTypeHierarchy _ _ _ _)
        as [[session|]|e'|e']; try done; injection Hcreate as _ <-; simpl;
        rewrite model_disposals_app; simpl; by rewrite app_nil_r. }
  destruct (getModel accessor (arg 0 args)) as [textModel|] eqn:Hget.
  - apply (Hresolved textModel []); [done|].
    apply _executePrepareTypeHierarchy_run; auto.
  - destruct (createModelReference accessor (arg 0 args)) as [r|e|e] eqn:Hopen.
    + apply (Hresolved (textEditorModel r) [ReferenceDispose r]); [done|].
      apply _executePrepareTypeHierarchy_run; auto.
      right. by exists r.
    + left. unfold exec, _executePrepareTypeHierarchy. cbv zeta.
      rewrite Huri, Hpos, Hget, Hopen. by unfold_M.
    + left. unfold exec, _executePrepareTypeHierarchy. cbv zeta.
      rewrite Huri, Hpos, Hget, Hopen. by unfold_M.
Qed.

Lemma sessions_dispose_quietly_frame (w w' : World) :
  heap w' = heap w -> sessions_dispose_quietly w -> sessions_dispose_quietly w'.
Proof. unfold sessions_dispose_quietly. by intros ->. Qed.

Lemma after_command_system_inv `{Platform} (c : Command) (w : World) :
  providers_dispose_quietly ->
  system_inv w /\ sessions_dispose_quietly w ->
  system_inv (after_command c w) /\ sessions_dispose_quietly (after_command c w).
Proof.
  intros Hproviders [Hinv Hquiet].
  destruct c as [accessor args|accessor args|accessor args]; simpl.
  - destruct (prepare_command_effect accessor args w)
      as [(Hheap & Hmodels & Htr)
         |(m & w1 & c & w2 & Hheap1 & Hmodels1 & Htr1 & Href & Hquiet1 & Hput
           & Hheap & Hmodels & Htr)].
    + split; [|by eapply sessions_dispose_quietly_frame].
      eapply system_inv_frame; [done..|by rewrite Hheap|done].
    + specialize (Hquiet1 Hproviders Hquiet).
      destruct (models_put_effect m w1 Hquiet1)
        as (w2_ & evicted & Hput_ & _ & _ & _ & _ & _ & Hquiet2).
      rewrite Hput in Hput_. injection Hput_ as -> <-.
      split; [|by eapply sessions_dispose_quietly_frame].
      eapply (system_inv_frame w2); [done..|by rewrite Hheap|].
      assert (Hinv1 : system_inv w1).
      { eapply system_inv_frame; [done..|lia|done]. }
      eapply (system_inv_put m w1); [done| |lia|done].
      intros m' Hm'. rewrite Hmodels1, Htr1 in Hm'.
      destruct Hinv as [_ Hbound]. specialize (Hbound m' Hm'). lia.
  - destruct (expand_commands_frame accessor args w) as [(Hh & Hm & Ht) _].
    split; [|by eapply sessions_dispose_quietly_frame].
    eapply system_inv_frame; [done..|by rewrite Hh|done].
  - destruct (expand_commands_frame accessor args w) as [_ (Hh & Hm & Ht)].
    split; [|by eapply sessions_dispose_quietly_frame].
    eapply system_inv_frame; [done..|by rewrite Hh|done].
Qed.

(** X16.  No session throws from its [dispose()]: none held at the start,
    and none that a provider hands out.  From a world with an empty
    registry and no model disposed, after any sequence of requests: at most
    ten sessions are registered, under distinct ids; no model has been
    disposed twice; and no disposed model is still registered. *)
Theorem commands_keep_registry_sound `{Platform} (cs : list Command) (w0 : World) :
  providers_dispose_quietly ->
  sessions_dispose_quietly w0 ->
  _models w0 = [] ->
  model_disposals (trace w0) = [] ->
  let w := after_commands cs w0 in
  (Map_size (_models w) <= 10)%Z /\
  NoDup (_models w).*1 /\
  NoDup (ref <$> (_models w).*2) /\
  NoDup (model_disposals (trace w)) /\
  (forall m, m ∈ model_disposals (trace w) -> m ∉ (_models w).*2).
Proof.
  intros Hproviders Hquiet Hempty Hclean. cbv zeta.
  assert (Hinv : system_inv (after_commands cs w0) /\
                 sessions_dispose_quietly (after_commands cs w0)).
  { unfold after_commands.
    assert (Hinv0 : system_inv w0 /\ sessions_dispose_quietly w0).
    { split; [|done].
      split; [|rewrite Hempty, Hclean; by intros m ?%elem_of_nil].
      rewrite Hempty, Hclean. by apply registry_inv_empty. }
    clear Hempty Hclean Hquiet. revert w0 Hinv0.
    induction cs as [|c cs IH]; intros w0 Hinv0; [done|].
    simpl. by apply IH, after_command_system_inv. }
  destruct Hinv as [[(Hsize & Hkeys & Hrefs & _) _] _].
  split_and!; [done|done| | |].
  - rewrite fmap_app in Hrefs. by apply NoDup_app in Hrefs as (? & _ & _).
  - apply NoDup_fmap_1 in Hrefs. by apply NoDup_app in Hrefs as (_ & _ & ?).
  - apply NoDup_fmap_1 in Hrefs. apply NoDup_app in Hrefs as (_ & Hdisj & _).
    intros m Hm Hreg. by apply (Hdisj m).
Qed.

Lemma commands_keep_registry_sound_example :
  let w := after_commands (H:=Samples.line_platform)
             (Samples.eleven_prepares
                ++ [ExpandUp Samples.accessor [Samples.dto "k3"]])
             Samples.empty_world in
  (_models w).*1 = ["k1"; "k2"; "k3"; "k4"; "k5"; "k6"; "k7"; "k8"; "k9"; "k10"] /\
  ref <$> model_disposals (trace w) = [0%nat] /\
  session_disposals (trace w) = [Samples.line_session 0] /\
  (Map_size (_models w) <= 10)%Z /\
  NoDup (model_disposals (trace w)) /\
  (forall m, m ∈ model_disposals (trace w) -> m ∉ (_models w).*2).
Proof.
  destruct (commands_keep_registry_sound (H:=Samples.line_platform)
              (Samples.eleven_prepares
                 ++ [ExpandUp Samples.accessor [Samples.dto "k3"]])
              Samples.empty_world)
    as (Hsize & _ & _ & Hnodup & Hgone).
  - intros doc position token p ps session [= <- _] Hprepare.
    destruct position as [| | | | |props|]; try done. simpl in Hprepare.
    destruct (assoc "lineNumber" props) as [[| | |n| | |]|]; try done.
    by injection Hprepare as <-.
  - constructor.
  - reflexivity.
  - reflexivity.
  - split_and!; [by vm_compute..|done|done|done].
Defined.

(** * Further properties of the commands and the model *)

(** ** Validation comes first *)

(** X1.  When the resource is not a URI, or the position is not a
    position, the prepare command fails with the type error and leaves the
    world as it was: no service is asked for the document and no provider
    is called. *)
Theorem prepare_command_rejects_bad_arguments `{Platform}
    (accessor : ServicesAccessor) (args : list JsValue) (w : World) :
  isUri (arg 0 args) = false \/ isIPosition (arg 1 args) = false ->
  _executePrepareTypeHierarchy accessor args w = (Throw UnexpectedType, w).
Proof.
  intros Hbad. unfold _executePrepareTypeHierarchy. cbv zeta.
  destruct (isUri (arg 0 args)) eqn:Huri; [|by unfold_M].
  destruct Hbad as [?|Hpos]; [done|]. rewrite Hpos. by unfold_M.
Qed.

Lemma prepare_command_rejects_bad_arguments_witness :
  _executePrepareTypeHierarchy (H:=Samples.platform) Samples.accessor
    [Samples.resource] Samples.created_world
  = (Throw UnexpectedType, Samples.created_world).
Proof.
  apply (prepare_command_rejects_bad_arguments (H:=Samples.platform)).
  right. reflexivity.
Defined.

(** X2.  An expand command whose node does not pass validation fails and
    leaves the world as it was, so the registry is not consulted and no
    provider is called: with the type error when the validator says no,
    with the validator's own error when it throws. *)
Theorem expand_commands_validate_first `{Platform} (accessor : ServicesAccessor)
    (args : list JsValue) (w : World) :
  (isTypeHierarchyItemDto (arg 0 args) = Return false ->
   _executeProvideSupertypes accessor args w = (Throw UnexpectedType, w) /\
   _executeProvideSubtypes accessor args w = (Throw UnexpectedType, w)) /\
  (forall e, isTypeHierarchyItemDto (arg 0 args) = Throw e ->
   _executeProvideSupertypes accessor args w = (Throw e, w) /\
   _executeProvideSubtypes accessor args w = (Throw e, w)).
Proof.
  split.
  - apply expand_commands_reject_malformed.
  - intros e Hthrow. unfold _executeProvideSupertypes, _executeProvideSubtypes.
    cbv zeta. rewrite Hthrow. by unfold_M.
Qed.

Lemma expand_commands_validate_first_witness :
  _executeProvideSubtypes (H:=Samples.platform) Samples.accessor
    [JsObject [("name", JsString "Shape"); ("kind", JsString "class")]]
    Samples.created_world
  = (Throw UnexpectedType, Samples.created_world).
Proof.
  exact (proj2 (proj1 (expand_commands_validate_first (H:=Samples.platform)
                         Samples.accessor
                         [JsObject [("name", JsString "Shape");
                                    ("kind", JsString "class")]]
                         Samples.created_world) eq_refl)).
Defined.

(** X3.  What the validator makes of a first argument that is not a plain
    object.  A missing argument, undefined, a boolean, a number, a string
    and an array are refused, so the expand commands fail with the type
    error.  For [null] the validator does not answer: [typeof null] is
    object, the read of [name] throws, and that error is what the commands
    fail with. *)
Theorem expand_commands_on_non_objects `{Platform} (accessor : ServicesAccessor)
    (args : list JsValue) (w : World) :
  (forall props, arg 0 args <> JsObject props) ->
  let e := match arg 0 args with
           | JsNull => NullPropertyAccess
           | _ => UnexpectedType
           end in
  _executeProvideSupertypes accessor args w = (Throw e, w) /\
  _executeProvideSubtypes accessor args w = (Throw e, w).
Proof.
  intros Hnot. cbv zeta.
  unfold _executeProvideSupertypes, _executeProvideSubtypes. cbv zeta.
  destruct (arg 0 args) as [| |b|n|s|props|elems] eqn:Harg;
    try (by unfold_M).
  by destruct (Hnot props).
Qed.

Lemma expand_commands_on_non_objects_witness :
  _executeProvideSupertypes (H:=Samples.platform) Samples.accessor []
    Samples.created_world
  = (Throw UnexpectedType, Samples.created_world) /\
  _executeProvideSupertypes (H:=Samples.platform) Samples.accessor [JsNull]
    Samples.created_world
  = (Throw NullPropertyAccess, Samples.created_world).
Proof.
  split.
  - refine (proj1 (expand_commands_on_non_objects (H:=Samples.platform)
                     Samples.accessor [] Samples.created_world _)).
    intros props. discriminate.
  - refine (proj1 (expand_commands_on_non_objects (H:=Samples.platform)
                     Samples.accessor [JsNull] Samples.created_world _)).
    intros props. discriminate.
Defined.

(** ** The expand commands *)

(** X4.  For a node that passes validation the expand commands do not
    fail: the result is undefined when the registry has no model under the
    node's [_sessionId], and otherwise what the model's expansion method
    makes of the answer of the model's provider, an array. *)
Theorem expand_commands_total_on_valid_nodes `{Platform}
    (accessor : ServicesAccessor) (args : list JsValue) (w : World) :
  isTypeHierarchyItemDto (arg 0 args) = Return true ->
  exists sessionId,
    get_prop (arg 0 args) "_sessionId" = Return sessionId /\
    result (_executeProvideSupertypes accessor args) w =
      Return (match Map_get_any sessionId (_models w) with
              | None => JsUndefined
              | Some model =>
                  expansion_result
                    (TypeHierarchyProvider.provideSupertypes (provider model)
                       (arg 0 args) CancellationToken.None)
              end) /\
    result (_executeProvideSubtypes accessor args) w =
      Return (match Map_get_any sessionId (_models w) with
              | None => JsUndefined
              | Some model =>
                  expansion_result
                    (TypeHierarchyProvider.provideSubtypes (provider model)
                       (arg 0 args) CancellationToken.None)
              end).
Proof.
  intros Hok.
  destruct (isTypeHierarchyItemDto_true_readable _ "_sessionId" Hok) as [sid Hsid].
  exists sid. split; [done|]. unfold result.
  rewrite (_executeProvideSupertypes_run accessor args w sid Hok Hsid).
  rewrite (_executeProvideSubtypes_run accessor args w sid Hok Hsid).
  destruct (Map_get_any sid (_models w)) as [model|]; [|done].
  rewrite provideSupertypes_run, provideSubtypes_run. cbv zeta.
  split.
  - by destruct (TypeHierarchyProvider.provideSupertypes _ _ _).
  - by destruct (TypeHierarchyProvider.provideSubtypes _ _ _).
Qed.

Lemma expand_commands_total_on_valid_nodes_witness :
  result (_executeProvideSupertypes (H:=Samples.platform) Samples.accessor
            [Samples.dto "k3"])
    (mkWorld [] (imap (fun i k => (k, Samples.model_at i k)) Samples.ten_keys) [])
  = Return (JsArray [JsString "B"]).
Proof.
  destruct (expand_commands_total_on_valid_nodes (H:=Samples.platform)
              Samples.accessor [Samples.dto "k3"]
              (mkWorld [] (imap (fun i k => (k, Samples.model_at i k))
                             Samples.ten_keys) []) eq_refl)
    as (sid & Hsid & Hup & _).
  injection Hsid as <-. exact Hup.
Defined.

(** X5.  The expand commands change nothing but the trace, and the trace
    only by the call to the provider and, when that fails, the report of the
    error: heap and registry are as before, no model and no session is
    disposed. *)
Theorem expand_commands_only_call_provider `{Platform}
    (accessor : ServicesAccessor) (args : list JsValue) (w : World) :
  (let w' := exec (_executeProvideSupertypes accessor args) w in
   heap w' = heap w /\ _models w' = _models w /\
   exists t, trace w' = trace w ++ t /\ (length t <= 2)%nat /\
     Forall (fun ev => is_disposal ev = false) t) /\
  (let w' := exec (_executeProvideSubtypes accessor args) w in
   heap w' = heap w /\ _models w' = _models w /\
   exists t, trace w' = trace w ++ t /\ (length t <= 2)%nat /\
     Forall (fun ev => is_disposal ev = false) t).
Proof.
  cbv zeta. unfold exec.
  assert (Hstill : heap w = heap w /\ _models w = _models w /\
            exists t, trace w = trace w ++ t /\ (length t <= 2)%nat /\
              Forall (fun ev => is_disposal ev = false) t).
  { split_and!; [done..|]. exists []. rewrite app_nil_r. split_and!; [done|simpl; lia|done]. }
  destruct (isTypeHierarchyItemDto (arg 0 args)) as [[|]|e] eqn:Hok.
  - destruct (isTypeHierarchyItemDto_true_readable _ "_sessionId" Hok) as [sid Hsid].
    rewrite (_executeProvideSupertypes_run accessor args w sid Hok Hsid).
    rewrite (_executeProvideSubtypes_run accessor args w sid Hok Hsid).
    destruct (Map_get_any sid (_models w)) as [model|]; [|done].
    rewrite provideSupertypes_run, provideSubtypes_run. cbv zeta.
    split.
    + destruct (TypeHierarchyProvider.provideSupertypes _ _ _); simpl;
        (split_and!; [done..|]); rewrite <- ?app_assoc;
        eexists; (split_and!; [reflexivity|simpl; lia|by repeat constructor]).
    + destruct (TypeHierarchyProvider.provideSubtypes _ _ _); simpl;
        (split_and!; [done..|]); rewrite <- ?app_assoc;
        eexists; (split_and!; [reflexivity|simpl; lia|by repeat constructor]).
  - destruct (expand_commands_reject_malformed accessor args w Hok) as [-> ->].
    done.
  - unfold _executeProvideSupertypes, _executeProvideSubtypes. cbv zeta.
    rewrite Hok. by unfold_M.
Qed.

(** ** The prepare command: what it leaves in the trace *)

Lemma dispose_trace (this : TypeHierarchyModel) (w : World) :
  exists c w' t,
    dispose this w = (c, w') /\
    trace w' = trace w ++ t /\
    Forall (fun ev => is_disposal ev = true) t.
Proof.
  destruct (heap w !! ref this) as [c|] eqn:Hc.
  - eexists _, _, _. split; [by apply dispose_run|]. simpl.
    rewrite <- app_assoc. split; [reflexivity|].
    destruct (_counter c - 1 =? 0)%Z; by repeat constructor.
  - exists (Return tt), (with_trace w (trace w ++ [ModelDispose this])),
      [ModelDispose this].
    split_and!; [|done|by repeat constructor].
    unfold dispose, release. unfold_M. simpl. by rewrite Hc.
Qed.

Lemma forEach_from_trace (pending : Entries) :
  forall w : World,
    exists c w' t,
      forEach_from pending evict_callback w = (c, w') /\
      trace w' = trace w ++ t /\
      Forall (fun ev => is_disposal ev = true) t.
Proof.
  induction pending as [|[k v] pending IH]; intros w.
  - exists (Return tt), w, []. by rewrite app_nil_r.
  - destruct (Map_get k (_models w)) as [value|] eqn:Hget.
    + destruct (Z.ltb_spec 10 (Map_size (_models w))) as [Hover|Hwithin].
      * destruct (dispose_trace value w) as (c1 & w1 & t1 & Hdisp & Htr1 & Ht1).
        destruct c1 as [[]|e].
        -- destruct (IH (mkWorld (heap w1) (Map_delete k (_models w1)) (trace w1)))
             as (c & w' & t & Hrun & Htr & Ht).
           exists c, w', (t1 ++ t). split_and!.
           ++ erewrite forEach_from_hit;
                [exact Hrun|exact Hget|by apply evict_callback_over_bound].
           ++ rewrite Htr. simpl. by rewrite Htr1, app_assoc.
           ++ by apply Forall_app.
        -- exists (Throw e), w1, t1. split_and!; [|done|done].
           eapply forEach_from_throws; [exact Hget|].
           by apply evict_callback_throws.
      * destruct (IH w) as (c & w' & t & Hrun & Htr & Ht).
        exists c, w', t. split_and!; [|done|done].
        erewrite forEach_from_hit;
          [exact Hrun|exact Hget|by apply evict_callback_within_bound].
    + destruct (IH w) as (c & w' & t & Hrun & Htr & Ht).
      exists c, w', t. split_and!; [|done|done]. by rewrite forEach_from_miss.
Qed.

Lemma models_put_trace (model : TypeHierarchyModel) (w : World) :
  exists c w' t,
    models_put model w = (c, w') /\
    trace w' = trace w ++ t /\
    Forall (fun ev => is_disposal ev = true) t.
Proof.
  destruct (forEach_from_trace (Map_set (id model) model (_models w))
              (mkWorld (heap w) (Map_set (id model) model (_models w)) (trace w)))
    as (c & w' & t & Hrun & Htr & Ht).
  exists c, w', t. split_and!; [|done|done].
  unfold models_put. by erewrite bind_Return by reflexivity.
Qed.

(** The events of the [try] block: at most one call to a provider, with
    the token that is never cancelled, and after it the disposals of an
    eviction. *)
Lemma prepare_try_block_trace `{Platform} (textModel : ITextModel)
    (position : JsValue) (w : World) :
  exists t,
    trace (exec (prepare_try_block textModel position) w) = trace w ++ t /\
    Forall (fun ev => is_disposal ev = true \/
                      exists p, ev = PrepareTypeHierarchyCall p textModel position
                                       CancellationToken.None) t.
Proof.
  unfold exec, prepare_try_block.
  destruct (create textModel position CancellationToken.None w)
    as [[[m|]|e] w1] eqn:Hcreate.
  - destruct (create_Some_inv _ _ _ _ _ _ Hcreate)
      as (p & ps & session & _ & _ & _ & _ & _ & Htrace).
    destruct (models_put_trace m w1) as (c & w2 & t & Hput & Htr & Ht).
    erewrite bind_Return by exact Hcreate. cbv beta iota.
    assert (Hout : snd ((models_put m ≫= λ _ : (), mret [root m]) w1) = w2).
    { destruct c as [[]|e].
      - by erewrite bind_Return by exact Hput.
      - by erewrite bind_Throw by exact Hput. }
    rewrite Hout.
    eexists (_ :: t). rewrite Htr, Htrace, <- app_assoc. split; [reflexivity|].
    constructor; [right; by exists p|].
    eapply Forall_impl; [exact Ht|]. by left.
  - erewrite bind_Return by exact Hcreate. simpl.
    rewrite create_run in Hcreate.
    destruct (ordered textModel) as [|p ps].
    + injection Hcreate as <-. exists []. by rewrite app_nil_r.
    + cbv zeta in Hcreate.
      destruct (TypeHierarchyProvider.prepareTypeHierarchy _ _ _ _)
        as [[session|]|e|e]; try done.
      injection Hcreate as <-. simpl. eexists [_]. split; [reflexivity|].
      constructor; [right; by exists p|done].
  - erewrite bind_Throw by exact Hcreate. simpl.
    rewrite create_run in Hcreate.
    destruct (ordered textModel) as [|p ps]; [done|].
    cbv zeta in Hcreate.
    destruct (TypeHierarchyProvider.prepareTypeHierarchy _ _ _ _)
      as [[session|]|e'|e']; try done; injection Hcreate as _ <-; simpl;
      (eexists [_]; split; [reflexivity|]);
      (constructor; [right; by exists p|done]).
Qed.

Lemma reference_disposals_app (t1 t2 : list Event) :
  reference_disposals (t1 ++ t2) = reference_disposals t1 ++ reference_disposals t2.
Proof. apply omap_app. Qed.

(** X6.  A model reference that the prepare command had to open is
    released on every way out of the [try] block: whether [create] returns
    a model, returns absent or fails, the reference is disposed exactly
    once, as the last thing the command does, and the outcome of the block
    is the outcome of the command.  With an open buffer no reference is
    opened and none is disposed. *)
Theorem prepare_command_releases_reference `{Platform} (accessor : ServicesAccessor)
    (args : list JsValue) (w : World) :
  isUri (arg 0 args) = true ->
  isIPosition (arg 1 args) = true ->
  (forall r,
     getModel accessor (arg 0 args) = None ->
     createModelReference accessor (arg 0 args) = Resolves r ->
     let w' := exec (_executePrepareTypeHierarchy accessor args) w in
     result (_executePrepareTypeHierarchy accessor args) w
       = result (prepare_try_block (textEditorModel r) (arg 1 args)) w /\
     reference_disposals (trace w') = reference_disposals (trace w) ++ [r] /\
     last (trace w') = Some (ReferenceDispose r)) /\
  (forall textModel,
     getModel accessor (arg 0 args) = Some textModel ->
     _executePrepareTypeHierarchy accessor args w
       = prepare_try_block textModel (arg 1 args) w /\
     reference_disposals (trace (exec (_executePrepareTypeHierarchy accessor args) w))
       = reference_disposals (trace w)).
Proof.
  intros Huri Hpos.
  assert (Hblock : forall textModel,
    reference_disposals (trace (exec (prepare_try_block textModel (arg 1 args)) w))
    = reference_disposals (trace w)).
  { intros textModel.
    destruct (prepare_try_block_trace textModel (arg 1 args) w) as (t & -> & Ht).
    rewrite reference_disposals_app.
    assert (Hnone : reference_disposals t = []).
    { clear -Ht. induction Ht as [|ev t Hev _ IH]; [done|].
      simpl. destruct Hev as [Hev|[p ->]]; [by destruct ev|done]. }
    by rewrite Hnone, app_nil_r. }
  split.
  - intros r Hget Hopen. cbv zeta. unfold exec, result.
    rewrite (_executePrepareTypeHierarchy_run accessor args w (textEditorModel r)
               [ReferenceDispose r]); [|done|done|right; by exists r].
    specialize (Hblock (textEditorModel r)). unfold exec in Hblock.
    destruct (prepare_try_block (textEditorModel r) (arg 1 args) w) as [c w1].
    simpl in *. split_and!; [done| |by rewrite last_snoc].
    by rewrite reference_disposals_app, Hblock.
  - intros textModel Hget. unfold exec.
    rewrite (_executePrepareTypeHierarchy_run accessor args w textModel []);
      [|done|done|by left].
    specialize (Hblock textModel). unfold exec in Hblock.
    destruct (prepare_try_block textModel (arg 1 args) w) as [c w1].
    simpl in *. rewrite with_trace_nil, app_nil_r. by split.
Qed.

Lemma prepare_command_releases_reference_witness :
  let w' := exec (_executePrepareTypeHierarchy
                    (H:=Samples.platform_of [Samples.failing_provider])
                    Samples.opening_accessor [Samples.resource; Samples.position])
              Samples.empty_world in
  result (_executePrepareTypeHierarchy
            (H:=Samples.platform_of [Samples.failing_provider])
            Samples.opening_accessor [Samples.resource; Samples.position])
    Samples.empty_world = Throw (ExternalError 3) /\
  reference_disposals (trace w') = [mkReference 1 Samples.document].
Proof.
  destruct (proj1 (prepare_command_releases_reference
                     (H:=Samples.platform_of [Samples.failing_provider])
                     Samples.opening_accessor [Samples.resource; Samples.position]
                     Samples.empty_world eq_refl eq_refl)
              (mkReference 1 Samples.document) eq_refl eq_refl)
    as (Hres & Hrel & _).
  split; [exact Hres|exact Hrel].
Defined.

(** X7.  When the document cannot be opened, the prepare command fails
    with the error of the text model service before any provider is called;
    the world is as it was. *)
Theorem prepare_command_document_unavailable `{Platform}
    (accessor : ServicesAccessor) (args : list JsValue) (w : World) (e : Error) :
  isUri (arg 0 args) = true ->
  isIPosition (arg 1 args) = true ->
  getModel accessor (arg 0 args) = None ->
  createModelReference accessor (arg 0 args) = Rejects e \/
  createModelReference accessor (arg 0 args) = Throws e ->
  _executePrepareTypeHierarchy accessor args w = (Throw e, w).
Proof.
  intros Huri Hpos Hget Hopen. unfold _executePrepareTypeHierarchy. cbv zeta.
  rewrite Huri, Hpos, Hget. by destruct Hopen as [-> | ->]; unfold_M.
Qed.

Lemma prepare_command_document_unavailable_witness :
  _executePrepareTypeHierarchy (H:=Samples.platform)
    (mkAccessor (fun _ => None) (fun _ => Rejects (ExternalError 0)))
    [Samples.resource; Samples.position] Samples.empty_world
  = (Throw (ExternalError 0), Samples.empty_world).
Proof.
  exact (prepare_command_document_unavailable (H:=Samples.platform)
           (mkAccessor (fun _ => None) (fun _ => Rejects (ExternalError 0)))
           [Samples.resource; Samples.position] Samples.empty_world
           (ExternalError 0) eq_refl eq_refl eq_refl (or_introl eq_refl)).
Defined.

(** X8.  A failure of the provider's prepare call is not swallowed by the
    prepare command, unlike a failure of an expansion: the command fails
    with the provider's error, registers nothing and allocates no handle. *)
Theorem prepare_command_propagates_provider_error `{Platform}
    (accessor : ServicesAccessor) (args : list JsValue) (w : World)
    (textModel : ITextModel) (released : list Event)
    (p : TypeHierarchyProvider.t) (ps : list TypeHierarchyProvider.t) (e : Error) :
  isUri (arg 0 args) = true ->
  isIPosition (arg 1 args) = true ->
  (getModel accessor (arg 0 args) = Some textModel /\ released = []) \/
  (exists r, getModel accessor (arg 0 args) = None /\
     createModelReference accessor (arg 0 args) = Resolves r /\
     textEditorModel r = textModel /\ released = [ReferenceDispose r]) ->
  ordered textModel = p :: ps ->
  TypeHierarchyProvider.prepareTypeHierarchy p textModel (arg 1 args)
    CancellationToken.None = Rejects e \/
  TypeHierarchyProvider.prepareTypeHierarchy p textModel (arg 1 args)
    CancellationToken.None = Throws e ->
  let w' := exec (_executePrepareTypeHierarchy accessor args) w in
  result (_executePrepareTypeHierarchy accessor args) w = Throw e /\
  heap w' = heap w /\ _models w' = _models w /\
  trace w' = trace w ++
    PrepareTypeHierarchyCall p textModel (arg 1 args) CancellationToken.None
      :: released.
Proof.
  intros Huri Hpos Hdoc Hp Hfail. cbv zeta. unfold exec, result.
  rewrite (_executePrepareTypeHierarchy_run accessor args w textModel released)
    by done.
  unfold prepare_try_block.
  assert (Hcreate : create textModel (arg 1 args) CancellationToken.None w =
            (Throw e, with_trace w (trace w ++
               [PrepareTypeHierarchyCall p textModel (arg 1 args)
                  CancellationToken.None]))).
  { rewrite create_run, Hp. cbv zeta. by destruct Hfail as [-> | ->]. }
  erewrite bind_Throw by exact Hcreate. simpl.
  by rewrite <- app_assoc.
Qed.

Lemma prepare_command_propagates_provider_error_witness :
  result (_executePrepareTypeHierarchy
            (H:=Samples.platform_of [Samples.failing_provider])
            Samples.accessor [Samples.resource; Samples.position])
    Samples.created_world = Throw (ExternalError 3) /\
  _models (exec (_executePrepareTypeHierarchy
                   (H:=Samples.platform_of [Samples.failing_provider])
                   Samples.accessor [Samples.resource; Samples.position])
             Samples.created_world) = [].
Proof.
  destruct (prepare_command_propagates_provider_error
              (H:=Samples.platform_of [Samples.failing_provider])
              Samples.accessor [Samples.resource; Samples.position]
              Samples.created_world Samples.document [] Samples.failing_provider []
              (ExternalError 3) eq_refl eq_refl (or_introl (conj eq_refl eq_refl))
              eq_refl (or_introl eq_refl))
    as (Hres & _ & Hmodels & _).
  split; [exact Hres|exact Hmodels].
Defined.

(** ** The commands cannot be cancelled *)

(** X9.  Whatever the request, every call a command makes into a provider
    carries the token that is never cancelled: a caller of the commands has
    no means to cancel a provider call. *)
Theorem commands_never_cancel `{Platform} (c : Command) (w : World) :
  exists t,
    trace (after_command c w) = trace w ++ t /\
    Forall (fun ev => forall token, call_token ev = Some token ->
                                    token = CancellationToken.None) t.
Proof.
  assert (Hnothing : exists t, trace w = trace w ++ t /\
            Forall (fun ev => forall token, call_token ev = Some token ->
                                            token = CancellationToken.None) t).
  { exists []. by rewrite app_nil_r. }
  destruct c as [accessor args|accessor args|accessor args]; simpl; unfold exec.
  - destruct (isUri (arg 0 args)) eqn:Huri;
      [|unfold _executePrepareTypeHierarchy; cbv zeta; rewrite Huri; by unfold_M].
    destruct (isIPosition (arg 1 args)) eqn:Hpos;
      [|unfold _executePrepareTypeHierarchy; cbv zeta; rewrite Huri, Hpos;
        by unfold_M].
    assert (Hresolved : forall textModel released,
      Forall (fun ev => call_token ev = None) released ->
      _executePrepareTypeHierarchy accessor args w =
        (let '(c, w') := prepare_try_block textModel (arg 1 args) w in
         (c, with_trace w' (trace w' ++ released))) ->
      exists t,
        trace (_executePrepareTypeHierarchy accessor args w).2 = trace w ++ t /\
        Forall (fun ev => forall token, call_token ev = Some token ->
                                        token = CancellationToken.None) t).
    { intros textModel released Hreleased ->.
      destruct (prepare_try_block_trace textModel (arg 1 args) w) as (t & Htr & Ht).
      unfold exec in Htr.
      destruct (prepare_try_block textModel (arg 1 args) w) as [c w1].
      simpl in *. exists (t ++ released). rewrite Htr, <- app_assoc.
      split; [done|]. apply Forall_app. split.
      - eapply Forall_impl; [exact Ht|]. intros ev [Hev|[p ->]] token.
        + by destruct ev.
        + by intros [= <-].
      - eapply Forall_impl; [exact Hreleased|]. intros ev -> token. done. }
    destruct (getModel accessor (arg 0 args)) as [textModel|] eqn:Hget.
    + apply (Hresolved textModel []); [done|].
      apply _executePrepareTypeHierarchy_run; auto.
    + destruct (createModelReference accessor (arg 0 args)) as [r|e|e] eqn:Hopen.
      * apply (Hresolved (textEditorModel r) [ReferenceDispose r]);
          [by repeat constructor|].
        apply _executePrepareTypeHierarchy_run; auto. right. by exists r.
      * unfold _executePrepareTypeHierarchy. cbv zeta.
        rewrite Huri, Hpos, Hget, Hopen. by unfold_M.
      * unfold _executePrepareTypeHierarchy. cbv zeta.
        rewrite Huri, Hpos, Hget, Hopen. by unfold_M.
  - destruct (isTypeHierarchyItemDto (arg 0 args)) as [[|]|e] eqn:Hok.
    + destruct (isTypeHierarchyItemDto_true_readable _ "_sessionId" Hok)
        as [sid Hsid].
      rewrite (_executeProvideSupertypes_run accessor args w sid Hok Hsid).
      destruct (Map_get_any sid (_models w)) as [model|]; [|done].
      rewrite provideSupertypes_run. cbv zeta.
      destruct (TypeHierarchyProvider.provideSupertypes _ _ _); simpl;
        rewrite <- ?app_assoc; eexists; (split; [reflexivity|]);
        repeat constructor; by intros token [= <-].
    + destruct (expand_commands_reject_malformed accessor args w Hok) as [-> _].
      done.
    + unfold _executeProvideSupertypes. cbv zeta. rewrite Hok. by unfold_M.
  - destruct (isTypeHierarchyItemDto (arg 0 args)) as [[|]|e] eqn:Hok.
    + destruct (isTypeHierarchyItemDto_true_readable _ "_sessionId" Hok)
        as [sid Hsid].
      rewrite (_executeProvideSubtypes_run accessor args w sid Hok Hsid).
      destruct (Map_get_any sid (_models w)) as [model|]; [|done].
      rewrite provideSubtypes_run. cbv zeta.
      destruct (TypeHierarchyProvider.provideSubtypes _ _ _); simpl;
        rewrite <- ?app_assoc; eexists; (split; [reflexivity|]);
        repeat constructor; by intros token [= <-].
    + destruct (expand_commands_reject_malformed accessor args w Hok) as [_ ->].
      done.
    + unfold _executeProvideSubtypes. cbv zeta. rewrite Hok. by unfold_M.
Qed.

(** ** The registry: when an insertion evicts *)

Lemma Map_get_set_other (key other : string) (value : TypeHierarchyModel)
    (m : Entries) :
  other <> key -> Map_get other (Map_set key value m) = Map_get other m.
Proof.
  intros Hne. unfold Map_get. induction m as [|[k v] m IH]; cbn [Map_set assoc].
  - by destruct (String.eqb_spec key other).
  - destruct (String.eqb_spec k key) as [->|Hk]; cbn [assoc].
    + by destruct (String.eqb_spec key other).
    + destruct (String.eqb_spec k other); [done|apply IH].
Qed.

Lemma bind_run {A B : Type} (m : M A) (f : A -> M B) (w w' : World)
    (c : Completion A) :
  m w = (c, w') ->
  (m ≫= f) w = match c with
               | Return a => f a w'
               | Throw e => (Throw e, w')
               end.
Proof. intros E. unfold mbind, M_bind. rewrite E. by destruct c. Qed.

(** How a [dispose()] of a model ends depends on its handle alone. *)
Lemma dispose_result (this : TypeHierarchyModel) (w : World) :
  result (dispose this) w =
  match heap w !! ref this with
  | Some c => dispose_outcome c
  | None => Return tt
  end.
Proof.
  destruct (heap w !! ref this) as [c|] eqn:Hc.
  - unfold result. by rewrite (dispose_run this w c Hc).
  - unfold result, dispose, release. unfold_M. simpl. by rewrite Hc.
Qed.

(** An insertion under a new id into a registry of ten: the scan calls
    [dispose()] on the model of the oldest entry.  When the call returns,
    the entry is deleted and the scan ends; when it throws, the insertion
    fails with all eleven entries in place. *)
Lemma models_put_full (model : TypeHierarchyModel) (w : World) (key : string)
    (oldest : TypeHierarchyModel) (rest : Entries) :
  _models w = (key, oldest) :: rest ->
  length rest = 9%nat ->
  Map_get (id model) (_models w) = None ->
  models_put model w =
  match dispose oldest
          (mkWorld (heap w) ((key, oldest) :: rest ++ [(id model, model)])
             (trace w)) with
  | (Return _, wd) =>
      (Return tt, mkWorld (heap wd) (rest ++ [(id model, model)]) (trace wd))
  | (Throw e, wd) => (Throw e, wd)
  end.
Proof.
  intros Hw Hlen Hnew.
  destruct (Map_set_cases (id model) model (_models w))
    as [[_ Hset]|(old & Hold & _)]; [|congruence].
  unfold models_put. erewrite bind_Return by reflexivity.
  unfold models_forEach. cbn [_models]. rewrite Hset, Hw.
  change (((key, oldest) :: rest) ++ [(id model, model)])
    with ((key, oldest) :: rest ++ [(id model, model)]).
  set (w1 := mkWorld (heap w) ((key, oldest) :: rest ++ [(id model, model)])
               (trace w)).
  assert (Hover : (10 < Map_size (_models w1))%Z).
  { subst w1. unfold Map_size. simpl. rewrite length_app. simpl. lia. }
  assert (Hget : Map_get key (_models w1) = Some oldest).
  { subst w1. unfold Map_get. simpl. by rewrite String.eqb_refl. }
  destruct (dispose_effect oldest w1) as (c & wd & Hdisp & Hmodels & _).
  rewrite Hdisp. destruct c as [[]|e].
  - erewrite (forEach_from_hit key oldest oldest _ _ w1);
      [|exact Hget|by apply evict_callback_over_bound].
    rewrite Hmodels. subst w1. cbn [_models Map_delete].
    rewrite String.eqb_refl.
    apply forEach_from_within_bound. simpl. unfold Map_size.
    rewrite length_app. simpl. lia.
  - eapply forEach_from_throws; [exact Hget|].
    by apply evict_callback_throws.
Qed.

(** X10.  An insertion into a registry of at most ten entries calls
    [dispose()] in one case only: the registry holds ten and the id is new.
    Then [dispose()] is called on the model of the oldest entry, and on no
    other.  If the call returns, the entry is deleted and the new entry is
    the youngest of ten; if it throws, the insertion fails and the eleven
    entries stay.  In every other case the insertion returns, nothing is
    disposed, heap and trace are as before, the registry is the old one
    with the id set, and a lookup under any other key finds what it found
    before. *)
Theorem models_put_evicts_only_when_full (model : TypeHierarchyModel) (w : World) :
  (Map_size (_models w) <= 10)%Z ->
  exists c w',
    models_put model w = (c, w') /\
    ((Map_size (_models w) = 10%Z /\ Map_get (id model) (_models w) = None ->
      exists key oldest rest,
        _models w = (key, oldest) :: rest /\
        c = result (dispose oldest) w /\
        model_disposals (trace w') = model_disposals (trace w) ++ [oldest] /\
        (c = Return tt -> _models w' = rest ++ [(id model, model)]) /\
        (c <> Return tt -> _models w' = _models w ++ [(id model, model)])) /\
     ((Map_size (_models w) < 10)%Z \/ Map_get (id model) (_models w) <> None ->
      c = Return tt /\
      _models w' = Map_set (id model) model (_models w) /\
      heap w' = heap w /\ trace w' = trace w /\
      forall other, other <> id model ->
        Map_get other (_models w') = Map_get other (_models w))).
Proof.
  intros Hsize.
  destruct (models_put model w) as [c w'] eqn:Hput.
  exists c, w'. split; [done|]. unfold Map_size in *. split.
  - intros [Hfull Hnew].
    assert (Hcons : exists key oldest rest,
              _models w = (key, oldest) :: rest /\ length rest = 9%nat).
    { destruct (_models w) as [|[k o] r]; simpl in Hfull; [lia|].
      exists k, o, r. split; [done|lia]. }
    destruct Hcons as (key & oldest & rest & Hw & Hlen).
    exists key, oldest, rest.
    rewrite (models_put_full model w key oldest rest Hw Hlen Hnew) in Hput.
    set (w1 := mkWorld (heap w) ((key, oldest) :: rest ++ [(id model, model)])
                 (trace w)) in *.
    destruct (dispose_effect oldest w1) as (c1 & wd & Hdisp & Hmodels & Htr & _).
    assert (Hres : result (dispose oldest) w = c1).
    { trans (result (dispose oldest) w1); [by rewrite !dispose_result|].
      unfold result. by rewrite Hdisp. }
    rewrite Hdisp in Hput. rewrite Hres.
    destruct c1 as [[]|e]; injection Hput as <- <-; simpl;
      (split_and!; try done); intros _; by rewrite Hmodels, Hw.
  - intros Hroom.
    assert (Hset : models_put model w =
              (Return tt, mkWorld (heap w)
                            (Map_set (id model) model (_models w)) (trace w))).
    { apply models_put_within_bound. unfold Map_size.
      destruct (Map_set_cases (id model) model (_models w))
        as [[Hnone ->]|(_ & _ & -> & _)]; [|lia].
      rewrite length_app. simpl. destruct Hroom as [?|?]; [lia|done]. }
    rewrite Hput in Hset. injection Hset as -> ->. simpl.
    split_and!; [done..|]. intros other Hne. by apply Map_get_set_other.
Qed.

Lemma models_put_evicts_only_when_full_witness :
  exists w',
    models_put Samples.eleventh (Samples.ten_registered Samples.one_root)
    = (Return tt, w') /\
    (_models w').*1
    = ["k1"; "k2"; "k3"; "k4"; "k5"; "k6"; "k7"; "k8"; "k9"; "k10"] /\
    model_disposals (trace w') = [Samples.model_at 0 "k0"] /\
    session_disposals (trace w') = [Samples.one_root].
Proof.
  destruct (models_put_evicts_only_when_full Samples.eleventh
              (Samples.ten_registered Samples.one_root))
    as (c & w' & Hput & Hfull & _); [by vm_compute|].
  destruct (Hfull (conj eq_refl eq_refl))
    as (key & oldest & rest & Hw & Hc & Htr & Hreturned & _).
  vm_compute in Hw. injection Hw as <- <- <-.
  vm_compute in Hc. subst c.
  exists w'. split; [exact Hput|].
  specialize (Hreturned eq_refl). rewrite Hreturned, Htr.
  vm_compute in Hput. injection Hput as <-.
  split_and!; reflexivity.
Defined.

(** ** Prepare, then expand *)

Lemma append_eq_self (s t : string) : s +:+ t = s -> t = "".
Proof.
  induction s as [|a s IH]; [done|].
  change (String a (s +:+ t) = String a s -> t = ""). intros [= Heq]. by apply IH.
Qed.

Lemma models_put_keys (model : TypeHierarchyModel) (w w' : World) (key : string)
    (c : Completion unit) :
  models_put model w = (c, w') ->
  key ∈ (_models w').*1 -> key = id model \/ key ∈ (_models w).*1.
Proof.
  intros Hput Hkey.
  destruct (models_put_outcome model w)
    as (c_ & w_ & evicted & touched & Hput_ & Hsplit & _).
  rewrite Hput in Hput_. injection Hput_ as <- <-.
  assert (Hin : key ∈ (Map_set (id model) model (_models w)).*1).
  { rewrite Hsplit, fmap_app. apply elem_of_app. by right. }
  destruct (Map_set_cases (id model) model (_models w))
    as [[_ Hset]|(_ & _ & _ & Hkeys)].
  - rewrite Hset, fmap_app in Hin.
    apply elem_of_app in Hin as [?|Hin%list_elem_of_singleton]; [by right|by left].
  - rewrite Hkeys in Hin. by right.
Qed.

(** The prepare command when the provider answers with a session: the
    command returns the first root, or fails because a session evicted in
    the scan throws from its [dispose()]; the model is registered when the
    registry held at most ten entries or the id is new. *)
Lemma prepare_command_success `{Platform} (accessor : ServicesAccessor)
    (args : list JsValue) (w : World) (textModel : ITextModel)
    (released : list Event) (p : TypeHierarchyProvider.t)
    (ps : list TypeHierarchyProvider.t) (session : TypeHierarchySession.t) :
  isUri (arg 0 args) = true ->
  isIPosition (arg 1 args) = true ->
  (getModel accessor (arg 0 args) = Some textModel /\ released = []) \/
  (exists r, getModel accessor (arg 0 args) = None /\
     createModelReference accessor (arg 0 args) = Resolves r /\
     textEditorModel r = textModel /\ released = [ReferenceDispose r]) ->
  ordered textModel = p :: ps ->
  TypeHierarchyProvider.prepareTypeHierarchy p textModel (arg 1 args)
    CancellationToken.None = Resolves (Some session) ->
  let m := new_TypeHierarchyModel
             (foldl (fun acc c => acc +:+ TypeHierarchyItem._sessionId c) ""
                    (TypeHierarchySession.roots session))
             p (TypeHierarchySession.roots session) (length (heap w)) in
  let w' := exec (_executePrepareTypeHierarchy accessor args) w in
  (forall returned,
     result (_executePrepareTypeHierarchy accessor args) w = Return returned ->
     returned = [root m]) /\
  ((sessions_dispose_quietly w /\ TypeHierarchySession.dispose session = Return tt) \/
   (Map_size (_models w) < 10)%Z ->
   result (_executePrepareTypeHierarchy accessor args) w = Return [root m]) /\
  ((Map_size (_models w) <= 10)%Z \/ id m ∉ (_models w).*1 ->
   Map_get (id m) (_models w') = Some m) /\
  (forall key, key ∈ (_models w').*1 -> key = id m \/ key ∈ (_models w).*1).
Proof.
  intros Huri Hpos Hdoc Hp Hprep. cbv zeta. unfold result, exec.
  rewrite (_executePrepareTypeHierarchy_run accessor args w textModel released)
    by done.
  unfold prepare_try_block.
  pose proof (create_run textModel (arg 1 args) CancellationToken.None w) as Hcreate.
  rewrite Hp in Hcreate. cbv zeta in Hcreate. rewrite Hprep in Hcreate.
  erewrite bind_Return by exact Hcreate. cbv beta iota.
  set (m := new_TypeHierarchyModel
              (foldl (fun acc c => acc +:+ TypeHierarchyItem._sessionId c) ""
                     (TypeHierarchySession.roots session))
              p (TypeHierarchySession.roots session) (length (heap w))).
  set (w1 := mkWorld (heap w ++ [mkRefCounted 1 session]) (_models w)
               (trace (with_trace w
                  (trace w ++ [PrepareTypeHierarchyCall p textModel (arg 1 args)
                                 CancellationToken.None])))).
  destruct (models_put m w1) as [c w2] eqn:Hput.
  rewrite (bind_run _ _ _ _ _ Hput). split_and!.
  - intros returned. destruct c as [[]|e]; [|done]. by intros [= <-].
  - intros Hreturns.
    assert (Hc : c = Return tt).
    { destruct Hreturns as [[Hquiet Hsession]|Hroom].
      - destruct (models_put_effect m w1) as (w2_ & evicted & Hput_ & _).
        { subst w1. unfold sessions_dispose_quietly. simpl.
          apply Forall_app. split; [done|]. by apply Forall_singleton. }
        rewrite Hput in Hput_. by injection Hput_ as -> _.
      - rewrite (models_put_within_bound m w1) in Hput; [by injection Hput as <- _|].
        subst w1. unfold Map_size in *. cbn [_models].
        destruct (Map_set_cases (id m) m (_models w))
          as [[_ ->]|(_ & _ & -> & _)]; [rewrite length_app; simpl|]; lia. }
    by rewrite Hc.
  - intros Hpre.
    assert (Hget : Map_get (id m) (_models w2) = Some m).
    { eapply models_put_registers; [|exact Hput].
      destruct Hpre as [?|Hnew]; [by left|right]. by apply assoc_None. }
    by destruct c as [[]|e].
  - intros key Hkey. apply (models_put_keys m w1 w2 key c Hput).
    by destruct c as [[]|e].
Qed.

(** X11.  Prepare, then expand, with a session of one root, when the
    registry holds at most ten entries or has none under the root's
    [_sessionId].  The model is registered under that [_sessionId] when the
    command is over, whether it returned or failed in the eviction scan; if
    it returns, it returns the root, and it does return when no session
    throws from its [dispose()].  An expand command for any valid node that
    carries this [_sessionId] then reaches the provider that prepared the
    session: its result is what the expansion method makes of that
    provider's answer. *)
Theorem prepare_then_expand_single_root `{Platform}
    (accessor accessor' : ServicesAccessor) (args : list JsValue) (w : World)
    (textModel : ITextModel) (released : list Event)
    (p : TypeHierarchyProvider.t) (ps : list TypeHierarchyProvider.t)
    (session : TypeHierarchySession.t) (r : TypeHierarchyItem.t) (item : JsValue) :
  isUri (arg 0 args) = true ->
  isIPosition (arg 1 args) = true ->
  (getModel accessor (arg 0 args) = Some textModel /\ released = []) \/
  (exists ref, getModel accessor (arg 0 args) = None /\
     createModelReference accessor (arg 0 args) = Resolves ref /\
     textEditorModel ref = textModel /\ released = [ReferenceDispose ref]) ->
  (Map_size (_models w) <= 10)%Z \/
  TypeHierarchyItem._sessionId r ∉ (_models w).*1 ->
  ordered textModel = p :: ps ->
  TypeHierarchyProvider.prepareTypeHierarchy p textModel (arg 1 args)
    CancellationToken.None = Resolves (Some session) ->
  TypeHierarchySession.roots session = [r] ->
  isTypeHierarchyItemDto item = Return true ->
  get_prop item "_sessionId" = Return (JsString (TypeHierarchyItem._sessionId r)) ->
  let w' := exec (_executePrepareTypeHierarchy accessor args) w in
  (forall returned,
     result (_executePrepareTypeHierarchy accessor args) w = Return returned ->
     returned = [Some r]) /\
  (sessions_dispose_quietly w ->
   TypeHierarchySession.dispose session = Return tt ->
   result (_executePrepareTypeHierarchy accessor args) w = Return [Some r]) /\
  Map_get (TypeHierarchyItem._sessionId r) (_models w')
    = Some (new_TypeHierarchyModel (TypeHierarchyItem._sessionId r) p [r]
              (length (heap w))) /\
  result (_executeProvideSupertypes accessor' [item]) w' =
    Return (expansion_result
              (TypeHierarchyProvider.provideSupertypes p item CancellationToken.None)) /\
  result (_executeProvideSubtypes accessor' [item]) w' =
    Return (expansion_result
              (TypeHierarchyProvider.provideSubtypes p item CancellationToken.None)).
Proof.
  intros Huri Hpos Hdoc Hpre Hp Hprep Hroots Hok Hsid. cbv zeta.
  destruct (prepare_command_success accessor args w textModel released p ps session
              Huri Hpos Hdoc Hp Hprep) as (Hreturned & Hreturns & Hregistered & _).
  rewrite Hroots in Hreturned, Hreturns, Hregistered.
  cbn [foldl root new_TypeHierarchyModel id] in Hreturned, Hreturns, Hregistered.
  change ("" +:+ TypeHierarchyItem._sessionId r)
    with (TypeHierarchyItem._sessionId r) in Hregistered.
  specialize (Hregistered Hpre).
  split_and!; [done|by auto|done| |].
  - unfold result.
    rewrite (_executeProvideSupertypes_run accessor' [item] _ _ Hok Hsid).
    cbn [Map_get_any]. rewrite Hregistered.
    rewrite provideSupertypes_run. cbv zeta. simpl provider.
    change (arg 0 [item]) with item.
    by destruct (TypeHierarchyProvider.provideSupertypes _ _ _).
  - unfold result.
    rewrite (_executeProvideSubtypes_run accessor' [item] _ _ Hok Hsid).
    cbn [Map_get_any]. rewrite Hregistered.
    rewrite provideSubtypes_run. cbv zeta. simpl provider.
    change (arg 0 [item]) with item.
    by destruct (TypeHierarchyProvider.provideSubtypes _ _ _).
Qed.

Lemma prepare_then_expand_single_root_witness :
  result (_executePrepareTypeHierarchy (H:=Samples.platform) Samples.accessor
            [Samples.resource; Samples.position]) Samples.empty_world
  = Return [Some Samples.A] /\
  result (_executeProvideSupertypes (H:=Samples.platform) Samples.accessor
            [Samples.dto "S1"])
    (exec (_executePrepareTypeHierarchy (H:=Samples.platform) Samples.accessor
             [Samples.resource; Samples.position]) Samples.empty_world)
  = Return (JsArray [JsString "B"]).
Proof.
  assert (Hsize : (Map_size (_models Samples.empty_world) <= 10)%Z)
    by (by vm_compute).
  destruct (prepare_then_expand_single_root (H:=Samples.platform)
    Samples.accessor Samples.accessor [Samples.resource; Samples.position]
    Samples.empty_world Samples.document [] (Samples.provider_of (Some Samples.one_root))
    [] Samples.one_root Samples.A (Samples.dto "S1")
    eq_refl eq_refl (or_introl (conj eq_refl eq_refl)) (or_introl Hsize)
    eq_refl eq_refl eq_refl eq_refl eq_refl)
    as (_ & Hreturns & _ & Hup & _).
  split; [|exact Hup]. apply Hreturns; [constructor|reflexivity].
Defined.

(** X12.  Prepare, then expand, with a session of several roots.  If the
    command returns, it returns the first root alone.  The model is
    registered under the concatenation of all the roots' [_sessionId]s
    (when the registry held at most ten entries or had none under that
    key).  When the ids of the further roots do not concatenate to the
    empty string, and the registry had no entry under the first root's own
    [_sessionId], there is none after the command either: an expand command
    for the root just returned finds no model and returns undefined. *)
Theorem prepare_multi_root_is_unreachable `{Platform}
    (accessor accessor' : ServicesAccessor) (args : list JsValue) (w : World)
    (textModel : ITextModel) (released : list Event)
    (p : TypeHierarchyProvider.t) (ps : list TypeHierarchyProvider.t)
    (session : TypeHierarchySession.t) (r : TypeHierarchyItem.t)
    (others : list TypeHierarchyItem.t) (item : JsValue) :
  isUri (arg 0 args) = true ->
  isIPosition (arg 1 args) = true ->
  (getModel accessor (arg 0 args) = Some textModel /\ released = []) \/
  (exists ref, getModel accessor (arg 0 args) = None /\
     createModelReference accessor (arg 0 args) = Resolves ref /\
     textEditorModel ref = textModel /\ released = [ReferenceDispose ref]) ->
  ordered textModel = p :: ps ->
  TypeHierarchyProvider.prepareTypeHierarchy p textModel (arg 1 args)
    CancellationToken.None = Resolves (Some session) ->
  TypeHierarchySession.roots session = r :: others ->
  concatenation (TypeHierarchyItem._sessionId <$> others) <> "" ->
  TypeHierarchyItem._sessionId r ∉ (_models w).*1 ->
  isTypeHierarchyItemDto item = Return true ->
  get_prop item "_sessionId" = Return (JsString (TypeHierarchyItem._sessionId r)) ->
  let w' := exec (_executePrepareTypeHierarchy accessor args) w in
  let key := concatenation (TypeHierarchyItem._sessionId <$> r :: others) in
  (forall returned,
     result (_executePrepareTypeHierarchy accessor args) w = Return returned ->
     returned = [Some r]) /\
  (sessions_dispose_quietly w ->
   TypeHierarchySession.dispose session = Return tt ->
   result (_executePrepareTypeHierarchy accessor args) w = Return [Some r]) /\
  ((Map_size (_models w) <= 10)%Z \/ key ∉ (_models w).*1 ->
   Map_get key (_models w')
     = Some (new_TypeHierarchyModel key p (r :: others) (length (heap w)))) /\
  Map_get (TypeHierarchyItem._sessionId r) (_models w') = None /\
  _executeProvideSupertypes accessor' [item] w' = (Return JsUndefined, w') /\
  _executeProvideSubtypes accessor' [item] w' = (Return JsUndefined, w').
Proof.
  intros Huri Hpos Hdoc Hp Hprep Hroots Hrest Hfree Hok Hsid. cbv zeta.
  destruct (prepare_command_success accessor args w textModel released p ps session
              Huri Hpos Hdoc Hp Hprep) as (Hreturned & Hreturns & Hregistered & Hkeys).
  rewrite Hroots in Hreturned, Hreturns, Hregistered, Hkeys.
  rewrite reduce_concatenation in Hreturned, Hreturns, Hregistered, Hkeys.
  change ("" +:+ concatenation (TypeHierarchyItem._sessionId <$> r :: others))
    with (concatenation (TypeHierarchyItem._sessionId <$> r :: others))
    in Hreturned, Hreturns, Hregistered, Hkeys.
  cbn [root new_TypeHierarchyModel id] in Hreturned, Hreturns, Hregistered, Hkeys.
  assert (Hmiss : Map_get (TypeHierarchyItem._sessionId r)
                    (_models (exec (_executePrepareTypeHierarchy accessor args) w))
                  = None).
  { apply assoc_None. intros Hin. apply Hkeys in Hin as [Hid|Hin]; [|done].
    change (TypeHierarchyItem._sessionId r
            = TypeHierarchyItem._sessionId r
              +:+ concatenation (TypeHierarchyItem._sessionId <$> others)) in Hid.
    by apply eq_sym, append_eq_self in Hid. }
  split_and!; [done|by auto|done|done| |].
  - rewrite (_executeProvideSupertypes_run accessor' [item] _ _ Hok Hsid).
    cbn [Map_get_any]. by rewrite Hmiss.
  - rewrite (_executeProvideSubtypes_run accessor' [item] _ _ Hok Hsid).
    cbn [Map_get_any]. by rewrite Hmiss.
Qed.

Lemma prepare_multi_root_is_unreachable_witness :
  Map_get "S1S2"
    (_models (exec (_executePrepareTypeHierarchy (H:=Samples.platform2)
                      Samples.accessor [Samples.resource; Samples.position])
                Samples.empty_world))
  = Some (new_TypeHierarchyModel "S1S2" (Samples.provider_of (Some Samples.two_roots))
            [Samples.A; Samples.B] 0) /\
  _executeProvideSupertypes (H:=Samples.platform2) Samples.accessor
    [Samples.dto "S1"]
    (exec (_executePrepareTypeHierarchy (H:=Samples.platform2) Samples.accessor
             [Samples.resource; Samples.position]) Samples.empty_world)
  = (Return JsUndefined,
     exec (_executePrepareTypeHierarchy (H:=Samples.platform2) Samples.accessor
             [Samples.resource; Samples.position]) Samples.empty_world).
Proof.
  assert (Hsize : (Map_size (_models Samples.empty_world) <= 10)%Z)
    by (by vm_compute).
  destruct (prepare_multi_root_is_unreachable (H:=Samples.platform2)
    Samples.accessor Samples.accessor [Samples.resource; Samples.position]
    Samples.empty_world Samples.document [] (Samples.provider_of (Some Samples.two_roots))
    [] Samples.two_roots Samples.A [Samples.B] (Samples.dto "S1")
    eq_refl eq_refl (or_introl (conj eq_refl eq_refl))
    eq_refl eq_refl eq_refl)
    as (_ & _ & Hregistered & _ & Hup & _).
  - discriminate.
  - apply not_elem_of_nil.
  - reflexivity.
  - reflexivity.
  - split; [exact (Hregistered (or_introl Hsize))|exact Hup].
Defined.

(** ** Forks and disposal, away from the proper use *)

(** X13.  [dispose()] does not guard against a second call.  Take a model
    that holds the only reference to its session and fork it: when the
    original is disposed twice, the second call releases the reference of
    the fork, the session is disposed, and the fork, which was never
    disposed, is left with a handle of count zero.  The program ends as the
    session's [dispose()] ends. *)
Theorem dispose_twice_frees_a_live_fork (m : TypeHierarchyModel)
    (n : TypeHierarchyItem.t) (s : TypeHierarchySession.t) (w : World) :
  heap w !! ref m = Some (mkRefCounted 1 s) ->
  exists f w',
    (f ← fork m n; dispose m ≫= fun _ => dispose m ≫= fun _ => mret f) w
      = (TypeHierarchySession.dispose s ≫= fun _ => Return f, w') /\
    ref f = ref m /\
    model_disposals (trace w') = model_disposals (trace w) ++ [m; m] /\
    session_disposals (trace w') = session_disposals (trace w) ++ [s] /\
    heap w' !! ref f = Some (mkRefCounted 0 s).
Proof.
  intros Hcell. pose proof (lookup_lt_Some _ _ _ Hcell) as Hlt.
  eexists _, _. split.
  - erewrite bind_Return by (by apply fork_run).
    erewrite bind_run.
    2:{ apply dispose_run. simpl. by apply list_lookup_insert_eq. }
    rewrite dispose_outcome_live by (simpl; lia). cbv beta iota.
    erewrite bind_run.
    2:{ apply dispose_run. simpl. apply list_lookup_insert_eq.
        by rewrite length_insert. }
    unfold dispose_outcome. simpl.
    destruct (TypeHierarchySession.dispose s) as [[]|e]; reflexivity.
  - simpl. split_and!; [done| | |].
    + rewrite !model_disposals_app. simpl. by rewrite !app_nil_r, <- app_assoc.
    + rewrite !session_disposals_app. simpl. by rewrite !app_nil_r.
    + apply list_lookup_insert_eq. by rewrite !length_insert.
Qed.

Lemma dispose_twice_frees_a_live_fork_witness :
  exists f w',
    (f ← fork Samples.created_model Samples.B;
     dispose Samples.created_model ≫= fun _ =>
     dispose Samples.created_model ≫= fun _ => mret f) Samples.created_world
      = (Return f, w') /\
    session_disposals (trace w') = [Samples.one_root] /\
    heap w' !! ref f = Some (mkRefCounted 0 Samples.one_root).
Proof.
  destruct (dispose_twice_frees_a_live_fork Samples.created_model Samples.B
              Samples.one_root Samples.created_world eq_refl)
    as (f & w' & Hrun & _ & _ & Hsessions & Hcell).
  by exists f, w'.
Defined.

(** X14.  Forking a model and disposing the fork is a round trip as long
    as the handle is live (its count is not zero): heap and registry are
    as before and no session is disposed; the fork shares id, provider and
    handle with the original and is focused on the one node given. *)
Theorem fork_then_dispose_round_trip (m : TypeHierarchyModel)
    (n : TypeHierarchyItem.t) (c : RefCountedDisposable) (w : World) :
  heap w !! ref m = Some c ->
  _counter c <> 0%Z ->
  exists f w',
    (f ← fork m n; dispose f ≫= fun _ => mret f) w = (Return f, w') /\
    id f = id m /\ provider f = provider m /\ ref f = ref m /\
    roots f = [n] /\ root f = Some n /\
    heap w' = heap w /\ _models w' = _models w /\
    trace w' = trace w ++ [ModelDispose f].
Proof.
  intros Hcell Hlive. pose proof (lookup_lt_Some _ _ _ Hcell) as Hlt.
  eexists _, _. split.
  - erewrite bind_Return by (by apply fork_run).
    erewrite bind_run.
    2:{ apply dispose_run. simpl. by apply list_lookup_insert_eq. }
    rewrite dispose_outcome_live by (simpl; lia).
    reflexivity.
  - simpl. split_and!; try done.
    + rewrite list_insert_insert_eq.
      replace (_counter c + 1 - 1)%Z with (_counter c) by lia.
      apply list_insert_id. by destruct c.
    + replace (_counter c + 1 - 1)%Z with (_counter c) by lia.
      destruct (Z.eqb_spec (_counter c) 0); [done|]. by rewrite app_nil_r.
Qed.

Lemma fork_then_dispose_round_trip_witness :
  exists f w',
    (f ← fork Samples.created_model Samples.B; dispose f ≫= fun _ => mret f)
      Samples.created_world = (Return f, w') /\
    roots f = [Samples.B] /\
    heap w' = heap Samples.created_world.
Proof.
  destruct (fork_then_dispose_round_trip Samples.created_model Samples.B
              (mkRefCounted 1 Samples.one_root) Samples.created_world eq_refl)
    as (f & w' & Hrun & _ & _ & _ & Hroots & _ & Hheap & _); [done|].
  by exists f, w'.
Defined.

(** ** Eviction releases the session *)

(** An insertion within the bound that returns, as a step of the world:
    either the registry is set and nothing else happens, or the registry was
    full, the id is new, and the model of the oldest entry is disposed. *)
Lemma models_put_exact (model : TypeHierarchyModel) (w w' : World) :
  (Map_size (_models w) <= 10)%Z ->
  models_put model w = (Return tt, w') ->
  w' = mkWorld (heap w) (Map_set (id model) model (_models w)) (trace w) \/
  exists key oldest rest wd,
    _models w = (key, oldest) :: rest /\
    dispose oldest
      (mkWorld (heap w) ((key, oldest) :: rest ++ [(id model, model)]) (trace w))
      = (Return tt, wd) /\
    w' = mkWorld (heap wd) (rest ++ [(id model, model)]) (trace wd).
Proof.
  intros Hsize Hput. unfold Map_size in Hsize.
  destruct (decide (length (Map_set (id model) model (_models w)) <= 10)%nat)
    as [Hroom|Hfull].
  - left. rewrite models_put_within_bound in Hput; [by injection Hput as <-|].
    unfold Map_size. lia.
  - right.
    destruct (Map_set_cases (id model) model (_models w))
      as [[Hnew Hset]|(_ & _ & Hlen & _)]; [|lia].
    rewrite Hset, length_app in Hfull. simpl in Hfull.
    assert (Hcons : exists key oldest rest,
              _models w = (key, oldest) :: rest /\ length rest = 9%nat).
    { destruct (_models w) as [|[k o] r]; simpl in Hfull, Hsize; [lia|].
      exists k, o, r. split; [done|lia]. }
    destruct Hcons as (key & oldest & rest & Hw & Hlen).
    rewrite (models_put_full model w key oldest rest Hw Hlen Hnew) in Hput.
    destruct (dispose oldest _) as [[[]|e] wd] eqn:Hdisp; [|done].
    injection Hput as <-. by exists key, oldest, rest, wd.
Qed.

Lemma Forall2_frame {A B : Type} (P Q : A -> B -> Prop) (l : list A) (k : list B) :
  Forall2 P l k ->
  (forall x y, x ∈ l -> P x y -> Q x y) ->
  Forall2 Q l k.
Proof.
  induction 1 as [|x y l k Hxy _ IH]; intros Himpl; constructor.
  - apply Himpl; [by left|done].
  - apply IH. intros x' y' Hin. apply Himpl. by right.
Qed.

(** A step that adds cells to the heap and events other than disposals
    to the trace, and leaves the registry alone, keeps the handles of the
    registered and the disposed models as they are. *)
Lemma released_inv_frame (w w' : World) (cells : list RefCountedDisposable) :
  system_inv w ->
  heap w' = heap w ++ cells ->
  _models w' = _models w ->
  model_disposals (trace w') = model_disposals (trace w) ->
  session_disposals (trace w') = session_disposals (trace w) ->
  registered_hold_one w /\ evictions_released w ->
  registered_hold_one w' /\ evictions_released w'.
Proof.
  intros [_ Hbound] Hheap Hmodels Hmd Hsd [Hone Hreleased].
  unfold registered_hold_one, evictions_released.
  rewrite Hheap, Hmodels, Hmd, Hsd. split.
  - intros m Hm. destruct (Hone m Hm) as [s Hs]. exists s.
    rewrite lookup_app_l; [done|]. apply Hbound, elem_of_app. by left.
  - eapply Forall2_frame; [exact Hreleased|]. intros m s Hm Hs.
    rewrite lookup_app_l; [done|]. apply Hbound, elem_of_app. by right.
Qed.

(** Inserting a model that holds the newest cell of the heap, with count
    1: the registered models still hold one reference each, and an evicted
    model has released its session. *)
Lemma released_inv_put (model : TypeHierarchyModel) (s : TypeHierarchySession.t)
    (w w' : World) :
  system_inv w ->
  (forall m, m ∈ (_models w).*2 ++ model_disposals (trace w) ->
             (ref m < ref model)%nat) ->
  heap w !! ref model = Some (mkRefCounted 1 s) ->
  registered_hold_one w /\ evictions_released w ->
  models_put model w = (Return tt, w') ->
  registered_hold_one w' /\ evictions_released w'.
Proof.
  intros [(Hsize & _ & Hrefs & _) _] Hnewest Hcell [Hone Hreleased] Hput.
  destruct (models_put_exact model w w' Hsize Hput)
    as [->|(key & oldest & rest & wd & Hw & Hdisp & ->)].
  - unfold registered_hold_one, evictions_released. simpl. split; [|done].
    intros m Hm. eapply elem_of_submseteq in Hm; [|apply Map_set_values].
    apply elem_of_cons in Hm as [->|Hm]; [by exists s|by apply Hone].
  - destruct (Hone oldest) as [so Hso].
    { rewrite Hw, fmap_cons. by left. }
    rewrite (dispose_run oldest
               (mkWorld (heap w) ((key, oldest) :: rest ++ [(id model, model)])
                  (trace w))
               (mkRefCounted 1 so) Hso) in Hdisp.
    injection Hdisp as _ <-. simpl.
    pose proof (lookup_lt_Some _ _ _ Hso) as Hlt.
    (* the handle of the evicted model is no other model's handle *)
    rewrite Hw, fmap_cons in Hrefs. cbn [app fmap list_fmap] in Hrefs.
    apply NoDup_cons in Hrefs as [Hfresh _].
    assert (Hother : forall m,
              m ∈ rest.*2 ++ model_disposals (trace w) -> ref m <> ref oldest).
    { intros m Hm Heq. apply Hfresh. cbn [snd]. rewrite <- Heq.
      by apply list_elem_of_fmap_2. }
    assert (Hmodel : ref model <> ref oldest).
    { assert (ref oldest < ref model)%nat; [|lia].
      apply Hnewest. rewrite Hw, fmap_cons. by left. }
    unfold registered_hold_one, evictions_released. simpl. split.
    + intros m Hm. rewrite fmap_app in Hm.
      apply elem_of_app in Hm as [Hm|Hm%list_elem_of_singleton].
      * destruct (Hone m) as [sm Hsm].
        { rewrite Hw, fmap_cons. by right. }
        exists sm. rewrite list_lookup_insert_ne; [done|].
        apply not_eq_sym, Hother, elem_of_app. by left.
      * subst m. exists s. by rewrite list_lookup_insert_ne.
    + rewrite !model_disposals_app, !session_disposals_app. simpl.
      rewrite !app_nil_r. apply Forall2_app.
      * eapply Forall2_frame; [exact Hreleased|]. intros m sm Hm Hsm.
        rewrite list_lookup_insert_ne; [done|].
        apply not_eq_sym, Hother, elem_of_app. by right.
      * constructor; [|done]. by apply list_lookup_insert_eq.
Qed.

(** The prepare command, with the heap and the trace in full. *)
Lemma prepare_command_steps `{Platform} (accessor : ServicesAccessor)
    (args : list JsValue) (w : World) :
  let w' := exec (_executePrepareTypeHierarchy accessor args) w in
  (heap w' = heap w /\ _models w' = _models w /\
   exists t, trace w' = trace w ++ t /\ Forall (fun ev => is_disposal ev = false) t) \/
  (exists m s call c w2 t,
     is_disposal call = false /\
     ref m = length (heap w) /\
     (providers_dispose_quietly -> TypeHierarchySession.dispose s = Return tt) /\
     models_put m (mkWorld (heap w ++ [mkRefCounted 1 s]) (_models w)
                     (trace w ++ [call])) = (c, w2) /\
     heap w' = heap w2 /\ _models w' = _models w2 /\
     trace w' = trace w2 ++ t /\ Forall (fun ev => is_disposal ev = false) t).
Proof.
  cbv zeta.
  assert (Hnothing : heap w = heap w /\ _models w = _models w /\
            exists t, trace w = trace w ++ t /\
                      Forall (fun ev => is_disposal ev = false) t).
  { split_and!; [done..|]. exists []. by rewrite app_nil_r. }
  destruct (isUri (arg 0 args)) eqn:Huri;
    [|left; unfold exec, _executePrepareTypeHierarchy; cbv zeta;
      rewrite Huri; by unfold_M].
  destruct (isIPosition (arg 1 args)) eqn:Hpos;
    [|left; unfold exec, _executePrepareTypeHierarchy; cbv zeta;
      rewrite Huri, Hpos; by unfold_M].
  assert (Hresolved : forall textModel released,
    Forall (fun ev => is_disposal ev = false) released ->
    _executePrepareTypeHierarchy accessor args w =
      (let '(c, w') := prepare_try_block textModel (arg 1 args) w in
       (c, with_trace w' (trace w' ++ released))) ->
    (heap (exec (_executePrepareTypeHierarchy accessor args) w) = heap w /\
     _models (exec (_executePrepareTypeHierarchy accessor args) w) = _models w /\
     exists t,
       trace (exec (_executePrepareTypeHierarchy accessor args) w) = trace w ++ t /\
       Forall (fun ev => is_disposal ev = false) t) \/
    (exists m s call c w2 t,
       is_disposal call = false /\
       ref m = length (heap w) /\
       (providers_dispose_quietly -> TypeHierarchySession.dispose s = Return tt) /\
       models_put m (mkWorld (heap w ++ [mkRefCounted 1 s]) (_models w)
                       (trace w ++ [call])) = (c, w2) /\
       heap (exec (_executePrepareTypeHierarchy accessor args) w) = heap w2 /\
       _models (exec (_executePrepareTypeHierarchy accessor args) w) = _models w2 /\
       trace (exec (_executePrepareTypeHierarchy accessor args) w) = trace w2 ++ t /\
       Forall (fun ev => is_disposal ev = false) t)).
  { intros textModel released Hreleased Hrun. unfold exec. rewrite Hrun.
    unfold prepare_try_block.
    pose proof (create_run textModel (arg 1 args) CancellationToken.None w)
      as Hcreate.
    destruct (ordered textModel) as [|p ps] eqn:Hordered.
    { left. erewrite bind_Return by exact Hcreate. simpl.
      split_and!; [done..|]. by exists released. }
    cbv zeta in Hcreate.
    destruct (TypeHierarchyProvider.prepareTypeHierarchy _ _ _ _)
      as [[session|]|e|e] eqn:Hprepare.
    - right. erewrite bind_Return by exact Hcreate. cbv beta iota.
      match goal with
      | |- context [(models_put ?m ≫= _) ?w1] =>
          destruct (models_put m w1) as [c w2] eqn:Hput;
          exists m, session,
            (PrepareTypeHierarchyCall p textModel (arg 1 args)
               CancellationToken.None), c, w2, released;
          rewrite (bind_run _ _ _ _ _ Hput)
      end.
      split_and!; try done.
      + intros Hproviders. by eapply Hproviders.
      + by destruct c as [[]|e].
      + by destruct c as [[]|e].
      + by destruct c as [[]|e].
    - left. erewrite bind_Return by exact Hcreate. simpl.
      split_and!; [done..|]. eexists (_ :: released). rewrite <- app_assoc.
      split; [reflexivity|]. by constructor.
    - left. erewrite bind_Throw by exact Hcreate. simpl.
      split_and!; [done..|]. eexists (_ :: released). rewrite <- app_assoc.
      split; [reflexivity|]. by constructor.
    - left. erewrite bind_Throw by exact Hcreate. simpl.
      split_and!; [done..|]. eexists (_ :: released). rewrite <- app_assoc.
      split; [reflexivity|]. by constructor. }
  destruct (getModel accessor (arg 0 args)) as [textModel|] eqn:Hget.
  - apply (Hresolved textModel []); [done|].
    apply _executePrepareTypeHierarchy_run; auto.
  - destruct (createModelReference accessor (arg 0 args)) as [r|e|e] eqn:Hopen.
    + apply (Hresolved (textEditorModel r) [ReferenceDispose r]);
        [by repeat constructor|].
      apply _executePrepareTypeHierarchy_run; auto. right. by exists r.
    + left. unfold exec, _executePrepareTypeHierarchy. cbv zeta.
      rewrite Huri, Hpos, Hget, Hopen. by unfold_M.
    + left. unfold exec, _executePrepareTypeHierarchy. cbv zeta.
      rewrite Huri, Hpos, Hget, Hopen. by unfold_M.
Qed.

Lemma no_disposals (t : list Event) :
  Forall (fun ev => is_disposal ev = false) t ->
  model_disposals t = [] /\ session_disposals t = [].
Proof.
  induction 1 as [|ev t Hev _ [IHm IHs]]; [done|].
  destruct ev; try done; simpl; by rewrite ?IHm, ?IHs.
Qed.

Lemma expand_commands_steps `{Platform} (accessor : ServicesAccessor)
    (args : list JsValue) (w : World) :
  (heap (exec (_executeProvideSupertypes accessor args) w) = heap w /\
   _models (exec (_executeProvideSupertypes accessor args) w) = _models w /\
   exists t,
     trace (exec (_executeProvideSupertypes accessor args) w) = trace w ++ t /\
     Forall (fun ev => is_disposal ev = false) t) /\
  (heap (exec (_executeProvideSubtypes accessor args) w) = heap w /\
   _models (exec (_executeProvideSubtypes accessor args) w) = _models w /\
   exists t,
     trace (exec (_executeProvideSubtypes accessor args) w) = trace w ++ t /\
     Forall (fun ev => is_disposal ev = false) t).
Proof.
  unfold exec.
  assert (Hnothing : heap w = heap w /\ _models w = _models w /\
            exists t, trace w = trace w ++ t /\
                      Forall (fun ev => is_disposal ev = false) t).
  { split_and!; [done..|]. exists []. by rewrite app_nil_r. }
  destruct (isTypeHierarchyItemDto (arg 0 args)) as [[|]|e] eqn:Hok.
  - destruct (isTypeHierarchyItemDto_true_readable _ "_sessionId" Hok) as [sid Hsid].
    rewrite (_executeProvideSupertypes_run accessor args w sid Hok Hsid).
    rewrite (_executeProvideSubtypes_run accessor args w sid Hok Hsid).
    destruct (Map_get_any sid (_models w)) as [model|]; [|done].
    rewrite provideSupertypes_run, provideSubtypes_run. cbv zeta.
    split.
    + destruct (TypeHierarchyProvider.provideSupertypes _ _ _); simpl;
        (split_and!; [done..|]); rewrite <- ?app_assoc;
        eexists; (split; [reflexivity|by repeat constructor]).
    + destruct (TypeHierarchyProvider.provideSubtypes _ _ _); simpl;
        (split_and!; [done..|]); rewrite <- ?app_assoc;
        eexists; (split; [reflexivity|by repeat constructor]).
  - destruct (expand_commands_reject_malformed accessor args w Hok) as [-> ->].
    done.
  - unfold _executeProvideSupertypes, _executeProvideSubtypes. cbv zeta.
    rewrite Hok. by unfold_M.
Qed.

Lemma after_command_released `{Platform} (c : Command) (w : World) :
  providers_dispose_quietly ->
  system_inv w ->
  sessions_dispose_quietly w ->
  registered_hold_one w /\ evictions_released w ->
  registered_hold_one (after_command c w) /\ evictions_released (after_command c w).
Proof.
  intros Hproviders Hinv Hquiet Hrel.
  assert (Hframe : forall w',
    heap w' = heap w -> _models w' = _models w ->
    (exists t, trace w' = trace w ++ t /\
               Forall (fun ev => is_disposal ev = false) t) ->
    registered_hold_one w' /\ evictions_released w').
  { intros w' Hheap Hmodels (t & Htr & [Hmd Hsd]%no_disposals).
    apply (released_inv_frame w w' []); try done.
    - by rewrite app_nil_r.
    - by rewrite Htr, model_disposals_app, Hmd, app_nil_r.
    - by rewrite Htr, session_disposals_app, Hsd, app_nil_r. }
  destruct c as [accessor args|accessor args|accessor args]; simpl.
  - destruct (prepare_command_steps accessor args w)
      as [(Hheap & Hmodels & Ht)
         |(m & s & call & c & w2 & t & Hcall & Href & Hsession & Hput & Hheap
           & Hmodels & Htr & Ht)];
      [by apply Hframe|].
    set (w1 := mkWorld (heap w ++ [mkRefCounted 1 s]) (_models w)
                 (trace w ++ [call])) in *.
    assert (Hquiet1 : sessions_dispose_quietly w1).
    { subst w1. unfold sessions_dispose_quietly. simpl.
      apply Forall_app. split; [done|]. apply Forall_singleton. by apply Hsession. }
    destruct (models_put_effect m w1 Hquiet1) as (w2_ & evicted & Hput_ & _).
    rewrite Hput in Hput_. injection Hput_ as -> <-.
    assert (Hmd1 : model_disposals (trace w1) = model_disposals (trace w)).
    { subst w1. simpl. rewrite model_disposals_app.
      destruct call; try done; simpl; by rewrite app_nil_r. }
    assert (Hsd1 : session_disposals (trace w1) = session_disposals (trace w)).
    { subst w1. simpl. rewrite session_disposals_app.
      destruct call; try done; simpl; by rewrite app_nil_r. }
    assert (Hinv1 : system_inv w1).
    { apply (system_inv_frame w w1); [done|done| |done].
      subst w1. simpl. rewrite length_app. lia. }
    assert (Hrel1 : registered_hold_one w1 /\ evictions_released w1).
    { by apply (released_inv_frame w w1 [mkRefCounted 1 s]). }
    assert (Hnewest : forall m', m' ∈ (_models w1).*2 ++ model_disposals (trace w1) ->
                                 (ref m' < ref m)%nat).
    { intros m' Hm'. rewrite Hmd1 in Hm'. destruct Hinv as [_ Hbound].
      specialize (Hbound m' Hm'). lia. }
    assert (Hcell : heap w1 !! ref m = Some (mkRefCounted 1 s)).
    { subst w1. simpl. rewrite Href, lookup_app_r by lia.
      by rewrite Nat.sub_diag. }
    pose proof (released_inv_put m s w1 w2 Hinv1 Hnewest Hcell Hrel1 Hput)
      as [Hone2 Hreleased2].
    destruct (no_disposals t Ht) as [Hmd Hsd].
    unfold registered_hold_one, evictions_released in *.
    rewrite Hheap, Hmodels, Htr, model_disposals_app, session_disposals_app.
    rewrite Hmd, Hsd, !app_nil_r. by split.
  - destruct (expand_commands_steps accessor args w) as [(Hh & Hm & Ht) _].
    by apply Hframe.
  - destruct (expand_commands_steps accessor args w) as [_ (Hh & Hm & Ht)].
    by apply Hframe.
Qed.

(** X15.  The registry releases what it evicts, when no session throws
    from its [dispose()]: none held at the start, and none that a provider
    hands out.  From a world with an empty registry and no disposals, after
    any sequence of requests: every registered model holds the only
    reference to its session (count 1); every model the registry disposed
    has a handle of count zero; and the provider sessions disposed are
    exactly the sessions of these handles, one per evicted model, in the
    order of eviction. *)
Theorem commands_release_evicted_sessions `{Platform} (cs : list Command)
    (w0 : World) :
  providers_dispose_quietly ->
  sessions_dispose_quietly w0 ->
  _models w0 = [] ->
  model_disposals (trace w0) = [] ->
  session_disposals (trace w0) = [] ->
  let w := after_commands cs w0 in
  registered_hold_one w /\
  evictions_released w /\
  length (session_disposals (trace w)) = length (model_disposals (trace w)).
Proof.
  intros Hproviders Hquiet Hempty Hmd Hsd. cbv zeta.
  assert (Hall : (system_inv (after_commands cs w0) /\
                  sessions_dispose_quietly (after_commands cs w0)) /\
                 registered_hold_one (after_commands cs w0) /\
                 evictions_released (after_commands cs w0)).
  { unfold after_commands.
    assert (H0 : (system_inv w0 /\ sessions_dispose_quietly w0) /\
                 registered_hold_one w0 /\ evictions_released w0).
    { split_and!.
      - split; [|rewrite Hempty, Hmd; by intros m ?%elem_of_nil].
        rewrite Hempty, Hmd. by apply registry_inv_empty.
      - done.
      - unfold registered_hold_one. rewrite Hempty. by intros m ?%elem_of_nil.
      - unfold evictions_released. rewrite Hmd, Hsd. constructor. }
    clear Hempty Hmd Hsd Hquiet. revert w0 H0.
    induction cs as [|c cs IH]; intros w0 (Hinv & Hrel); [done|].
    simpl. apply IH. split.
    - by apply after_command_system_inv.
    - destruct Hinv as [Hinv Hquiet]. by apply after_command_released. }
  destruct Hall as (_ & Hone & Hreleased). split_and!; [done..|].
  symmetry. exact (Forall2_length _ _ _ Hreleased).
Qed.

Lemma commands_release_evicted_sessions_witness :
  let w := after_commands (H:=Samples.line_platform) Samples.eleven_prepares
             Samples.empty_world in
  session_disposals (trace w) = [Samples.line_session 0] /\
  _counter <$> heap w = [0; 1; 1; 1; 1; 1; 1; 1; 1; 1; 1]%Z /\
  registered_hold_one w /\ evictions_released w.
Proof.
  destruct (commands_release_evicted_sessions (H:=Samples.line_platform)
              Samples.eleven_prepares Samples.empty_world)
    as (Hone & Hreleased & _).
  - intros doc position token p ps session [= <- _] Hprepare.
    destruct position as [| | | | |props|]; try done. simpl in Hprepare.
    destruct (assoc "lineNumber" props) as [[| | |n| | |]|]; try done.
    by injection Hprepare as <-.
  - constructor.
  - reflexivity.
  - reflexivity.
  - reflexivity.
  - split_and!; [by vm_compute|by vm_compute|done|done].
Defined.

Lemma expand_commands_only_call_provider_witness :
  heap (exec (_executeProvideSubtypes (H:=Samples.platform) Samples.accessor
                [Samples.dto "k3"])
          (mkWorld [] (imap (fun i k => (k, Samples.model_at i k)) Samples.ten_keys) []))
  = [] /\
  (_models (exec (_executeProvideSubtypes (H:=Samples.platform) Samples.accessor
                    [Samples.dto "k3"])
              (mkWorld [] (imap (fun i k => (k, Samples.model_at i k))
                             Samples.ten_keys) []))).*1
  = Samples.ten_keys.
Proof.
  destruct (proj2 (expand_commands_only_call_provider (H:=Samples.platform)
                     Samples.accessor [Samples.dto "k3"]
                     (mkWorld [] (imap (fun i k => (k, Samples.model_at i k))
                                    Samples.ten_keys) [])))
    as (Hheap & Hmodels & _).
  cbv zeta in Hheap, Hmodels. rewrite Hheap, Hmodels. by split.
Defined.

Lemma commands_never_cancel_witness :
  exists t,
    trace (after_command (H:=Samples.platform)
             (Prepare Samples.accessor [Samples.resource; Samples.position])
             Samples.empty_world) = t /\
    omap call_token t = [CancellationToken.None].
Proof.
  destruct (commands_never_cancel (H:=Samples.platform)
              (Prepare Samples.accessor [Samples.resource; Samples.position])
              Samples.empty_world) as (t & Htr & _).
  exists t. split; [exact Htr|].
  vm_compute in Htr. by rewrite <- Htr.
Defined.
